(** * ViperMonkey command line front end (vmonkey.py): source normalizer and
    per-document driver

    A shallow embedding of [vipermonkey/vmonkey.py].  Python 2 [str] values are
    byte strings, modelled by [string] (a list of 8-bit [ascii]); Python
    [set]s and [dict]s are stdpp [gset]s and [gmap]s; [print] and the log are an
    explicit output trace; exceptions are an explicit result type. *)

From stdpp Require Import gmap strings list fin_maps pretty.
From Stdlib Require Import Ascii.

(** ** Python 2 byte-string methods used by vmonkey.py *)

Module Str.

Definition nl : ascii := "010"%char.
Definition dquote : ascii := "034"%char.
Definition NL : string := String nl EmptyString.
Definition DQ : string := String dquote EmptyString.

(** [c.isspace()] in the C locale, which is also the class [\s] of [re]:
    space, tab, newline, vertical tab, form feed, carriage return. *)
Definition isspace (c : ascii) : bool :=
  let n := nat_of_ascii c in (n =? 32) || ((9 <=? n) && (n <=? 13)).

(** The class [\w] of [re] on byte strings: letters, digits, underscore. *)
Definition isword (c : ascii) : bool :=
  let n := nat_of_ascii c in
  ((48 <=? n) && (n <=? 57)) || ((65 <=? n) && (n <=? 90))
  || ((97 <=? n) && (n <=? 122)) || (n =? 95).

Fixpoint lstrip (s : string) : string :=
  match s with
  | EmptyString => EmptyString
  | String c s' => if isspace c then lstrip s' else s
  end.
Fixpoint rstrip (s : string) : string :=
  match s with
  | EmptyString => EmptyString
  | String c s' =>
      match rstrip s' with
      | EmptyString => if isspace c then EmptyString else String c EmptyString
      | r => String c r
      end
  end.
(** [s.strip()] *)
Definition strip (s : string) : string := rstrip (lstrip s).

(** [s.startswith(p)] *)
Fixpoint startswith (s p : string) : bool :=
  match p, s with
  | EmptyString, _ => true
  | String a p', String b s' => if Ascii.eqb a b then startswith s' p' else false
  | String _ _, EmptyString => false
  end.
(** [s.endswith(p)]: some suffix of [s] is [p]. *)
Fixpoint endswith (s p : string) : bool :=
  String.eqb s p
  || match s with
     | EmptyString => false
     | String _ s' => endswith s' p
     end.

(** [s.find(sub)]: position of the first occurrence, [None] for Python's -1
    (where [s.index(sub)] raises ValueError). *)
Fixpoint find (sub s : string) : option nat :=
  if startswith s sub then Some 0
  else match s with
       | EmptyString => None
       | String _ s' => S <$> find sub s'
       end.
(** [s.rfind(sub)]: position of the last occurrence. *)
Fixpoint rfind (sub s : string) : option nat :=
  match s with
  | EmptyString => if startswith s sub then Some 0 else None
  | String _ s' =>
      match rfind sub s' with
      | Some i => Some (S i)
      | None => if startswith s sub then Some 0 else None
      end
  end.
(** [sub in s] *)
Definition contains (sub s : string) : bool :=
  match find sub s with Some _ => true | None => false end.

(** [s[i:]] and [s[i:j]] for non-negative bounds. *)
Fixpoint drop (i : nat) (s : string) : string :=
  match i, s with
  | S i', String _ s' => drop i' s'
  | _, _ => s
  end.
Fixpoint take (i : nat) (s : string) : string :=
  match i, s with
  | S i', String c s' => String c (take i' s')
  | _, _ => EmptyString
  end.
Definition slice (i j : nat) (s : string) : string := take (j - i) (drop i s).

(** [s.replace(old, new)] for a non-empty [old]: occurrences are found left
    to right and do not overlap.  [skip] counts the characters of a matched
    occurrence that are still to be dropped. *)
Fixpoint replace_go (old new s : string) (skip : nat) : string :=
  match s with
  | EmptyString => EmptyString
  | String c s' =>
      match skip with
      | S k => replace_go old new s' k
      | 0 =>
          if startswith s old
          then new +:+ replace_go old new s' (String.length old - 1)
          else String c (replace_go old new s' 0)
      end
  end.
Definition replace (old new s : string) : string := replace_go old new s 0.

(** [s.split(c)] for a one-character separator: never the empty list. *)
Fixpoint split (c : ascii) (s : string) : list string :=
  match s with
  | EmptyString => [EmptyString]
  | String a s' =>
      if Ascii.eqb a c then EmptyString :: split c s'
      else match split c s' with
           | hd :: tl => String a hd :: tl
           | [] => [String a EmptyString]
           end
  end.

(** [s.count(c)] for a one-character argument. *)
Fixpoint count (c : ascii) (s : string) : nat :=
  match s with
  | EmptyString => 0
  | String a s' => (if Ascii.eqb a c then 1 else 0) + count c s'
  end.

(** [s.lower()] in the C locale. *)
Definition lower_char (c : ascii) : ascii :=
  let n := nat_of_ascii c in
  if (65 <=? n) && (n <=? 90) then ascii_of_nat (n + 32) else c.
Fixpoint lower (s : string) : string :=
  match s with
  | EmptyString => EmptyString
  | String c s' => String (lower_char c) (lower s')
  end.

(** [c * n] for a one-character string [c]. *)
Fixpoint repeat (c : ascii) (n : nat) : string :=
  match n with
  | 0 => EmptyString
  | S n' => String c (repeat c n')
  end.

(** The text of the lines, each followed by a newline: what a loop
    [for l in ls: r += l + NL] appends to [r]. *)
Fixpoint unlines (ls : list string) : string :=
  match ls with
  | [] => EmptyString
  | l :: ls' => l +:+ NL +:+ unlines ls'
  end.

End Str.

(** ** [collapse_macro_if_blocks] *)

(** Loop state: [curr_blocks] ([None] while no [#If] is tracked),
    [curr_block] and the result text [r]. *)
Record collapse_state := CollapseState {
  curr_blocks : option (list (list string));
  curr_block : list string;
  collapse_r : string
}.

(** The [for block in curr_blocks] loop choosing [biggest_block]: a block
    replaces the current choice only when it is strictly longer. *)
Definition pick_biggest (blocks : list (list string)) : list string :=
  foldl (fun biggest_block block =>
           if bool_decide (length biggest_block < length block) then block
           else biggest_block) [] blocks.

(** One iteration of the loop over [vba_code.split(NL)]. *)
Definition collapse_step (st : collapse_state) (line : string) : collapse_state :=
  let strip_line := Str.strip line in
  match curr_blocks st with
  | None =>
      if Str.startswith strip_line "#If"
      then CollapseState (Some []) [] (collapse_r st)
      else CollapseState None (curr_block st) (collapse_r st +:+ line +:+ Str.NL)
  | Some blocks =>
      if Str.startswith strip_line "#Else" || Str.startswith strip_line "Else"
      then CollapseState (Some (blocks ++ [curr_block st])) [] (collapse_r st)
      else if Str.startswith strip_line "#End"
      then
        let blocks' := blocks ++ [curr_block st] in
        let biggest_block := pick_biggest blocks' in
        CollapseState None [] (collapse_r st +:+ Str.unlines biggest_block)
      else CollapseState (Some blocks) (curr_block st ++ [line]) (collapse_r st)
  end.

Definition collapse_init : collapse_state := CollapseState None [] EmptyString.

Definition collapse_macro_if_blocks (vba_code : string) : string :=
  collapse_r (foldl collapse_step collapse_init (Str.split Str.nl vba_code)).

(** ** Line classifiers *)

(** [is_useless_dim(line)] *)
Definition is_useless_dim (line : string) : bool :=
  let line := Str.strip line in
  if negb (Str.startswith line "Dim ") then false
  else negb (Str.contains "Byte" line)
       && negb (Str.contains "Long" line)
       && negb (Str.contains "Integer" line)
       && negb (Str.contains ":" line)
       && negb (Str.contains "=" line)
       && negb (Str.endswith (Str.strip line) "_").

Definition log_funcs : list string :=
  ["CreateProcessA"; "CreateProcessW"; ".run"; "CreateObject";
   "Open"; ".Open"; "GetObject"; "Create"; ".Create"; "Environ";
   "CreateTextFile"; ".CreateTextFile"; "Eval"; ".Eval"; "Run";
   "SetExpandedStringValue"; "WinExec"; "URLDownloadToFile"; "Print"].

(** The name a declaration line gives to an external function: the text
    between the first [Function] and the first [Lib], stripped; [None] when
    the line lacks one of the two words (the line is then skipped). *)
Definition ext_func_of_decl (ext_func_decl : string) : option string :=
  match Str.find "Function" ext_func_decl, Str.find "Lib" ext_func_decl with
  | Some i, Some j =>
      Some (Str.strip (Str.slice (i + String.length "Function") j ext_func_decl))
  | _, _ => None
  end.

(** [is_interesting_call(line, external_funcs)] *)
Definition is_interesting_call (line : string) (external_funcs : list string) : bool :=
  existsb (fun func => Str.contains func line) log_funcs
  || existsb (fun ext_func_decl =>
                match ext_func_of_decl ext_func_decl with
                | Some ext_func => Str.contains ext_func line
                | None => false
                end) external_funcs.

Definition useless_funcs : gset string :=
  list_to_set ["Cos"; "Log"; "Cos"; "Exp"; "Sin"; "Tan"].

(** [is_useless_call(line)].  [line.index] cannot raise here: the line holds
    an opening parenthesis, and deleting spaces keeps it. *)
Definition is_useless_call (line : string) : bool :=
  if Str.contains "=" line then false
  else if negb (Str.contains "(" line) then false
  else
    let line := Str.replace " " "" line in
    match Str.find "(" line with
    | Some i => bool_decide (Str.take i line ∈ useless_funcs)
    | None => false
    end.

(** ** The assignment pattern [assign_re]

    The pattern is: any white space, group 1, any white space, an equals
    sign, any white space, each as long as possible; group 1 is a run of word
    characters followed by any number of (dot, run of word characters).

    The classes [\s] and [\w] are disjoint and neither holds the dot or the
    equals sign, so the greedy match from a given start is the only
    candidate: giving back a character of a white-space run, of a word run or
    an iteration of the repeated group leaves the next pattern item facing a
    character it cannot take.  The matcher below therefore takes the longest
    run at each item and fails otherwise. *)

(** After the first word character: the rest of group 1, returned with the
    text that follows it. *)
Fixpoint name_tail (s : string) : string * string :=
  match s with
  | EmptyString => (EmptyString, EmptyString)
  | String c s' =>
      if Str.isword c then
        let '(m, r) := name_tail s' in (String c m, r)
      else if Ascii.eqb c "."%char then
        match s' with
        | String d _ =>
            if Str.isword d then
              let '(m, r) := name_tail s' in (String c m, r)
            else (EmptyString, s)
        | EmptyString => (EmptyString, s)
        end
      else (EmptyString, s)
  end.

(** A match of the pattern starting exactly at the head of [s]: group 1 and
    the text after the match. *)
Definition assign_re_match (s : string) : option (string * string) :=
  match Str.lstrip s with
  | String c s1 =>
      if Str.isword c then
        let '(m, r) := name_tail s1 in
        match Str.lstrip r with
        | String e r1 =>
            if Ascii.eqb e "="%char then Some (String c m, Str.lstrip r1) else None
        | EmptyString => None
        end
      else None
  | EmptyString => None
  end.

(** [assign_re.findall(line)], keeping group 1 of every match (the code reads
    only [var[0]] of each tuple).  The scan resumes after a match, one
    character further after a failure; every round consumes a character, so
    [fuel] = length + 1 is never exhausted. *)
Fixpoint findall_fuel (fuel : nat) (s : string) : list string :=
  match fuel with
  | 0 => []
  | S fuel' =>
      match assign_re_match s with
      | Some (var, rest) => var :: findall_fuel fuel' rest
      | None =>
          match s with
          | EmptyString => []
          | String _ s' => findall_fuel fuel' s'
          end
      end
  end.
Definition assign_re_findall (line : string) : list string :=
  findall_fuel (S (String.length line)) line.

(** ** [strip_useless_code], first loop: collect the assigned variables *)

Record scan_state := ScanState {
  change_callbacks : gset string;
  assigns : gmap string (gset nat);
  scan_line_num : nat;
  external_funcs : list string
}.

Definition bool_statements : list string := ["If"; "For"; "Do"].

(** The [=] lies between the first and the last double quote of the line.
    [line.index] cannot raise: the pattern matched, so the line holds [=]. *)
Definition eq_between_quotes (line : string) : bool :=
  match Str.find "=" line, Str.find Str.DQ line, Str.rfind Str.DQ line with
  | Some eq_index, Some qu_index1, Some qu_index2 =>
      bool_decide (qu_index1 < eq_index) && bool_decide (eq_index < qu_index2)
  | _, _, _ => false
  end.

(** [line[line.rindex(=) + 1:]] *)
Definition assigned_val (line : string) : string :=
  match Str.rfind "=" line with
  | Some i => Str.drop (S i) line
  | None => EmptyString
  end.

(** The [for var in match] loop. *)
Definition track_vars (line : string) (line_num : nat) (vars : list string)
    (assigns : gmap string (gset nat)) : gmap string (gset nat) :=
  foldl (fun assigns var =>
           let val := assigned_val line in
           if Str.contains "." val then assigns
           else if Str.contains "CreateObject" val then assigns
           else <[var := {[line_num]} ∪ default ∅ (assigns !! var)]> assigns)
        assigns vars.

(** The chain of [continue] tests applied to a line on which the pattern
    matched: [true] when the line is skipped. *)
Definition skip_assign_line (line : string) (external_funcs : list string) : bool :=
  let strip_line := Str.strip line in
  Str.startswith (Str.strip line) "Function "
  || Str.endswith (Str.strip line) "_"
  || (Str.contains "Sub " line || Str.contains "Function " line)
  || (Str.contains "GetObject" line || Str.contains "Shell" line)
  || is_interesting_call line external_funcs
  || existsb (fun bool_statement => Str.startswith strip_line (bool_statement +:+ " "))
       bool_statements
  || (Str.startswith strip_line "." || Str.startswith (Str.lower strip_line) "let .")
  || (Str.contains Str.DQ line && eq_between_quotes line).

(** The name of the data item of a change callback line. *)
Definition callback_data_name (line : string) : string :=
  Str.strip (Str.replace "_Change" ""
            (Str.replace "()" ""
            (Str.replace " " ""
            (Str.replace "Private " ""
            (Str.replace "Sub " "" line))))).

Definition scan_step (st : scan_state) (line : string) : scan_state :=
  let external_funcs :=
    if Str.contains "Declare" line && Str.contains "Lib" line
    then external_funcs st ++ [Str.strip line] else external_funcs st in
  let change_callbacks :=
    if Str.contains "Sub " line && Str.contains "_Change(" line
    then {[callback_data_name line]} ∪ change_callbacks st
    else change_callbacks st in
  let line_num := S (scan_line_num st) in
  let matched := assign_re_findall line in
  let assigns :=
    if bool_decide (0 < length matched) then
      if skip_assign_line line external_funcs then assigns st
      else track_vars line line_num matched (assigns st)
    else assigns st in
  ScanState change_callbacks assigns line_num external_funcs.

Definition scan_init : scan_state := ScanState ∅ ∅ 0 [].

Definition scan_lines (lines : list string) : scan_state :=
  foldl scan_step scan_init lines.

(** ** Second loop: which assigned variables are referenced *)

(** One line of the reference scan. *)
Definition mark_refs (assigns : gmap string (gset nat))
    (acc : gmap string bool * nat) (line : string) : gmap string bool * nat :=
  let line_num := S acc.2 in
  (map_imap (fun var referenced =>
               if bool_decide (line_num ∈ default ∅ (assigns !! var)) then Some referenced
               else if Str.contains var line then Some true
               else Some referenced) acc.1,
   line_num).

Definition compute_refs (assigns : gmap string (gset nat))
    (change_callbacks : gset string) (lines : list string) : gmap string bool :=
  let refs := map_imap (fun var _ => Some (Str.contains "." var)) assigns in
  let refs := (foldl (mark_refs assigns) (refs, 0) lines).1 in
  set_fold (fun change_var refs =>
              map_imap (fun var referenced =>
                          Some (Str.contains change_var var
                                || Str.contains var change_var
                                || referenced)) refs)
           refs change_callbacks.

(** [comment_lines] and [keep_lines], then the lines of the first that are
    not in the second. *)
Definition split_lines_by_refs (assigns : gmap string (gset nat))
    (refs : gmap string bool) : gset nat * gset nat :=
  map_fold (fun (var : string) (referenced : bool) (acc : gset nat * gset nat) =>
              let nums : gset nat := default ∅ (assigns !! var) in
              if referenced then (acc.1, nums ∪ acc.2) else (nums ∪ acc.1, acc.2))
           (∅, ∅) refs.

Definition comment_lines_of (lines : list string) : gset nat :=
  let st := scan_lines lines in
  let refs := compute_refs (assigns st) (change_callbacks st) lines in
  let '(comment_lines, keep_lines) := split_lines_by_refs (assigns st) refs in
  comment_lines ∖ keep_lines.

(** ** Third loop: rewrite the lines *)

Record rewrite_state := RewriteState {
  rw_line_num : nat;
  if_count : Z;
  rw_r : string
}.

(** The rewriting of an [Application.Run] line: quotes and the call name go,
    and [WScript.Shell] leads when the first of several comma-separated
    fields, stripped, has no space. *)
Definition fix_application_run (line : string) : string :=
  let line := Str.replace "Application.Run" "" (Str.replace Str.DQ "" line) in
  let fields := Str.split ","%char line in
  if bool_decide (1 < length fields)
     && negb (Str.contains " " (Str.strip (default EmptyString (head fields))))
  then "WScript.Shell " +:+ line else line.

Definition is_quoted_application_run (line : string) : bool :=
  Str.startswith (Str.strip line) "Application.Run"
  && bool_decide (Str.count Str.dquote line = 2)
  && Str.endswith (Str.strip line) Str.DQ.

(** What the loop appends to [r] for a line it keeps. *)
Definition keep_line (line : string) : string :=
  if Str.endswith line "End Function"
     && bool_decide (String.length "End Function" < String.length line)
  then Str.replace "End Function" "" line +:+ Str.NL +:+ "End Function" +:+ Str.NL
  else if is_quoted_application_run line
  then fix_application_run line +:+ Str.NL
  else line +:+ Str.NL.

(** The line is dropped for the variables it assigns. *)
Definition stripped_by_usage (comment_lines : gset nat) (line_num : nat)
    (line : string) : bool :=
  bool_decide (line_num ∈ comment_lines)
  && negb (Str.startswith (Str.strip line) "Function ")
  && negb (Str.startswith (Str.strip line) "Sub ")
  && negb (Str.startswith (Str.strip line) "End Sub")
  && negb (Str.startswith (Str.strip line) "End Function").

Definition rewrite_step (comment_lines : gset nat) (st : rewrite_state)
    (line : string) : rewrite_state :=
  let line_num := S (rw_line_num st) in
  let if_count :=
    if Str.startswith (Str.strip line) "If " then (if_count st + 1)%Z
    else if_count st in
  let is_end_if := Str.startswith (Str.strip line) "End If" in
  if is_end_if && bool_decide (if_count - 1 < 0)%Z then
    RewriteState line_num 0 (rw_r st +:+ "End Function" +:+ Str.NL)
  else
    let if_count := if is_end_if then (if_count - 1)%Z else if_count in
    if stripped_by_usage comment_lines line_num line then
      RewriteState line_num if_count (rw_r st)
    else if is_useless_call line then RewriteState line_num if_count (rw_r st)
    else if is_useless_dim line then RewriteState line_num if_count (rw_r st)
    else RewriteState line_num if_count (rw_r st +:+ keep_line line).

Definition rewrite_init : rewrite_state := RewriteState 0 0 EmptyString.

Definition rewrite_lines (comment_lines : gset nat) (lines : list string) : rewrite_state :=
  foldl (rewrite_step comment_lines) rewrite_init lines.

(** [strip_useless_code(vba_code)] *)
Definition strip_useless_code (vba_code : string) : string :=
  let lines := Str.split Str.nl vba_code in
  let comment_lines := comment_lines_of lines in
  let r := rw_r (rewrite_lines comment_lines lines) in
  collapse_macro_if_blocks r.

(** ** Exceptions, output and module-level state of the driver *)

(** A raised exception: pyparsing's [ParseException] with the fields the
    driver reads, or any other exception with its text [str(e)];
    [is_exception] tells whether its class derives from [Exception]
    (KeyboardInterrupt, SystemExit and GeneratorExit do not). *)
Inductive exn :=
| ParseException (line : string) (column : nat) (text : string)
| OtherException (is_exception : bool) (text : string).

Definition is_Exception (e : exn) : bool :=
  match e with
  | ParseException _ _ _ => true
  | OtherException b _ => b
  end.

Definition is_ParseException (e : exn) : bool :=
  match e with
  | ParseException _ _ _ => true
  | OtherException _ _ => false
  end.

(** [str(e)] *)
Definition exn_str (e : exn) : string :=
  match e with
  | ParseException _ _ text => text
  | OtherException _ text => text
  end.

(** What the driver writes: a [print] statement, [traceback.print_exc()],
    [log.error] and [log.info].  Calls of [log.debug] are left out. *)
Inductive event :=
| Printed (s : string)
| Traceback (e : exn)
| LogError (s : string)
| LogInfo (s : string).

Inductive result (A : Type) :=
| Return (a : A)
| Raise (e : exn).
Arguments Return {A} a.
Arguments Raise {A} e.

Section Driver.

(** Opaque data of the collaborators: the parsed module of the grammar, the
    OLE metadata, an entry of the action log, the rest of the emulator. *)
Context {AST Meta Action Core : Type}.

(** The metadata globals hold what [get_metadata()] returned, or the empty
    dict written when reading fails. *)
Inductive meta_value :=
| MetaOf (m : Meta)
| MetaEmptyDict.

(** Output and the globals of the core modules that [process_file] writes:
    [vba_library.meta], [vba_object.meta], [vba_context.out_dir]. *)
Record py_state := PyState {
  output : list event;
  vba_library_meta : option meta_value;
  vba_object_meta : option meta_value;
  vba_context_out_dir : option string
}.

Definition M (A : Type) : Type := py_state -> result A * py_state.

#[global] Instance M_ret : MRet M := fun A a s => (Return a, s).
#[global] Instance M_bind : MBind M := fun A B f m s =>
  match m s with
  | (Return a, s') => f a s'
  | (Raise e, s') => (Raise e, s')
  end.

Definition lift {A} (r : result A) : M A := fun s => (r, s).
Definition emit (ev : event) : M unit := fun s =>
  (Return (), PyState (output s ++ [ev]) (vba_library_meta s)
                (vba_object_meta s) (vba_context_out_dir s)).
Definition print (text : string) : M unit := emit (Printed text).
Definition set_library_meta (v : meta_value) : M unit := fun s =>
  (Return (), PyState (output s) (Some v) (vba_object_meta s) (vba_context_out_dir s)).
Definition set_object_meta : M unit := fun s =>
  (Return (), PyState (output s) (vba_library_meta s) (vba_library_meta s)
                (vba_context_out_dir s)).
Definition set_out_dir (d : string) : M unit := fun s =>
  (Return (), PyState (output s) (vba_library_meta s) (vba_object_meta s) (Some d)).

(** [try: body except <classes> as e: handler e]; [catches] tells which
    exceptions the clause takes. *)
Definition try_except {A} (catches : exn -> bool) (body : M A)
    (handler : exn -> M A) : M A := fun s =>
  match body s with
  | (Raise e, s') => if catches e then handler e s' else (Raise e, s')
  | (Return a, s') => (Return a, s')
  end.

(** A [for] loop with effects, threading a value through the iterations. *)
Fixpoint for_each {A B} (xs : list A) (acc : B) (body : B -> A -> M B) : M B :=
  match xs with
  | [] => mret acc
  | x :: xs' => acc' ← body acc x; for_each xs' acc' body
  end.

(** What [parse_stream] returns for a macro stream: [None] after a parse
    failure, the string sentinel for an empty macro, otherwise the parsed
    module with its [code] attribute set. *)
Inductive stream_module :=
| ModuleNone
| ModuleStr (s : string)
| ModuleObj (ast : AST) (code : string).

(** [m != empty-sentinel] *)
Definition not_empty_sentinel (m : stream_module) : bool :=
  match m with
  | ModuleStr s => negb (String.eqb s "empty")
  | ModuleNone | ModuleObj _ _ => true
  end.

(** The emulator object, with the attributes the driver touches. *)
Record ViperMonkey := MkViperMonkey {
  entry_points : list string;
  doc_vars : gmap string string;
  doc_text : string;
  globals : gmap string string;
  actions : list Action;
  vm_core : Core
}.

(** One form control, as [extract_form_strings_extended] yields it. *)
Record form_variables := FormVariables {
  fv_name : string;
  fv_tag : option string;
  fv_caption : option string;
  fv_value : option string;
  fv_control_tip_text : option string
}.

(** The oletools [VBA_Parser] object. *)
Record VBA := MkVBA {
  detect_vba_macros : result bool;
  extract_macros : result (list (string * string * string * string));
  extract_form_strings_extended :
    result (list (string * string * option form_variables))
}.

(** The collaborators outside vmonkey.py. *)
Record collaborators := Collaborators {
  vba_collapse_long_lines : string -> string;
  filter_vba : string -> string;
  repr : string -> string;
  module_parseString : string -> result AST;
  ViperMonkey_new : result ViperMonkey;
  add_compiled_module : ViperMonkey -> stream_module -> result ViperMonkey;
  vm_trace : ViperMonkey -> M ViperMonkey;
  dump_actions : ViperMonkey -> result string;
  str_entry_points : list string -> string;
  VBA_Parser : string -> option string -> result VBA;
  OleFileIO_get_metadata : string -> result Meta;
  read_file : string -> result string;
  read_1Table : string -> result string;
  read_DocumentSummaryInformation : string -> result (option string);
  findall_printable_runs : string -> list string;
  findall_wide_runs : string -> list string;
  findall_words : string -> list string;
  multiprocessing_pool_map :
    list (string * string * string * string * bool) -> M (list stream_module)
}.

Variable w : collaborators.

(** *** The document readers *)

(** The pairing loop of [_read_doc_vars] and [_read_custom_doc_props]:
    every string with the string that follows it. *)
Fixpoint pair_with_next (strs : list string) : list (string * string) :=
  match strs with
  | s :: ((s1 :: _) as rest) => (s, s1) :: pair_with_next rest
  | _ => []
  end.

Definition _read_doc_text (fname : string) : M string :=
  try_except is_Exception
    (data ← lift (read_file w fname);
     mret (Str.unlines (findall_printable_runs w data)))
    (fun e =>
       emit (LogError ("Cannot read document text from " +:+ fname +:+ ". " +:+ exn_str e));;
       mret EmptyString).

Definition _read_doc_vars (fname : string) : M (list (string * string)) :=
  try_except is_Exception
    (data ← lift (read_1Table w fname);
     let strs :=
       map (fun s => Str.strip (Str.replace (String "000" EmptyString) "" s))
           (findall_wide_runs w data) in
     mret (pair_with_next strs))
    (fun e =>
       emit (LogError ("Cannot read document variables. " +:+ exn_str e));;
       mret []).

Definition _read_custom_doc_props (fname : string) : M (list (string * string)) :=
  try_except is_Exception
    (data ← lift (read_DocumentSummaryInformation w fname);
     match data with
     | None => mret []
     | Some data => mret (pair_with_next (findall_words w data))
     end)
    (fun e =>
       emit (LogError ("Cannot read custom doc properties. " +:+ exn_str e));;
       mret []).

(** *** [parse_stream] and [parse_streams] *)

Fixpoint repeat_str (s : string) (n : nat) : string :=
  match n with
  | 0 => EmptyString
  | S n' => s +:+ repeat_str s n'
  end.

(** [parse_stream], called with its five arguments as [parse_streams_serial]
    does.  Resetting the cache of the parser after a successful parse leaves
    no trace in this model. *)
Definition parse_stream (subfilename stream_path vba_filename vba_code : string)
    (strip_useless : bool) : M stream_module :=
  let vba_code := vba_collapse_long_lines w vba_code in
  let vba_code := filter_vba w vba_code in
  let vba_code := if strip_useless then strip_useless_code vba_code else vba_code in
  print (repeat_str "-" 79);;
  print ("VBA MACRO " +:+ vba_filename +:+ " ");;
  print ("in file: " +:+ subfilename +:+ " - OLE stream: " +:+ repr w stream_path);;
  print (repeat_str "- " 39);;
  if String.eqb (Str.strip vba_code) EmptyString then
    print "(empty macro)";;
    mret (ModuleStr "empty")
  else
    print (repeat_str "-" 79);;
    print "VBA CODE (with long lines collapsed):";;
    print vba_code;;
    print (repeat_str "-" 79);;
    print "PARSING VBA CODE:";;
    try_except is_ParseException
      (m ← lift (module_parseString w (vba_code +:+ Str.NL));
       mret (ModuleObj m vba_code))
      (fun err =>
         match err with
         | ParseException line column _ =>
             print line;;
             print (repeat_str " " (column - 1) +:+ "^");;
             print (exn_str err);;
             print "Parse Error. Processing Aborted.";;
             mret ModuleNone
         | OtherException _ _ => lift (Raise err)
         end).

(** The loop of [parse_streams_serial]: the first stream that fails to
    parse ends it with [None]. *)
Fixpoint parse_streams_serial_loop
    (macros : list (string * string * string * string)) (strip_useless : bool)
    (r : list stream_module) : M (option (list stream_module)) :=
  match macros with
  | [] => mret (Some r)
  | (subfilename, stream_path, vba_filename, vba_code) :: macros' =>
      m ← parse_stream subfilename stream_path vba_filename vba_code strip_useless;
      match m with
      | ModuleNone => mret None
      | _ => parse_streams_serial_loop macros' strip_useless (r ++ [m])
      end
  end.

Definition parse_streams_serial (vba : VBA) (strip_useless : bool)
    : M (option (list stream_module)) :=
  macros ← lift (extract_macros vba);
  parse_streams_serial_loop macros strip_useless [].

(** [parse_streams_parallel] hands the argument tuples to a worker pool,
    whose scheduling is a collaborator. *)
Definition parse_streams_parallel (vba : VBA) (strip_useless : bool)
    : M (list stream_module) :=
  macros ← lift (extract_macros vba);
  multiprocessing_pool_map w
    (map (fun '(subfilename, stream_path, vba_filename, vba_code) =>
            (subfilename, stream_path, vba_filename, vba_code, strip_useless)) macros).

(** The module constant [parallel]. *)
Definition parallel : bool := false.

(** [parse_streams]: the list of modules, or [None]. *)
Definition parse_streams (vba : VBA) (strip_useless : bool)
    : M (option (list stream_module)) :=
  if parallel then
    r ← parse_streams_parallel vba strip_useless; mret (Some r)
  else parse_streams_serial vba strip_useless.

(** *** [process_file] *)

(** The first byte above 127 of a text, with its position. *)
Fixpoint first_non_ascii (s : string) (pos : nat) : option (ascii * nat) :=
  match s with
  | EmptyString => None
  | String c s' =>
      if bool_decide (nat_of_ascii c < 128) then first_non_ascii s' (S pos)
      else Some (c, pos)
  end.

Definition hex_digit (n : nat) : ascii :=
  default "0"%char (String.get n "0123456789abcdef").

(** The UnicodeDecodeError of the ASCII codec, a subclass of [Exception],
    with the text that [str(e)] gives. *)
Definition UnicodeDecodeError (c : ascii) (pos : nat) : exn :=
  OtherException true
    ("'ascii' codec can't decode byte 0x"
     +:+ String (hex_digit (nat_of_ascii c / 16))
           (String (hex_digit (nat_of_ascii c mod 16)) EmptyString)
     +:+ " in position " +:+ pretty pos +:+ ": ordinal not in range(128)").

(** [s.encode(ascii, ignore)] on a byte string.  Python 2 first decodes the
    bytes with the strict ASCII codec, so that a byte above 127 raises
    UnicodeDecodeError, the error handler [ignore] of the encoding never
    coming into play; a text of ASCII bytes comes back as it is. *)
Definition encode_ascii_ignore (s : string) : result string :=
  match first_non_ascii s 0 with
  | Some (c, pos) => Raise (UnicodeDecodeError c pos)
  | None => Return s
  end.

(** The part of a path after its last slash. *)
Definition after_last_slash (s : string) : string :=
  match Str.rfind "/" s with
  | Some i => Str.drop (i + 1) s
  | None => s
  end.

Definition clean_form_text (s : option string) : string :=
  Str.replace (String "003" EmptyString) ""
    (Str.replace (String "177" EmptyString) "" (default EmptyString s)).

(** The five globals written for one name of a form control. *)
Definition set_form_globals (name val tag caption control_tip_text : string)
    (globals : gmap string string) : gmap string string :=
  <[name +:+ ".text" := val]>
    (<[name +:+ ".controltiptext" := control_tip_text]>
      (<[name +:+ ".caption" := caption]>
        (<[name +:+ ".tag" := tag]>
          (<[name := val]> globals)))).

(** The body of the loop over the form controls: the name is encoded
    before any global is written, so that a control whose name cannot be
    encoded leaves the globals as they were and raises. *)
Definition add_form_variables (vm : ViperMonkey)
    (item : string * string * option form_variables) : result ViperMonkey :=
  let '(subfilename, stream_path, form_variables) := item in
  match form_variables with
  | None => Return vm
  | Some fv =>
      let var_name := fv_name fv in
      let macro_name := after_last_slash stream_path in
      match encode_ascii_ignore (macro_name +:+ "." +:+ var_name) with
      | Raise e => Raise e
      | Return encoded =>
          let global_var_name := Str.replace (String "000" EmptyString) "" encoded in
          let tag := clean_form_text (fv_tag fv) in
          let caption := clean_form_text (fv_caption fv) in
          let val := default caption (fv_value fv) in
          let control_tip_text := clean_form_text (fv_control_tip_text fv) in
          let name := Str.lower global_var_name in
          let globals :=
            set_form_globals name val tag caption control_tip_text (globals vm) in
          let short_name := Str.lower global_var_name in
          let globals :=
            match Str.rfind "." short_name with
            | Some i =>
                set_form_globals (Str.drop (i + 1) short_name) val tag caption
                  control_tip_text globals
            | None => globals
            end in
          Return (MkViperMonkey (entry_points vm) (doc_vars vm) (doc_text vm) globals
                    (actions vm) (vm_core vm))
      end
  end.

(** The loop over the form controls: it ends at the first control that
    raises. *)
Fixpoint add_all_form_variables (vm : ViperMonkey)
    (forms : list (string * string * option form_variables)) : result ViperMonkey :=
  match forms with
  | [] => Return vm
  | item :: forms' =>
      match add_form_variables vm item with
      | Return vm' => add_all_form_variables vm' forms'
      | Raise e => Raise e
      end
  end.

Definition set_doc_var (vm : ViperMonkey) (kv : string * string) : ViperMonkey :=
  MkViperMonkey (entry_points vm) (<[Str.lower kv.1 := kv.2]> (doc_vars vm))
    (doc_text vm) (globals vm) (actions vm) (vm_core vm).

Definition set_doc_text (vm : ViperMonkey) (text : string) : ViperMonkey :=
  MkViperMonkey (entry_points vm) (doc_vars vm) text (globals vm) (actions vm)
    (vm_core vm).

Definition append_entry_point (vm : ViperMonkey) (entry_point : string) : ViperMonkey :=
  MkViperMonkey (entry_points vm ++ [entry_point]) (doc_vars vm) (doc_text vm)
    (globals vm) (actions vm) (vm_core vm).

(** The directory for dumped files, from the name of the document. *)
Definition artifacts_dir (filename : string) : string :=
  let out_dir := filename +:+ "_artifacts" in
  let out_dir := after_last_slash out_dir in
  let out_dir := Str.strip (Str.replace "." "" out_dir) in
  "./" +:+ out_dir +:+ "/".

(** Reading the metadata of the document (any failure is caught) and
    setting the directory for dumped files. *)
Definition prepare_emulation (filename : string) : M unit :=
  try_except (fun _ => true)
    (meta ← lift (OleFileIO_get_metadata w filename);
     set_library_meta (MetaOf meta);;
     set_object_meta)
    (fun _ =>
       emit (LogError "Reading in metadata failed.");;
       set_library_meta MetaEmptyDict);;
  set_out_dir (artifacts_dir filename).

(** The loop handing the parsed modules to the emulator: the sentinel of an
    empty macro is passed over. *)
Definition add_compiled_modules (comp_modules : list stream_module)
    (vm : ViperMonkey) : M ViperMonkey :=
  for_each comp_modules vm (fun vm m =>
    if not_empty_sentinel m then lift (add_compiled_module w vm m)
    else mret vm).

(** The statements of [process_file] that follow the parsing of the
    streams, once it gave a list of modules: the modules, the document
    variables, the custom properties, the text and the form controls go to
    the emulator, which then traces.  The value is what the function
    returns. *)
Definition emulate_parsed (vm : ViperMonkey) (vba : VBA) (filename : string)
    (entry_points : option (list string)) (comp_modules : list stream_module)
    : M (option (list Action)) :=
  vm ← add_compiled_modules comp_modules vm;
  vars ← _read_doc_vars filename;
  let vm := foldl set_doc_var vm vars in
  props ← _read_custom_doc_props filename;
  let vm := foldl set_doc_var vm props in
  text ← _read_doc_text filename;
  let vm := set_doc_text vm text in
  vm ← try_except is_Exception
          (forms ← lift (extract_form_strings_extended vba);
           lift (add_all_form_variables vm forms))
          (fun e =>
             emit (LogError ("Cannot read form strings. " +:+ exn_str e));;
             emit (Traceback e);;
             lift (Raise e));
  print (repeat_str "-" 79);;
  print "TRACING VBA CODE (entrypoint = Auto*):";;
  match entry_points with
  | Some entry_points =>
      emit (LogInfo ("Starting emulation from function(s) "
                     +:+ str_entry_points w entry_points))
  | None => mret ()
  end;;
  vm ← vm_trace w vm;
  print "Recorded Actions:";;
  table ← lift (dump_actions w vm);
  print table;;
  print "";;
  mret (Some (actions vm)).

(** The statements of [process_file] inside its [try], once macros were
    detected: a document one of whose streams does not parse ends here with
    [None]. *)
Definition emulate_macros (vm : ViperMonkey) (vba : VBA) (filename : string)
    (strip_useless : bool) (entry_points : option (list string))
    : M (option (list Action)) :=
  prepare_emulation filename;;
  comp_modules ← parse_streams vba strip_useless;
  match comp_modules with
  | None => mret None
  | Some comp_modules => emulate_parsed vm vba filename entry_points comp_modules
  end.

(** The [try] block of [process_file]. *)
Definition process_file_body (vm : ViperMonkey) (filename : string)
    (data : option string) (strip_useless : bool)
    (entry_points : option (list string)) : M (option (list Action)) :=
  vba ← lift (VBA_Parser w filename data);
  has_macros ← lift (detect_vba_macros vba);
  if has_macros : bool then emulate_macros vm vba filename strip_useless entry_points
  else
    print "No VBA macros found.";;
    print "";;
    mret (Some []).

(** The [except Exception as e] clause of [process_file]. *)
Definition process_file_handler (e : exn) : M (option (list Action)) :=
  (if negb (Str.contains "SystemExit" (exn_str e)) then emit (Traceback e)
   else mret ());;
  mret None.

(** [process_file(container, filename, data, altparser, strip_useless,
    entry_points)]: [Some] list of actions, or [None].  Raising the
    recursion limit of the interpreter leaves no trace in this model. *)
Definition process_file (container : option string) (filename : string)
    (data : option string) (altparser strip_useless : bool)
    (entry_points : option (list string)) : M (option (list Action)) :=
  let display_filename :=
    match container with
    | Some c =>
        if String.eqb c EmptyString then filename else filename +:+ " in " +:+ c
    | None => filename
    end in
  print (repeat_str "=" 79);;
  print ("FILE: " +:+ display_filename);;
  vm ← lift (ViperMonkey_new w);
  let vm := foldl append_entry_point vm (default [] entry_points) in
  try_except is_Exception
    (process_file_body vm filename data strip_useless entry_points)
    process_file_handler.

End Driver.


(** ** Vocabulary of the statements *)

(** Openings and closings as the rewriting loop recognises them. *)
Definition if_openings (lines : list string) : Z :=
  Z.of_nat (length (filter (fun l => Str.startswith (Str.strip l) "If " = true) lines)).
Definition end_if_closings (lines : list string) : Z :=
  Z.of_nat (length (filter (fun l => Str.startswith (Str.strip l) "End If" = true) lines)).

(** By how much the [End If] lines of a text outnumber its [If] openings. *)
Definition end_if_excess (lines : list string) : Z :=
  end_if_closings lines - if_openings lines.

(** The marker lines of a conditional-compilation block as
    [collapse_macro_if_blocks] recognises them. *)
Definition is_if_marker (l : string) : bool :=
  Str.startswith (Str.strip l) "#If".
Definition is_else_marker (l : string) : bool :=
  Str.startswith (Str.strip l) "#Else" || Str.startswith (Str.strip l) "Else".
Definition is_end_marker (l : string) : bool :=
  Str.startswith (Str.strip l) "#End".

(** The lines between the opening and the closing marker of a block: a first
    arm, then any number of (separator line, arm). *)
Definition block_body (arm : list string) (more : list (string * list string))
    : list string :=
  arm ++ flat_map (fun sa => sa.1 :: sa.2) more.

(** The names whose presence on a line keeps it out of the assignment
    table: the list of [is_interesting_call] and the two names tested just
    before it. *)
Definition tracked_builtins : list string := log_funcs ++ ["GetObject"; "Shell"].

(** A line that declares an external function, and the name it declares. *)
Definition is_external_decl (line : string) : bool :=
  Str.contains "Declare" line && Str.contains "Lib" line.

(** A string of white space only. *)
Fixpoint all_space (s : string) : bool :=
  match s with
  | EmptyString => true
  | String c s' => Str.isspace c && all_space s'
  end.

(** What entering the table tells about a line. *)
Definition tracked_line (lines : list string) (k : nat) : Prop :=
  exists i line,
    k = S i /\ lines !! i = Some line
    /\ 0 < length (assign_re_findall line)
    /\ skip_assign_line line (external_funcs (scan_lines (take (S i) lines))) = false
    /\ Str.contains "." (assigned_val line) = false
    /\ Str.contains "CreateObject" (assigned_val line) = false.

(** The last character of a string. *)
Fixpoint last_char (s : string) : option ascii :=
  match s with
  | EmptyString => None
  | String c EmptyString => Some c
  | String _ s' => last_char s'
  end.

(** A line that no rule of [strip_useless_code] touches; lines opening an
    [If] are among them. *)
Definition untouched_line (l : string) : bool :=
  negb (Str.contains "=" l)
  && negb (Str.startswith (Str.strip l) "End If")
  && negb (is_useless_call l)
  && negb (is_useless_dim l)
  && negb (Str.endswith l "End Function"
           && bool_decide (String.length "End Function" < String.length l))
  && negb (is_quoted_application_run l)
  && negb (Str.startswith (Str.strip l) "#If").



(** ** Vocabulary of the statements about the driver *)

(** The state after the events [evs] were written. *)
Definition emitting {Meta : Type} (evs : list event) (s : @py_state Meta) : py_state :=
  PyState (output s ++ evs) (vba_library_meta s) (vba_object_meta s)
    (vba_context_out_dir s).

(** The code of a stream as [parse_stream] parses it. *)
Definition normalized_code {AST Meta Action Core : Type}
    (w : @collaborators AST Meta Action Core) (vba_code : string)
    (strip_useless : bool) : string :=
  let vba_code := filter_vba w (vba_collapse_long_lines w vba_code) in
  if strip_useless then strip_useless_code vba_code else vba_code.

(** The four lines [parse_stream] prints before looking at the code. *)
Definition stream_header {AST Meta Action Core : Type}
    (w : @collaborators AST Meta Action Core)
    (subfilename stream_path vba_filename : string) : list event :=
  [Printed (repeat_str "-" 79);
   Printed ("VBA MACRO " +:+ vba_filename +:+ " ");
   Printed ("in file: " +:+ subfilename +:+ " - OLE stream: " +:+ repr w stream_path);
   Printed (repeat_str "- " 39)].

(** What [parse_stream] prints for a stream whose parse fails. *)
Definition parse_failure_report {AST Meta Action Core : Type}
    (w : @collaborators AST Meta Action Core)
    (subfilename stream_path vba_filename code line : string) (column : nat)
    (text : string) : list event :=
  stream_header w subfilename stream_path vba_filename
  ++ [Printed (repeat_str "-" 79);
      Printed "VBA CODE (with long lines collapsed):";
      Printed code;
      Printed (repeat_str "-" 79);
      Printed "PARSING VBA CODE:";
      Printed line;
      Printed (repeat_str " " (column - 1) +:+ "^");
      Printed text;
      Printed "Parse Error. Processing Aborted."].

(** The two lines [process_file] prints first. *)
Definition file_banner (container : option string) (filename : string) : list event :=
  [Printed (repeat_str "=" 79);
   Printed ("FILE: " +:+
            match container with
            | Some c =>
                if String.eqb c EmptyString then filename else filename +:+ " in " +:+ c
            | None => filename
            end)].

(** *** A small world to run the driver in

    The parser of this world rejects any text holding [@@]; the emulator it
    provides does nothing; the constructor of the emulator and the container
    reader are parameters.  Its [repr] of a string and [str] of a list of
    strings are those of Python for strings of letters, digits, spaces,
    dots and slashes, which need no escape. *)

Definition sample_parse_error : exn :=
  ParseException "Sub Broken(@@" 12
    "Expected end of text (at char 11), (line:1, col:12)".

Definition sample_vm : @ViperMonkey string unit :=
  MkViperMonkey [] ∅ EmptyString ∅ [] ().

Definition sample_world (new_emulator : result (@ViperMonkey string unit))
    (open_document : string -> option string -> result (@VBA))
    : @collaborators unit unit string unit :=
  {| vba_collapse_long_lines := fun code => code;
     filter_vba := fun code => code;
     repr := fun s => "'" +:+ s +:+ "'";
     module_parseString := fun code =>
       if Str.contains "@@" code then Raise sample_parse_error else Return ();
     ViperMonkey_new := new_emulator;
     add_compiled_module := fun vm _ => Return vm;
     vm_trace := fun vm s => (Return vm, s);
     dump_actions := fun _ => Return "(no actions)";
     str_entry_points := fun entry_points =>
       "[" +:+ String.concat ", " (map (fun s => "'" +:+ s +:+ "'") entry_points) +:+ "]";
     VBA_Parser := open_document;
     OleFileIO_get_metadata := fun _ => Return ();
     read_file := fun _ => Return EmptyString;
     read_1Table := fun _ => Return EmptyString;
     read_DocumentSummaryInformation := fun _ => Return None;
     findall_printable_runs := fun _ => [];
     findall_wide_runs := fun _ => [];
     findall_words := fun _ => [];
     multiprocessing_pool_map := fun _ s => (Return [], s) |}.

(** A document with two macro streams: the first does not parse, the second
    does. *)
Definition two_stream_document : @VBA :=
  {| detect_vba_macros := Return true;
     extract_macros :=
       Return [("doc.docm", "VBA/First", "First.bas", "Sub Broken(@@");
               ("doc.docm", "VBA/Second", "Second.bas", "Sub AutoOpen()")];
     extract_form_strings_extended := Return [] |}.

(** A document whose first stream is empty. *)
Definition empty_stream_document : @VBA :=
  {| detect_vba_macros := Return true;
     extract_macros :=
       Return [("doc.docm", "VBA/Empty", "Empty.bas", "   ");
               ("doc.docm", "VBA/Second", "Second.bas", "Sub AutoOpen()")];
     extract_form_strings_extended := Return [] |}.

Definition initial_state : @py_state unit := PyState [] None None None.

(** ** [process_file_scanexpr] and the loop of [main] *)

(** What the expression scan needs besides the collaborators of the
    emulation: the [type] attribute of the container reader, the scanner of
    the core (each found expression and its value, both already printed with
    [repr]), and the text of the result table. *)
Record scan_collaborators := ScanCollaborators {
  vba_type : @VBA -> string;
  scan_expressions : string -> result (list (string * string));
  PrettyTable_str : list (string * string) -> string
}.

Section ScanExpr.

Context {AST Meta Action Core : Type}.
Variable w : @collaborators AST Meta Action Core.
Variable x : scan_collaborators.

(** The body of the loop over the macro streams: the header, the filtered
    code, and the code with long lines collapsed added to [all_code]. *)
Definition scan_stream (all_code : string)
    (macro : string * string * string * string) : @M Meta string :=
  let '(subfilename, stream_path, vba_filename, vba_code) := macro in
  let vba_code := filter_vba w vba_code in
  print (repeat_str "-" 79);;
  print ("VBA MACRO " +:+ vba_filename +:+ " ");;
  print ("in file: " +:+ subfilename +:+ " - OLE stream: " +:+ repr w stream_path);;
  print (repeat_str "- " 39);;
  if String.eqb (Str.strip vba_code) EmptyString then
    print "(empty macro)";;
    mret all_code
  else
    print vba_code;;
    mret (all_code +:+ Str.NL +:+ vba_collapse_long_lines w vba_code).

(** The [try] block of [process_file_scanexpr]. *)
Definition process_file_scanexpr_body (filename : string) (data : option string)
    : @M Meta unit :=
  vba ← lift (VBA_Parser w filename data);
  print ("Type: " +:+ vba_type x vba);;
  has_macros ← lift (detect_vba_macros vba);
  if has_macros : bool then
    meta ← lift (OleFileIO_get_metadata w filename);
    set_library_meta (MetaOf meta);;
    macros ← lift (extract_macros vba);
    all_code ← for_each macros EmptyString scan_stream;
    print (repeat_str "-" 79);;
    print "EVALUATED VBA EXPRESSIONS:";;
    rows ← lift (scan_expressions x all_code);
    print (PrettyTable_str x rows)
  else print "No VBA macros found.".

(** [process_file_scanexpr(container, filename, data)]: the bare [except]
    takes every exception. *)
Definition process_file_scanexpr (container : option string) (filename : string)
    (data : option string) : @M Meta unit :=
  let display_filename :=
    match container with
    | Some c =>
        if String.eqb c EmptyString then filename else filename +:+ " in " +:+ c
    | None => filename
    end in
  print (repeat_str "=" 79);;
  print ("FILE: " +:+ display_filename);;
  try_except (fun _ => true)
    (process_file_scanexpr_body filename data)
    (fun e => emit (Traceback e));;
  print "".

(** The options of the command line that the loop of [main] reads. *)
Record options := Options {
  opt_scan_expressions : bool;
  opt_altparser : bool;
  opt_strip_useless_code : bool;
  opt_entry_points : option string
}.

(** An item of a container whose name ends with a slash is a directory. *)
Definition is_container_directory (container : option string) (filename : string) : bool :=
  match container with
  | Some c => negb (String.eqb c EmptyString) && Str.endswith filename "/"
  | None => false
  end.

(** The loop of [main] over the files that the globbing yields; the value
    that [process_file] returns is dropped. *)
Fixpoint main_loop (opts : options)
    (files : list (option string * string * option string)) : @M Meta unit :=
  match files with
  | [] => mret ()
  | (container, filename, data) :: files' =>
      if is_container_directory container filename then main_loop opts files'
      else
        (if opt_scan_expressions opts then process_file_scanexpr container filename data
         else
           let entry_points := Str.split ","%char <$> opt_entry_points opts in
           process_file w container filename data (opt_altparser opts)
             (opt_strip_useless_code opts) entry_points;;
           mret ());;
        main_loop opts files'
  end.

End ScanExpr.

(** ** Vocabulary of the further statements *)

(** The lines of the block being tracked that [collapse_macro_if_blocks] has
    read and not yet decided on. *)
Definition pending_lines (st : collapse_state) : list string :=
  match curr_blocks st with
  | None => []
  | Some blocks => concat blocks ++ curr_block st
  end.

(** The first loop of [strip_useless_code] enters line [k] in the table
    under [var]: the pattern finds [var] on the line, and the line passes
    the tests of the loop. *)
Definition assigned_on (lines : list string) (var : string) (k : nat) : Prop :=
  exists i line,
    k = S i /\ lines !! i = Some line
    /\ var ∈ assign_re_findall line
    /\ skip_assign_line line (external_funcs (scan_lines (take (S i) lines))) = false
    /\ Str.contains "." (assigned_val line) = false
    /\ Str.contains "CreateObject" (assigned_val line) = false.

(** A line that the first loop takes for the header of a change callback. *)
Definition is_change_callback (line : string) : bool :=
  Str.contains "Sub " line && Str.contains "_Change(" line.

(** What makes the second loop mark [var] as referenced: a dot in its name,
    its text on a line that is not one of its own assignments, or a change
    callback whose data name holds it or is held by it. *)
Definition referenced_var (lines : list string) (var : string) : Prop :=
  Str.contains "." var = true
  \/ (exists j other,
        lines !! j = Some other /\ Str.contains var other = true
        /\ ~ assigned_on lines var (S j))
  \/ (exists cbline,
        cbline ∈ lines /\ is_change_callback cbline = true
        /\ Str.contains (callback_data_name cbline) var
           || Str.contains var (callback_data_name cbline) = true).

(** What [parse_stream] prints up to the call of the parser, for a stream
    that is not empty. *)
Definition parse_attempt_report {AST Meta Action Core : Type}
    (w : @collaborators AST Meta Action Core)
    (subfilename stream_path vba_filename code : string) : list event :=
  stream_header w subfilename stream_path vba_filename
  ++ [Printed (repeat_str "-" 79);
      Printed "VBA CODE (with long lines collapsed):";
      Printed code;
      Printed (repeat_str "-" 79);
      Printed "PARSING VBA CODE:"].

(** The parser takes the normalized code of the stream, or there is
    nothing to parse. *)
Definition stream_accepted {AST Meta Action Core : Type}
    (w : @collaborators AST Meta Action Core) (strip_useless : bool)
    (macro : string * string * string * string) : bool :=
  let code := normalized_code w macro.2 strip_useless in
  String.eqb (Str.strip code) EmptyString
  || match module_parseString w (code +:+ Str.NL) with
     | Return _ => true
     | Raise _ => false
     end.

(** What [parse_stream] returns for a stream: the sentinel, the parsed
    module, or [None] when the parser raised. *)
Definition stream_result {AST Meta Action Core : Type}
    (w : @collaborators AST Meta Action Core) (strip_useless : bool)
    (macro : string * string * string * string) : @stream_module AST :=
  let code := normalized_code w macro.2 strip_useless in
  if String.eqb (Str.strip code) EmptyString then ModuleStr "empty"
  else match module_parseString w (code +:+ Str.NL) with
       | Return ast => ModuleObj ast code
       | Raise _ => ModuleNone
       end.

(** What [parse_stream] prints for a stream. *)
Definition stream_report {AST Meta Action Core : Type}
    (w : @collaborators AST Meta Action Core) (strip_useless : bool)
    (macro : string * string * string * string) : list event :=
  let '(subfilename, stream_path, vba_filename, vba_code) := macro in
  let code := normalized_code w vba_code strip_useless in
  if String.eqb (Str.strip code) EmptyString then
    stream_header w subfilename stream_path vba_filename ++ [Printed "(empty macro)"]
  else match module_parseString w (code +:+ Str.NL) with
       | Raise (ParseException line column text) =>
           parse_failure_report w subfilename stream_path vba_filename code
             line column text
       | _ => parse_attempt_report w subfilename stream_path vba_filename code
       end.

(** The module that [parse_stream] makes of a macro stream when it makes
    one: the sentinel for an empty stream, else the parsed module with the
    normalized code. *)
Definition module_of_stream {AST Meta Action Core : Type}
    (w : @collaborators AST Meta Action Core) (strip_useless : bool)
    (macro : string * string * string * string)
    (m : @stream_module AST) : Prop :=
  let code := normalized_code w macro.2 strip_useless in
  if String.eqb (Str.strip code) EmptyString then m = ModuleStr "empty"
  else exists ast,
         module_parseString w (code +:+ Str.NL) = Return ast /\ m = ModuleObj ast code.

(** A computation that leaves what was written in place and writes after
    it. *)
Definition appends {Meta A : Type} (m : @M Meta A) : Prop :=
  forall s, exists evs, output (m s).2 = output s ++ evs.

(** A world like the sample one in which the parser, the metadata reader and
    the stream readers are parameters. *)
Definition faulty_world (parser : string -> result unit) (metadata : result unit)
    (stream : result string) (open_document : string -> option string -> result (@VBA))
    : @collaborators unit unit string unit :=
  {| vba_collapse_long_lines := fun code => code;
     filter_vba := fun code => code;
     repr := fun s => "'" +:+ s +:+ "'";
     module_parseString := parser;
     ViperMonkey_new := Return sample_vm;
     add_compiled_module := fun vm _ => Return vm;
     vm_trace := fun vm s => (Return vm, s);
     dump_actions := fun _ => Return "(no actions)";
     str_entry_points := fun entry_points =>
       "[" +:+ String.concat ", " (map (fun s => "'" +:+ s +:+ "'") entry_points) +:+ "]";
     VBA_Parser := open_document;
     OleFileIO_get_metadata := fun _ => metadata;
     read_file := fun _ => stream;
     read_1Table := fun _ => stream;
     read_DocumentSummaryInformation := fun _ =>
       match stream with Return data => Return (Some data) | Raise e => Raise e end;
     findall_printable_runs := fun _ => [];
     findall_wide_runs := fun _ => [];
     findall_words := fun _ => [];
     multiprocessing_pool_map := fun _ s => (Return [], s) |}.

(** A document with one macro stream whose forms cannot be read. *)
Definition broken_forms_document : @VBA :=
  {| detect_vba_macros := Return true;
     extract_macros := Return [("doc.docm", "VBA/Module1", "Module1.bas", "Sub AutoOpen()")];
     extract_form_strings_extended :=
       Raise (OtherException true "IndexError: string index out of range") |}.

(** An expression scanner that finds nothing. *)
Definition sample_scanner : scan_collaborators :=
  {| vba_type := fun _ => "OLE";
     scan_expressions := fun _ => Return [];
     PrettyTable_str := fun _ => "(no expressions)" |}.



(** The name under which the globals of a form control are stored, when
    the name can be encoded. *)
Definition form_global_name (stream_path : string) (fv : form_variables) : string :=
  Str.lower
    (Str.replace (String "000" EmptyString) ""
       (after_last_slash stream_path +:+ "." +:+ fv_name fv)).

(** A text of ASCII bytes. *)
Fixpoint is_ascii (s : string) : bool :=
  match s with
  | EmptyString => true
  | String c s' => bool_decide (nat_of_ascii c < 128) && is_ascii s'
  end.

(** What one macro stream adds to the code that [process_file_scanexpr]
    scans: nothing when the filtered code is blank, else a newline and the
    filtered code with its long lines collapsed. *)
Definition scanned_code {AST Meta Action Core : Type}
    (w : @collaborators AST Meta Action Core)
    (macro : string * string * string * string) : string :=
  let vba_code := filter_vba w macro.2 in
  if String.eqb (Str.strip vba_code) EmptyString then EmptyString
  else Str.NL +:+ vba_collapse_long_lines w vba_code.

(** The text [s] holds [var] followed by white space, if any, and an equals
    sign. *)
Definition assigned_name_at (s var : string) : Prop :=
  exists before ws after,
    s = before +:+ var +:+ ws +:+ "=" +:+ after /\ all_space ws = true.


(** A document with one macro stream and one form control whose name holds
    a byte above 127. *)
Definition latin1_form_document : @VBA :=
  {| detect_vba_macros := Return true;
     extract_macros := Return [("doc.docm", "VBA/Module1", "Module1.bas", "Sub AutoOpen()")];
     extract_form_strings_extended :=
       Return [("doc.docm", "Macros/UserForm1/o",
                Some (FormVariables ("caf" +:+ String "233" EmptyString) None
                        (Some "Open") None None))] |}.


(** * Properties *)

(** ** Facts about the string methods *)

Lemma app_cons_str (c : ascii) (s t : string) : String c s +:+ t = String c (s +:+ t).
Proof. reflexivity. Qed.

Lemma app_nil_l_str (s : string) : EmptyString +:+ s = s.
Proof. reflexivity. Qed.

Lemma app_nil_r_str (s : string) : s +:+ EmptyString = s.
Proof. induction s as [|c s IH]; [done |]. rewrite app_cons_str. by f_equal. Qed.

Lemma app_assoc_str (a b c : string) : (a +:+ b) +:+ c = a +:+ b +:+ c.
Proof. induction a as [|x a IH]; [done |]. rewrite !app_cons_str. by f_equal. Qed.

Lemma startswith_app (s p : string) :
  Str.startswith s p = true -> exists r, s = p +:+ r.
Proof.
  revert s; induction p as [|a p IH]; intros s H.
  - by exists s.
  - destruct s as [|b s]; [done |]. simpl in H.
    destruct (Ascii.eqb a b) eqn:E; [| done].
    apply Ascii.eqb_eq in E as ->.
    destruct (IH _ H) as [r ->]. by exists r.
Qed.

Lemma startswith_prefix (p r : string) : Str.startswith (p +:+ r) p = true.
Proof.
  induction p as [|a p IH]; [by destruct r |].
  rewrite app_cons_str. simpl. by rewrite Ascii.eqb_refl.
Qed.

(** Two prefixes of one string: one is a prefix of the other. *)
Lemma startswith_compat (s p q : string) :
  Str.startswith s p = true -> Str.startswith s q = true ->
  Str.startswith p q || Str.startswith q p = true.
Proof.
  revert s q; induction p as [|a p IH]; intros s q Hp Hq.
  - by destruct q.
  - destruct q as [|b q]; [done |].
    destruct s as [|c s]; [done |]. simpl in *.
    destruct (Ascii.eqb a c) eqn:E1; [| done].
    destruct (Ascii.eqb b c) eqn:E2; [| done].
    apply Ascii.eqb_eq in E1 as ->. apply Ascii.eqb_eq in E2 as ->.
    rewrite Ascii.eqb_refl. eauto.
Qed.

(** Prefixes that exclude each other, by evaluation on the two constants. *)
Ltac prefix_clash H1 H2 :=
  let C := fresh in
  pose proof (startswith_compat _ _ _ H1 H2) as C; vm_compute in C; discriminate C.

(** ** Facts about the loops *)

Lemma foldl_snoc {A B} (f : A -> B -> A) (a : A) (l : list B) (x : B) :
  foldl f a (l ++ [x]) = f (foldl f a l) x.
Proof. by rewrite foldl_app. Qed.

Lemma rewrite_step_line_num cl st line :
  rw_line_num (rewrite_step cl st line) = S (rw_line_num st).
Proof. unfold rewrite_step. repeat case_match; done. Qed.

Lemma rewrite_lines_line_num cl lines :
  rw_line_num (rewrite_lines cl lines) = length lines.
Proof.
  unfold rewrite_lines.
  induction lines as [|l lines IH] using rev_ind; [done |].
  by rewrite foldl_snoc, length_app, Nat.add_1_r, <- IH, rewrite_step_line_num.
Qed.

(** The counter of open [If]s is never negative. *)
Lemma rewrite_step_if_count_nonneg cl st line :
  (0 <= if_count st)%Z -> (0 <= if_count (rewrite_step cl st line))%Z.
Proof.
  intros Hst. unfold rewrite_step.
  destruct (Str.startswith (Str.strip line) "If ") eqn:HIf;
    destruct (Str.startswith (Str.strip line) "End If") eqn:HEnd;
    try prefix_clash HIf HEnd; cbn [andb].
  - repeat case_match; simpl; lia.
  - case_bool_decide; [done |]. repeat case_match; simpl; lia.
  - repeat case_match; simpl; lia.
Qed.

Lemma rewrite_lines_if_count_nonneg cl lines :
  (0 <= if_count (rewrite_lines cl lines))%Z.
Proof.
  unfold rewrite_lines.
  induction lines as [|l lines IH] using rev_ind; [done |].
  rewrite foldl_snoc. by apply rewrite_step_if_count_nonneg.
Qed.

(** ** The counter of open [If]s *)

Lemma rewrite_lines_app cl pre post :
  rewrite_lines cl (pre ++ post) = foldl (rewrite_step cl) (rewrite_lines cl pre) post.
Proof. unfold rewrite_lines. by rewrite foldl_app. Qed.

(** The step on an [End If] line met with no [If] open. *)
Lemma rewrite_step_unmatched_end_if cl st line :
  Str.startswith (Str.strip line) "End If" = true ->
  if_count st = 0%Z ->
  rewrite_step cl st line =
    RewriteState (S (rw_line_num st)) 0 (rw_r st +:+ "End Function" +:+ Str.NL).
Proof.
  intros HEnd Hc. unfold rewrite_step. rewrite HEnd, Hc.
  destruct (Str.startswith (Str.strip line) "If ") eqn:HIf; [prefix_clash HIf HEnd |].
  done.
Qed.

(** ** Conditional-compilation blocks (C3) *)

(** The choice of [biggest_block], from any starting choice [acc]. *)
Lemma pick_biggest_from (acc : list string) (arms : list (list string)) :
  let step := fun (biggest_block block : list string) =>
    if bool_decide (length biggest_block < length block) then block
    else biggest_block in
  let r := foldl step acc arms in
  (r = acc /\ Forall (fun a => length a <= length acc) arms)
  \/ (length acc < length r
      /\ exists before after,
           arms = before ++ r :: after
           /\ Forall (fun a => length a < length r) before
           /\ Forall (fun a => length a <= length r) after).
Proof.
  intros step. revert acc.
  induction arms as [|a arms IH]; intros acc; [by left |].
  cbn [foldl]. unfold step at 2 4 6 8 10. case_bool_decide as Hlt.
  - destruct (IH a) as [[Hr Hall] | (Hlen & before & after & Harms & Hb & Ha)].
    + right. rewrite Hr. split; [done |]. exists [], arms. by repeat split.
    + right. split; [lia |]. exists (a :: before), after.
      rewrite Harms at 1. repeat split; [| done]. by constructor.
  - destruct (IH acc) as [[Hr Hall] | (Hlen & before & after & Harms & Hb & Ha)].
    + left. split; [done |]. constructor; [lia | done].
    + right. split; [done |]. exists (a :: before), after.
      rewrite Harms at 1. repeat split; [| done]. constructor; [lia | done].
Qed.

(** The block chosen among at least one arm is the first of the longest. *)
Lemma pick_biggest_first_longest (arm : list string) (arms : list (list string)) :
  exists before after,
    arm :: arms = before ++ pick_biggest (arm :: arms) :: after
    /\ Forall (fun a => length a < length (pick_biggest (arm :: arms))) before
    /\ Forall (fun a => length a <= length (pick_biggest (arm :: arms))) after.
Proof.
  destruct (pick_biggest_from [] (arm :: arms))
    as [[Hr Hall] | (_ & before & after & Harms & Hb & Ha)].
  - unfold pick_biggest. rewrite Hr.
    apply Forall_cons in Hall as [Harm Hall]. simpl in Harm.
    destruct arm; [| simpl in Harm; lia].
    exists [], arms. repeat split; [constructor | done].
  - by exists before, after.
Qed.

(** Lines of an arm are appended to [curr_block]. *)
Lemma collapse_arm blocks cb r (arm : list string) :
  Forall (fun l => is_else_marker l = false /\ is_end_marker l = false) arm ->
  foldl collapse_step (CollapseState (Some blocks) cb r) arm
  = CollapseState (Some blocks) (cb ++ arm) r.
Proof.
  revert cb. induction arm as [|l arm IH]; intros cb Harm.
  - by rewrite app_nil_r.
  - apply Forall_cons in Harm as [[Hl1 Hl2] Harm].
    cbn [foldl]. unfold collapse_step at 2. cbn [curr_blocks curr_block collapse_r].
    unfold is_else_marker, is_end_marker in Hl1, Hl2. rewrite Hl1, Hl2.
    rewrite IH by done. by rewrite <- app_assoc.
Qed.

(** From inside a block to its closing marker. *)
Lemma collapse_to_end blocks cb r (more : list (string * list string)) (f : string) :
  Forall (fun sa => is_else_marker sa.1 = true
                    /\ Forall (fun l => is_else_marker l = false
                                        /\ is_end_marker l = false) sa.2) more ->
  is_end_marker f = true ->
  foldl collapse_step (CollapseState (Some blocks) cb r)
    (flat_map (fun sa => sa.1 :: sa.2) more ++ [f])
  = CollapseState None [] (r +:+ Str.unlines (pick_biggest (blocks ++ cb :: map snd more))).
Proof.
  intros Hmore Hf. revert blocks cb.
  induction more as [|[s a] more IH]; intros blocks cb.
  - simpl. unfold collapse_step. cbn [curr_blocks curr_block collapse_r].
    unfold is_end_marker in Hf. rewrite Hf.
    destruct (Str.startswith (Str.strip f) "#Else") eqn:E1; [prefix_clash Hf E1 |].
    destruct (Str.startswith (Str.strip f) "Else") eqn:E2; [prefix_clash Hf E2 |].
    done.
  - apply Forall_cons in Hmore as [[Hs Ha] Hmore].
    cbn [flat_map fst snd]. rewrite <- !app_comm_cons, <- app_assoc. cbn [foldl].
    unfold collapse_step at 2. cbn [curr_blocks curr_block collapse_r].
    unfold is_else_marker in Hs. simpl in Hs. rewrite Hs.
    rewrite foldl_app, collapse_arm by done. rewrite app_nil_l.
    rewrite (IH Hmore). cbn [map snd]. by rewrite <- app_assoc.
Qed.

(** C3, as the code has it.  A block is a line starting (once stripped) with
    [#If], arms separated by lines starting with [#Else] or with [Else], and
    a line starting with [#End]; the arm lines start with none of [#Else],
    [Else], [#End].  When such a block starts while no other is open,
    [collapse_macro_if_blocks] emits for it the lines of exactly one arm,
    each followed by a newline and otherwise unchanged: the first arm among
    those with the largest number of lines.  The marker lines and the other
    arms leave no trace. *)
Theorem collapse_keeps_first_longest_arm
    (vba_code : string) (pre post arm : list string)
    (more : list (string * list string)) (h f : string) :
  Str.split Str.nl vba_code = pre ++ h :: block_body arm more ++ f :: post ->
  curr_blocks (foldl collapse_step collapse_init pre) = None ->
  is_if_marker h = true ->
  Forall (fun l => is_else_marker l = false /\ is_end_marker l = false) arm ->
  Forall (fun sa => is_else_marker sa.1 = true
                    /\ Forall (fun l => is_else_marker l = false
                                        /\ is_end_marker l = false) sa.2) more ->
  is_end_marker f = true ->
  exists before best after,
    arm :: map snd more = before ++ best :: after
    /\ Forall (fun a => length a < length best) before
    /\ Forall (fun a => length a <= length best) after
    /\ collapse_macro_if_blocks vba_code =
         collapse_r
           (foldl collapse_step
              (CollapseState None []
                 (collapse_r (foldl collapse_step collapse_init pre)
                  +:+ Str.unlines best))
              post).
Proof.
  intros Hsplit Hpre Hh Harm Hmore Hf.
  destruct (pick_biggest_first_longest arm (map snd more))
    as (before & after & Harms & Hb & Ha).
  exists before, (pick_biggest (arm :: map snd more)), after.
  repeat split; [done .. |].
  unfold collapse_macro_if_blocks. rewrite Hsplit, foldl_app.
  destruct (foldl collapse_step collapse_init pre) as [cbs cb r] eqn:Est.
  simpl in Hpre. subst cbs. cbn [foldl].
  unfold collapse_step at 2. cbn [curr_blocks curr_block collapse_r].
  unfold is_if_marker in Hh. rewrite Hh.
  unfold block_body. rewrite <- app_assoc, foldl_app, collapse_arm by done.
  rewrite app_nil_l.
  change (f :: post) with ([f] ++ post). rewrite app_assoc, foldl_app.
  by rewrite collapse_to_end.
Qed.

(** ** Lines protected from stripping (C4) *)

Lemma scan_lines_snoc lines l :
  scan_lines (lines ++ [l]) = scan_step (scan_lines lines) l.
Proof. unfold scan_lines. apply foldl_snoc. Qed.

Lemma scan_lines_line_num lines : scan_line_num (scan_lines lines) = length lines.
Proof.
  induction lines as [|l lines IH] using rev_ind; [done |].
  rewrite scan_lines_snoc, length_app, Nat.add_1_r. simpl. by rewrite IH.
Qed.

(** The declarations collected by the first loop. *)
Lemma scan_lines_external_funcs lines :
  external_funcs (scan_lines lines)
  = map Str.strip (filter (fun l => is_external_decl l = true) lines).
Proof.
  induction lines as [|l lines IH] using rev_ind; [done |].
  rewrite scan_lines_snoc, filter_app, map_app. simpl. rewrite IH.
  rewrite filter_cons, filter_nil. unfold is_external_decl.
  destruct (Str.contains "Declare" l && Str.contains "Lib" l) eqn:E.
  - by rewrite decide_True.
  - rewrite decide_False by done. simpl. by rewrite app_nil_r.
Qed.

Lemma track_vars_lookup line line_num vars (assigns : gmap string (gset nat)) var nums k :
  track_vars line line_num vars assigns !! var = Some nums -> k ∈ nums ->
  (exists nums', assigns !! var = Some nums' /\ k ∈ nums')
  \/ (k = line_num
      /\ Str.contains "." (assigned_val line) = false
      /\ Str.contains "CreateObject" (assigned_val line) = false).
Proof.
  unfold track_vars. revert assigns.
  induction vars as [|v vars IH]; intros assigns Hlook Hk; [left; eauto |].
  cbn [foldl] in Hlook.
  destruct (Str.contains "." (assigned_val line)) eqn:E1; [by apply (IH assigns) |].
  destruct (Str.contains "CreateObject" (assigned_val line)) eqn:E2;
    [by apply (IH assigns) |].
  destruct (IH _ Hlook Hk) as [(nums' & Hl & Hk') | ?]; [| by right].
  destruct (decide (v = var)) as [-> | Hne].
  - rewrite lookup_insert_eq in Hl. injection Hl as <-.
    apply elem_of_union in Hk' as [Hk' | Hk'].
    + right. apply elem_of_singleton in Hk'. done.
    + left. destruct (assigns !! var) as [nums0 |] eqn:E0; [eauto |].
      by apply not_elem_of_empty in Hk'.
  - rewrite lookup_insert_ne in Hl by done. left; eauto.
Qed.

Lemma tracked_line_snoc lines l k :
  tracked_line lines k -> tracked_line (lines ++ [l]) k.
Proof.
  intros (i & line & -> & Hi & Hm & Hskip & Hv1 & Hv2).
  exists i, line. pose proof (lookup_lt_Some _ _ _ Hi) as Hlt.
  repeat split; [by apply lookup_app_l_Some | done | | done | done].
  by rewrite take_app_le by lia.
Qed.

(** Every line number in the table belongs to a line that passed all the
    tests of the first loop. *)
Lemma scan_lines_tracked lines var nums k :
  assigns (scan_lines lines) !! var = Some nums -> k ∈ nums -> tracked_line lines k.
Proof.
  revert var nums k.
  induction lines as [|l lines IH] using rev_ind; intros var nums k Hlook Hk.
  - simpl in Hlook. by rewrite lookup_empty in Hlook.
  - rewrite scan_lines_snoc in Hlook. unfold scan_step in Hlook.
    cbn [assigns] in Hlook.
    case_bool_decide as Hmatch; [| by eapply tracked_line_snoc, IH].
    destruct (skip_assign_line _ _) eqn:Hskip; [by eapply tracked_line_snoc, IH |].
    destruct (track_vars_lookup _ _ _ _ _ _ _ Hlook Hk)
      as [(nums' & Hl & Hk') | (-> & Hv1 & Hv2)];
      [by eapply tracked_line_snoc, IH |].
    rewrite scan_lines_line_num.
    exists (length lines), l. repeat split; [| done | | done | done].
    + by rewrite lookup_app_r, Nat.sub_diag.
    + rewrite take_ge by (rewrite length_app; simpl; lia).
      rewrite scan_lines_external_funcs, filter_app, map_app.
      rewrite scan_lines_external_funcs in Hskip.
      rewrite filter_cons, filter_nil. unfold is_external_decl.
      destruct (Str.contains "Declare" l && Str.contains "Lib" l) eqn:E.
      * by rewrite decide_True.
      * rewrite decide_False by done. simpl. by rewrite app_nil_r.
Qed.

(** Lines chosen for stripping come from the table. *)
Lemma split_lines_by_refs_from_assigns (assigns : gmap string (gset nat))
    (refs : gmap string bool) k :
  k ∈ (split_lines_by_refs assigns refs).1 ∪ (split_lines_by_refs assigns refs).2 ->
  exists var nums, assigns !! var = Some nums /\ k ∈ nums.
Proof.
  unfold split_lines_by_refs.
  apply (map_fold_weak_ind
           (fun (acc : gset nat * gset nat) (_ : gmap string bool) =>
              k ∈ acc.1 ∪ acc.2 -> exists var nums, assigns !! var = Some nums /\ k ∈ nums)).
  - simpl. intros Hk. apply elem_of_union in Hk as [Hk | Hk];
      by apply not_elem_of_empty in Hk.
  - intros var referenced m acc _ IH Hk.
    assert (k ∈ default ∅ (assigns !! var) \/ k ∈ acc.1 ∪ acc.2) as [Hin | Hin].
    { destruct referenced; simpl in Hk; rewrite !elem_of_union in Hk;
        rewrite elem_of_union; tauto. }
    + destruct (assigns !! var) as [nums |] eqn:E; [eauto |].
      by apply not_elem_of_empty in Hin.
    + by apply IH.
Qed.

Lemma comment_lines_tracked lines k :
  k ∈ comment_lines_of lines -> tracked_line lines k.
Proof.
  unfold comment_lines_of.
  destruct (split_lines_by_refs _ _) as [c keep] eqn:E. intros Hk.
  destruct (split_lines_by_refs_from_assigns
              (assigns (scan_lines lines))
              (compute_refs (assigns (scan_lines lines))
                 (change_callbacks (scan_lines lines)) lines) k)
    as (var & nums & Hl & Hin).
  - rewrite E. simpl. apply elem_of_difference in Hk as [Hk _].
    apply elem_of_union. by left.
  - by eapply scan_lines_tracked.
Qed.

Lemma existsb_true_intro {A} (f : A -> bool) (l : list A) x :
  x ∈ l -> f x = true -> existsb f l = true.
Proof.
  intros Hin Hf. apply existsb_exists. exists x. split; [| done].
  by apply list_elem_of_In.
Qed.

(** A line with one of the protections is not among the lines to comment
    out. *)
Lemma protected_not_commented (lines : list string) (i : nat) (line : string) :
  lines !! i = Some line ->
  (existsb (fun func => Str.contains func line) tracked_builtins = true
   \/ (exists decl ext_func,
         decl ∈ take (S i) lines
         /\ is_external_decl decl = true
         /\ ext_func_of_decl (Str.strip decl) = Some ext_func
         /\ Str.contains ext_func line = true)
   \/ Str.contains "." (assigned_val line) = true
   \/ Str.contains "CreateObject" (assigned_val line) = true) ->
  S i ∉ comment_lines_of lines.
Proof.
  intros Hi Hprot Hin. apply comment_lines_tracked in Hin
    as (i' & line' & [= <-] & Hi' & _ & Hskip & Hv1 & Hv2).
  rewrite Hi in Hi'. injection Hi' as <-.
  destruct Hprot as [Hb | [(decl & ext_func & Hd & Hdecl & Hname & Hc) | [Hdot | Hco]]];
    [| | congruence | congruence].
  - unfold tracked_builtins in Hb. rewrite existsb_app in Hb.
    unfold skip_assign_line, is_interesting_call in Hskip.
    apply orb_true_iff in Hb as [Hb | Hb].
    + rewrite Hb in Hskip. simpl in Hskip.
      by rewrite !orb_true_r in Hskip.
    + simpl in Hb. rewrite orb_false_r in Hb. rewrite Hb in Hskip.
      simpl in Hskip. by rewrite !orb_true_r in Hskip.
  - unfold skip_assign_line, is_interesting_call in Hskip.
    rewrite scan_lines_external_funcs in Hskip.
    rewrite (existsb_true_intro _ (map Str.strip _) (Str.strip decl)) in Hskip.
    + simpl in Hskip. by rewrite !orb_true_r in Hskip.
    + apply list_elem_of_fmap. exists decl. split; [done |].
      by apply list_elem_of_filter.
    + by rewrite Hname.
Qed.

(** C4, the part that concerns [strip_useless_code], as the code has it.  A
    line is never put among the lines to comment out when it holds one of the
    tracked names, or the name of an external function declared on that line
    or on an earlier one, or when the text after its last equals sign holds a
    dot or [CreateObject]; the rewriting loop therefore never drops it for
    the variables it assigns. *)
Theorem interesting_assignment_never_commented
    (vba_code : string) (i : nat) (line : string) :
  Str.split Str.nl vba_code !! i = Some line ->
  (existsb (fun func => Str.contains func line) tracked_builtins = true
   \/ (exists decl ext_func,
         decl ∈ take (S i) (Str.split Str.nl vba_code)
         /\ is_external_decl decl = true
         /\ ext_func_of_decl (Str.strip decl) = Some ext_func
         /\ Str.contains ext_func line = true)
   \/ Str.contains "." (assigned_val line) = true
   \/ Str.contains "CreateObject" (assigned_val line) = true) ->
  (S i ∉ comment_lines_of (Str.split Str.nl vba_code))
  /\ stripped_by_usage (comment_lines_of (Str.split Str.nl vba_code)) (S i) line = false.
Proof.
  intros Hi Hprot.
  assert (Hnot : S i ∉ comment_lines_of (Str.split Str.nl vba_code))
    by by eapply protected_not_commented.
  split; [done |]. unfold stripped_by_usage.
  by rewrite bool_decide_eq_false_2.
Qed.

(** ** More facts about the string methods *)

Lemma startswith_nil (s : string) : Str.startswith s EmptyString = true.
Proof. by destruct s. Qed.

Lemma contains_startswith (sub s : string) :
  Str.startswith s sub = true -> Str.contains sub s = true.
Proof. intros H. unfold Str.contains. destruct s; cbn [Str.find]; by rewrite H. Qed.

Lemma contains_cons (sub : string) (c : ascii) (s : string) :
  Str.contains sub s = true -> Str.contains sub (String c s) = true.
Proof.
  unfold Str.contains. intros H. cbn [Str.find].
  destruct (Str.startswith (String c s) sub); [done |].
  by destruct (Str.find sub s).
Qed.

Lemma contains_cons_inv (sub : string) (c : ascii) (s : string) :
  Str.contains sub (String c s) = false -> Str.contains sub s = false.
Proof.
  intros H. destruct (Str.contains sub s) eqn:E; [| done].
  by rewrite (contains_cons _ c _ E) in H.
Qed.

Lemma contains_app_r (sub a s : string) :
  Str.contains sub s = true -> Str.contains sub (a +:+ s) = true.
Proof.
  intros H. induction a as [|c a IH]; [done |].
  rewrite app_cons_str. by apply contains_cons.
Qed.

Lemma contains_mid (sub a b : string) : Str.contains sub (a +:+ sub +:+ b) = true.
Proof. apply contains_app_r, contains_startswith, startswith_prefix. Qed.

Lemma lstrip_decompose (s : string) :
  exists a, s = a +:+ Str.lstrip s /\ all_space a = true.
Proof.
  induction s as [|c s (a & Hs & Ha)]; [by exists EmptyString |].
  simpl. destruct (Str.isspace c) eqn:E.
  - exists (String c a). rewrite app_cons_str, <- Hs. simpl. by rewrite E, Ha.
  - by exists EmptyString.
Qed.

Lemma rstrip_decompose (s : string) :
  exists b, s = Str.rstrip s +:+ b /\ all_space b = true.
Proof.
  induction s as [|c s (b & Hs & Hb)]; [by exists EmptyString |].
  simpl. destruct (Str.rstrip s) as [|d r] eqn:E.
  - change (EmptyString +:+ b) with b in Hs. subst b.
    destruct (Str.isspace c) eqn:Ec.
    + exists (String c s). split; [done |]. simpl. by rewrite Ec, Hb.
    + by exists s.
  - exists b. rewrite app_cons_str. by rewrite <- Hs.
Qed.

(** [s.strip()] is [s] without a run of white space at each end. *)
Lemma strip_decompose (s : string) :
  exists a b, s = a +:+ Str.strip s +:+ b /\ all_space a = true /\ all_space b = true.
Proof.
  destruct (lstrip_decompose s) as (a & Hs & Ha).
  destruct (rstrip_decompose (Str.lstrip s)) as (b & Hl & Hb).
  exists a, b. unfold Str.strip. by rewrite <- Hl.
Qed.

Lemma contains_app_l (sub s b : string) :
  Str.contains sub s = true -> Str.contains sub (s +:+ b) = true.
Proof.
  unfold Str.contains. induction s as [|c s IH]; cbn [Str.find].
  - destruct (Str.startswith EmptyString sub) eqn:E; [| done]. intros _.
    destruct sub; [| done]. change (EmptyString +:+ b) with b.
    destruct b; cbn [Str.find]; by rewrite ?startswith_nil.
  - rewrite app_cons_str. cbn [Str.find].
    destruct (Str.startswith (String c s) sub) eqn:E1.
    + intros _. apply startswith_app in E1 as [r Hr].
      rewrite <- app_cons_str, Hr, app_assoc_str. by rewrite startswith_prefix.
    + destruct (Str.find sub s) as [j|] eqn:E2; [| done]. intros _.
      specialize (IH eq_refl).
      destruct (Str.startswith (String c (s +:+ b)) sub); [done |].
      by destruct (Str.find sub (s +:+ b)).
Qed.

Lemma contains_strip (sub line : string) :
  Str.contains sub (Str.strip line) = true -> Str.contains sub line = true.
Proof.
  intros H. destruct (strip_decompose line) as (a & b & Hl & _ & _).
  rewrite Hl. by apply contains_app_r, contains_app_l.
Qed.

(** Words of a line found from the start of its stripped text. *)
Lemma contains_of_strip_prefix (line p q r : string) :
  Str.startswith (Str.strip line) (p +:+ q +:+ r) = true ->
  Str.contains q line = true.
Proof.
  intros H. apply contains_strip.
  apply startswith_app in H as [t Ht]. rewrite Ht, !app_assoc_str.
  apply contains_mid.
Qed.

(** Deleting one character: [s.replace(c, empty)]. *)
Lemma replace_char_cons (c x : ascii) (s : string) :
  Str.replace (String c EmptyString) EmptyString (String x s)
  = if Ascii.eqb c x then Str.replace (String c EmptyString) EmptyString s
    else String x (Str.replace (String c EmptyString) EmptyString s).
Proof.
  unfold Str.replace. cbn [Str.replace_go Str.startswith].
  destruct (Ascii.eqb c x); [| done]. by rewrite startswith_nil.
Qed.

Lemma replace_char_app (c : ascii) (a b : string) :
  Str.replace (String c EmptyString) EmptyString (a +:+ b)
  = Str.replace (String c EmptyString) EmptyString a
    +:+ Str.replace (String c EmptyString) EmptyString b.
Proof.
  induction a as [|x a IH]; [done |].
  rewrite app_cons_str, !replace_char_cons, IH. by destruct (Ascii.eqb c x).
Qed.

Lemma replace_char_all_space (c : ascii) (a : string) :
  all_space a = true ->
  all_space (Str.replace (String c EmptyString) EmptyString a) = true.
Proof.
  induction a as [|x a IH]; [done |]. simpl. intros [Hx Ha]%andb_true_iff.
  rewrite replace_char_cons. destruct (Ascii.eqb c x); [by apply IH |].
  simpl. by rewrite Hx, IH.
Qed.

Lemma find_startswith (sub s : string) (i : nat) :
  Str.find sub s = Some i -> Str.startswith s (Str.take i s +:+ sub) = true.
Proof.
  revert i. induction s as [|c s IH]; intros i H; cbn [Str.find] in H.
  - destruct (Str.startswith EmptyString sub) eqn:E; [| done].
    injection H as <-. by destruct sub.
  - destruct (Str.startswith (String c s) sub) eqn:E.
    + injection H as <-. done.
    + destruct (Str.find sub s) as [j|] eqn:E2; [| done].
      injection H as <-. simpl. rewrite Ascii.eqb_refl. by apply IH.
Qed.

(** ** The assignment pattern needs an equals sign *)

Lemma name_tail_app (s m r : string) : name_tail s = (m, r) -> s = m +:+ r.
Proof.
  revert m r. induction s as [|c s IH]; intros m r H; simpl in H.
  - by injection H as <- <-.
  - destruct (Str.isword c).
    + destruct (name_tail s) as [m' r'] eqn:E. injection H as <- <-.
      rewrite app_cons_str. f_equal. by apply IH.
    + destruct (Ascii.eqb c "."); [| by injection H as <- <-].
      destruct s as [|d s']; [by injection H as <- <- |].
      destruct (Str.isword d); [| by injection H as <- <-].
      destruct (name_tail (String d s')) as [m' r'] eqn:E. injection H as <- <-.
      rewrite app_cons_str. f_equal. by apply IH.
Qed.

Lemma assign_re_match_has_eq (s var rest : string) :
  assign_re_match s = Some (var, rest) -> Str.contains "=" s = true.
Proof.
  unfold assign_re_match. intros H.
  destruct (lstrip_decompose s) as (a & Hs & _).
  destruct (Str.lstrip s) as [|c s1]; [done |].
  destruct (Str.isword c); [| done].
  destruct (name_tail s1) as [m r] eqn:E. apply name_tail_app in E.
  destruct (lstrip_decompose r) as (a' & Hr & _).
  destruct (Str.lstrip r) as [|e r1]; [done |].
  destruct (Ascii.eqb e "=") eqn:Ee; [| done]. apply Ascii.eqb_eq in Ee as ->.
  rewrite Hs. apply contains_app_r, contains_cons. rewrite E. apply contains_app_r.
  rewrite Hr. apply contains_app_r, contains_startswith. simpl.
  apply startswith_nil.
Qed.

Lemma findall_fuel_no_eq (fuel : nat) (s : string) :
  Str.contains "=" s = false -> findall_fuel fuel s = [].
Proof.
  revert s. induction fuel as [|fuel IH]; intros s H; [done |]. simpl.
  destruct (assign_re_match s) as [[var rest]|] eqn:E.
  - apply assign_re_match_has_eq in E. congruence.
  - destruct s as [|c s]; [done |]. apply IH. by eapply contains_cons_inv.
Qed.

(** A line without an equals sign assigns nothing: [line.index] of the first
    loop is never reached without one. *)
Lemma assign_re_findall_no_eq (line : string) :
  Str.contains "=" line = false -> assign_re_findall line = [].
Proof. apply findall_fuel_no_eq. Qed.

Lemma no_eq_not_commented (lines : list string) (i : nat) (line : string) :
  lines !! i = Some line -> Str.contains "=" line = false ->
  S i ∉ comment_lines_of lines.
Proof.
  intros Hi Heq Hin. apply comment_lines_tracked in Hin
    as (i' & line' & [= <-] & Hi' & Hm & _).
  rewrite Hi in Hi'. injection Hi' as <-.
  rewrite assign_re_findall_no_eq in Hm by done. simpl in Hm. lia.
Qed.

(** ** Useless calls and declarations (C9) *)

Lemma is_useless_call_prefix (line : string) :
  is_useless_call line = true ->
  exists f, f ∈ ["Cos"; "Log"; "Cos"; "Exp"; "Sin"; "Tan"]
            /\ Str.startswith (Str.replace " " "" line) (f +:+ "(") = true.
Proof.
  unfold is_useless_call. intros H.
  destruct (Str.contains "=" line); [done |].
  destruct (Str.contains "(" line); [| done]. simpl in H.
  destruct (Str.find "(" (Str.replace " " "" line)) as [i|] eqn:E; [| done].
  apply bool_decide_eq_true in H. unfold useless_funcs in H.
  apply elem_of_list_to_set in H.
  exists (Str.take i (Str.replace " " "" line)). split; [done |].
  by apply find_startswith.
Qed.

Lemma strip_prefix_squeezed (line p : string) :
  Str.startswith (Str.strip line) p = true ->
  (exists w r, Str.replace " " "" line = String w r /\ Str.isspace w = true)
  \/ Str.startswith (Str.replace " " "" line) (Str.replace " " "" p) = true.
Proof.
  intros H. destruct (strip_decompose line) as (a & b & Hl & Ha & _).
  apply startswith_app in H as [t Ht]. rewrite Ht in Hl.
  rewrite Hl, !replace_char_app.
  pose proof (replace_char_all_space " " a Ha) as Hsq.
  destruct (Str.replace " " "" a) as [|w r].
  - right. rewrite app_assoc_str.
    exact (startswith_prefix (Str.replace " " "" p) _).
  - left. simpl in Hsq. apply andb_true_iff in Hsq as [Hw _].
    rewrite app_cons_str. eauto.
Qed.

(** A useless call and a line whose stripped text starts with [p]: the name
    and its parenthesis agree with [p] once the spaces are deleted. *)
Lemma useless_call_vs_prefix (line p : string) :
  is_useless_call line = true ->
  Str.startswith (Str.strip line) p = true ->
  existsb (fun f => Str.startswith (f +:+ "(") (Str.replace " " "" p)
                    || Str.startswith (Str.replace " " "" p) (f +:+ "("))
          ["Cos"; "Log"; "Cos"; "Exp"; "Sin"; "Tan"] = true.
Proof.
  intros Hcall Hp.
  destruct (is_useless_call_prefix _ Hcall) as (f & Hf & Hpre).
  destruct (strip_prefix_squeezed _ _ Hp) as [(w & r & Hsq & Hw) | Hsq].
  - rewrite Hsq in Hpre. exfalso.
    repeat (apply elem_of_cons in Hf as [-> | Hf]);
      try (by apply elem_of_nil in Hf);
      match type of Hpre with
      | context [?x +:+ ?y] =>
          let v := eval vm_compute in (x +:+ y) in change (x +:+ y) with v in Hpre
      end;
      cbn [Str.startswith] in Hpre;
      match type of Hpre with
      | (if Ascii.eqb ?c w then _ else _) = true =>
          destruct (Ascii.eqb c w) eqn:E; [| done];
          apply Ascii.eqb_eq in E; subst w; by vm_compute in Hw
      end.
  - apply existsb_exists. exists f. split; [by apply list_elem_of_In |].
    by apply (startswith_compat _ _ _ Hpre Hsq).
Qed.

Ltac useless_call_clash Hcall Hp :=
  let C := fresh in
  pose proof (useless_call_vs_prefix _ _ Hcall Hp) as C; vm_compute in C; discriminate C.

(** The step on a line that opens or closes no [If]. *)
Lemma rewrite_step_plain cl st line :
  Str.startswith (Str.strip line) "If " = false ->
  Str.startswith (Str.strip line) "End If" = false ->
  rewrite_step cl st line =
    RewriteState (S (rw_line_num st)) (if_count st)
      (if stripped_by_usage cl (S (rw_line_num st)) line
          || is_useless_call line || is_useless_dim line
       then rw_r st else rw_r st +:+ keep_line line).
Proof.
  intros HIf HEnd. unfold rewrite_step. rewrite HIf, HEnd. cbn [andb].
  by repeat case_match.
Qed.

Lemma is_useless_dim_prefix (line : string) :
  is_useless_dim line = true -> Str.startswith (Str.strip line) "Dim " = true.
Proof.
  unfold is_useless_dim. by destruct (Str.startswith (Str.strip line) "Dim ").
Qed.

(** ** The scan of [assign_re.findall] never runs out of fuel *)

Lemma lstrip_length (s : string) : String.length (Str.lstrip s) <= String.length s.
Proof.
  induction s as [|c s IH]; [done |]. simpl.
  destruct (Str.isspace c); simpl; lia.
Qed.

Lemma name_tail_length (s m r : string) :
  name_tail s = (m, r) -> String.length r <= String.length s.
Proof.
  revert m r. induction s as [|c s IH]; intros m r H; simpl in H.
  - by injection H as <- <-.
  - destruct (Str.isword c).
    + destruct (name_tail s) as [m' r'] eqn:E. injection H as <- <-.
      specialize (IH _ _ eq_refl). simpl. lia.
    + destruct (Ascii.eqb c "."); [| injection H as <- <-; simpl; lia].
      destruct s as [|d s']; [injection H as <- <-; simpl; lia |].
      destruct (Str.isword d); [| injection H as <- <-; simpl; lia].
      destruct (name_tail (String d s')) as [m' r'] eqn:E. injection H as <- <-.
      specialize (IH _ _ eq_refl). simpl in *. lia.
Qed.

(** A match consumes at least its equals sign. *)
Lemma assign_re_match_shorter (s var rest : string) :
  assign_re_match s = Some (var, rest) -> String.length rest < String.length s.
Proof.
  unfold assign_re_match. intros H.
  pose proof (lstrip_length s) as H1.
  destruct (Str.lstrip s) as [|c s1]; [done |].
  destruct (Str.isword c); [| done].
  destruct (name_tail s1) as [m r] eqn:E. apply name_tail_length in E.
  pose proof (lstrip_length r) as H2.
  destruct (Str.lstrip r) as [|e r1]; [done |].
  destruct (Ascii.eqb e "="); [| done]. injection H as <- <-.
  pose proof (lstrip_length r1). simpl in *. lia.
Qed.

(** Any fuel above the length of the text gives the same list of matches. *)
Lemma findall_fuel_enough (n m : nat) (s : string) :
  String.length s < n -> String.length s < m ->
  findall_fuel n s = findall_fuel m s.
Proof.
  revert m s. induction n as [|n IH]; intros m s Hn Hm; [lia |].
  destruct m as [|m]; [lia |]. simpl.
  destruct (assign_re_match s) as [[var rest]|] eqn:E.
  - apply assign_re_match_shorter in E. f_equal. apply IH; lia.
  - destruct s as [|c s]; [done |]. simpl in *. apply IH; lia.
Qed.

Lemma assign_re_findall_fuel (line : string) (fuel : nat) :
  String.length line < fuel -> findall_fuel fuel line = assign_re_findall line.
Proof. intros H. apply findall_fuel_enough; [done | lia]. Qed.

(** On a line where the pattern matched, [line.index] and [line.rindex] of
    the equals sign do not raise. *)
Lemma rfind_of_contains (sub s : string) :
  Str.contains sub s = true -> exists i, Str.rfind sub s = Some i.
Proof.
  unfold Str.contains. induction s as [|c s IH]; cbn [Str.find Str.rfind].
  - destruct (Str.startswith EmptyString sub); [eauto | done].
  - destruct (Str.rfind sub s) as [j|]; [eauto |].
    destruct (Str.startswith (String c s) sub); [eauto |].
    destruct (Str.find sub s); [| done]. intros _. by destruct IH.
Qed.

Lemma matched_line_has_eq (line : string) :
  0 < length (assign_re_findall line) ->
  (exists i, Str.find "=" line = Some i) /\ (exists j, Str.rfind "=" line = Some j).
Proof.
  intros H. assert (Hc : Str.contains "=" line = true).
  { destruct (Str.contains "=" line) eqn:E; [done |].
    rewrite assign_re_findall_no_eq in H by done. simpl in H. lia. }
  split; [| by apply rfind_of_contains].
  unfold Str.contains in Hc. destruct (Str.find "=" line); [eauto | done].
Qed.

(** The output of [strip_useless_code] around one line of the input. *)
Lemma strip_useless_code_at (vba_code : string) (pre post : list string) (line : string) :
  Str.split Str.nl vba_code = pre ++ line :: post ->
  strip_useless_code vba_code =
    collapse_macro_if_blocks
      (rw_r (foldl (rewrite_step (comment_lines_of (Str.split Str.nl vba_code)))
               (rewrite_step (comment_lines_of (Str.split Str.nl vba_code))
                  (rewrite_lines (comment_lines_of (Str.split Str.nl vba_code)) pre)
                  line)
               post)).
Proof.
  intros Hsplit. unfold strip_useless_code. cbv zeta.
  generalize (comment_lines_of (Str.split Str.nl vba_code)). intros cl.
  by rewrite Hsplit, rewrite_lines_app.
Qed.

Lemma rewrite_step_plain_at cl (pre : list string) line :
  Str.startswith (Str.strip line) "If " = false ->
  Str.startswith (Str.strip line) "End If" = false ->
  rewrite_step cl (rewrite_lines cl pre) line =
    RewriteState (S (length pre)) (if_count (rewrite_lines cl pre))
      (if stripped_by_usage cl (S (length pre)) line
          || is_useless_call line || is_useless_dim line
       then rw_r (rewrite_lines cl pre)
       else rw_r (rewrite_lines cl pre) +:+ keep_line line).
Proof.
  intros HIf HEnd. rewrite rewrite_step_plain by done.
  by rewrite rewrite_lines_line_num.
Qed.

Lemma lookup_middle_line (pre post : list string) (line : string) :
  (pre ++ line :: post) !! length pre = Some line.
Proof. by rewrite lookup_app_r, Nat.sub_diag. Qed.

(** C9, as the code has it.  In the rewriting loop of [strip_useless_code]:
    a line that [is_useless_call] accepts (no equals sign, and the text before
    its first opening parenthesis, spaces deleted, is one of Cos, Log, Exp,
    Sin, Tan) and a line that [is_useless_dim] accepts (stripped, it starts
    with [Dim ], holds none of Byte, Long, Integer, colon, equals sign, and
    does not end with an underscore) add nothing to the output; a [Dim] line
    holding Byte, Long or Integer and no equals sign is copied to the output
    unchanged (a line ending in [End Function] apart, which the loop
    splits). *)
Theorem useless_call_and_dim_stripped
    (vba_code : string) (pre post : list string) (line : string) :
  Str.split Str.nl vba_code = pre ++ line :: post ->
  let cl := comment_lines_of (Str.split Str.nl vba_code) in
  let st := rewrite_lines cl pre in
  (is_useless_call line = true \/ is_useless_dim line = true ->
   strip_useless_code vba_code =
     collapse_macro_if_blocks
       (rw_r (foldl (rewrite_step cl)
                (RewriteState (S (length pre)) (if_count st) (rw_r st)) post)))
  /\ (Str.startswith (Str.strip line) "Dim " = true ->
      Str.contains "Byte" (Str.strip line) || Str.contains "Long" (Str.strip line)
        || Str.contains "Integer" (Str.strip line) = true ->
      Str.contains "=" line = false ->
      Str.endswith line "End Function" = false ->
      strip_useless_code vba_code =
        collapse_macro_if_blocks
          (rw_r (foldl (rewrite_step cl)
                   (RewriteState (S (length pre)) (if_count st)
                      (rw_r st +:+ line +:+ Str.NL)) post))).
Proof.
  intros Hsplit cl st. split.
  - intros Huseless. rewrite (strip_useless_code_at _ _ _ _ Hsplit). fold cl.
    assert (Str.startswith (Str.strip line) "If " = false
            /\ Str.startswith (Str.strip line) "End If" = false) as [HIf HEnd].
    { destruct Huseless as [Hcall | Hdim%is_useless_dim_prefix]; split;
        match goal with |- ?b = false => destruct b eqn:E; [| done] end;
        first [useless_call_clash Hcall E | prefix_clash Hdim E]. }
    rewrite rewrite_step_plain_at by done. fold st.
    replace (_ || is_useless_call line || is_useless_dim line) with true; [done |].
    destruct Huseless as [-> | ->]; by rewrite ?orb_true_r.
  - intros Hdim Htyped Heq Hend. rewrite (strip_useless_code_at _ _ _ _ Hsplit).
    fold cl.
    destruct (Str.startswith (Str.strip line) "If ") eqn:HIf; [prefix_clash Hdim HIf |].
    destruct (Str.startswith (Str.strip line) "End If") eqn:HEnd;
      [prefix_clash Hdim HEnd |].
    rewrite rewrite_step_plain_at by done. fold st.
    assert (Hcl : stripped_by_usage cl (S (length pre)) line = false).
    { unfold stripped_by_usage. rewrite bool_decide_eq_false_2; [done |].
      subst cl. rewrite Hsplit.
      eapply no_eq_not_commented; [apply lookup_middle_line | done]. }
    assert (Hcall : is_useless_call line = false).
    { destruct (is_useless_call line) eqn:Hcall; [| done].
      useless_call_clash Hcall Hdim. }
    assert (Hud : is_useless_dim line = false).
    { unfold is_useless_dim. rewrite Hdim. cbn [negb].
      apply orb_true_iff in Htyped as [[-> | ->]%orb_true_iff | ->];
        cbn [negb andb]; by rewrite ?andb_false_r. }
    rewrite Hcl, Hcall, Hud. cbn [orb].
    unfold keep_line. rewrite Hend. cbn [andb].
    destruct (is_quoted_application_run line) eqn:Happ; [| done].
    unfold is_quoted_application_run in Happ.
    apply andb_true_iff in Happ as [[Happ _]%andb_true_iff _].
    prefix_clash Hdim Happ.
Qed.

(** ** Unmatched [End If] (C7) *)

(** The counter after one more line. *)
Lemma rewrite_step_if_count cl st line :
  (0 <= if_count st)%Z ->
  if_count (rewrite_step cl st line)
  = if Str.startswith (Str.strip line) "If " then (if_count st + 1)%Z
    else if Str.startswith (Str.strip line) "End If" then Z.max 0 (if_count st - 1)
    else if_count st.
Proof.
  intros Hst. unfold rewrite_step.
  destruct (Str.startswith (Str.strip line) "If ") eqn:HIf;
    destruct (Str.startswith (Str.strip line) "End If") eqn:HEnd;
    try prefix_clash HIf HEnd; cbn [andb].
  - repeat case_match; done.
  - case_bool_decide; [simpl; lia |]. repeat case_match; simpl; lia.
  - repeat case_match; done.
Qed.

Lemma end_if_excess_snoc (pre : list string) (l : string) :
  end_if_excess (pre ++ [l])
  = (end_if_excess pre
     + (if Str.startswith (Str.strip l) "End If" then 1 else 0)
     - (if Str.startswith (Str.strip l) "If " then 1 else 0))%Z.
Proof.
  unfold end_if_excess, end_if_closings, if_openings.
  rewrite !filter_app, !length_app, !filter_cons, !filter_nil.
  destruct (Str.startswith (Str.strip l) "End If");
    destruct (Str.startswith (Str.strip l) "If ");
    rewrite ?decide_True by done; rewrite ?decide_False by done; simpl; lia.
Qed.

(** The counter is the gap between the excess of closings over openings
    now and the largest it has been: no prefix of the text has a larger
    excess than the present one plus the counter, and one has exactly
    that. *)
Lemma if_count_is_gap_to_peak cl pre :
  (forall j, (end_if_excess (take j pre)
              <= end_if_excess pre + if_count (rewrite_lines cl pre))%Z)
  /\ (exists j, end_if_excess (take j pre)
                = (end_if_excess pre + if_count (rewrite_lines cl pre))%Z).
Proof.
  induction pre as [|l pre [IHle [j0 IHeq]]] using rev_ind.
  - split; [intros j | exists 0]; by rewrite take_nil.
  - pose proof (rewrite_lines_if_count_nonneg cl pre) as Hc.
    rewrite rewrite_lines_app. cbn [foldl].
    rewrite rewrite_step_if_count by done. rewrite end_if_excess_snoc.
    assert (Htake : forall j, take j (pre ++ [l]) = take j pre
                              \/ take j (pre ++ [l]) = pre ++ [l]).
    { intros j. destruct (decide (j <= length pre)).
      - left. by rewrite take_app_le.
      - right. rewrite take_ge; [done |]. rewrite length_app. simpl. lia. }
    assert (Hj0 : exists j, j <= length pre
                            /\ end_if_excess (take j pre)
                               = (end_if_excess pre + if_count (rewrite_lines cl pre))%Z).
    { destruct (decide (j0 <= length pre)); [by exists j0 |].
      exists (length pre). split; [done |].
      rewrite take_ge in IHeq by lia. by rewrite firstn_all. }
    clear j0 IHeq. destruct Hj0 as (j0 & Hj0 & IHeq).
    assert (Hlast : take (S (length pre)) (pre ++ [l]) = pre ++ [l])
      by (rewrite take_ge; [done |]; rewrite length_app; simpl; lia).
    destruct (Str.startswith (Str.strip l) "If ") eqn:HIf;
      destruct (Str.startswith (Str.strip l) "End If") eqn:HEnd;
      try prefix_clash HIf HEnd.
    + split.
      * intros j. destruct (Htake j) as [-> | ->].
        -- specialize (IHle j). lia.
        -- rewrite end_if_excess_snoc, HIf, HEnd. lia.
      * exists j0. rewrite take_app_le by done. lia.
    + split.
      * intros j. destruct (Htake j) as [-> | ->].
        -- specialize (IHle j). lia.
        -- rewrite end_if_excess_snoc, HIf, HEnd. lia.
      * destruct (decide (if_count (rewrite_lines cl pre) = 0%Z)) as [Hz | Hz].
        -- exists (S (length pre)). rewrite Hlast, end_if_excess_snoc, HIf, HEnd. lia.
        -- exists j0. rewrite take_app_le by done. lia.
    + split.
      * intros j. destruct (Htake j) as [-> | ->].
        -- specialize (IHle j). lia.
        -- rewrite end_if_excess_snoc, HIf, HEnd. lia.
      * exists j0. rewrite take_app_le by done. lia.
Qed.

(** No [If] is open exactly when the excess of closings over openings is
    at its largest. *)
Lemma if_count_zero_iff cl pre :
  if_count (rewrite_lines cl pre) = 0%Z
  <-> forall j, (end_if_excess (take j pre) <= end_if_excess pre)%Z.
Proof.
  destruct (if_count_is_gap_to_peak cl pre) as [Hle [j Heq]].
  pose proof (rewrite_lines_if_count_nonneg cl pre) as Hc. split.
  - intros Hz j'. specialize (Hle j'). lia.
  - intros Hall. specialize (Hall j). lia.
Qed.

(** C7.  The rewriting loop of [strip_useless_code] counts the [If]
    openings against the [End If] closings, with the counter set back to
    zero whenever a closing finds it at zero.  An [End If] line is therefore
    replaced by [End Function] exactly when the excess of the closings over
    the openings read before it is at least what it was at every earlier
    point of the text; when it was larger at some earlier point, the line
    counts as the closing of an open [If] and goes through the ordinary
    rules (it is not a useless call or [Dim]).  The lone line [End If] is
    the first case with nothing before it. *)
Theorem unmatched_end_if_becomes_end_function
    (vba_code : string) (pre post : list string) (line : string) :
  Str.split Str.nl vba_code = pre ++ line :: post ->
  Str.startswith (Str.strip line) "End If" = true ->
  let cl := comment_lines_of (Str.split Str.nl vba_code) in
  let st := rewrite_lines cl pre in
  ((forall j, (end_if_excess (take j pre) <= end_if_excess pre)%Z) ->
   strip_useless_code vba_code =
     collapse_macro_if_blocks
       (rw_r (foldl (rewrite_step cl)
                (RewriteState (S (length pre)) 0
                   (rw_r st +:+ "End Function" +:+ Str.NL))
                post)))
  /\ ((exists j, (end_if_excess pre < end_if_excess (take j pre))%Z) ->
      strip_useless_code vba_code =
        collapse_macro_if_blocks
          (rw_r (foldl (rewrite_step cl)
                   (RewriteState (S (length pre)) (if_count st - 1)
                      (if stripped_by_usage cl (S (length pre)) line then rw_r st
                       else rw_r st +:+ keep_line line))
                   post))).
Proof.
  intros Hsplit HEnd cl st.
  rewrite (strip_useless_code_at _ _ _ _ Hsplit). fold cl. fold st.
  pose proof (if_count_zero_iff cl pre) as Hzero. fold st in Hzero.
  pose proof (rewrite_lines_if_count_nonneg cl pre) as Hc. fold st in Hc.
  assert (HIf : Str.startswith (Str.strip line) "If " = false).
  { destruct (Str.startswith (Str.strip line) "If ") eqn:HIf; [| done].
    prefix_clash HIf HEnd. }
  split.
  - intros Hpeak. apply (proj2 Hzero) in Hpeak.
    rewrite rewrite_step_unmatched_end_if by done.
    unfold st. by rewrite rewrite_lines_line_num.
  - intros [j Hj].
    assert (if_count st <> 0%Z) as Hnz.
    { intros Hz. pose proof (proj1 Hzero Hz j). lia. }
    assert (is_useless_call line = false) as Hcall.
    { destruct (is_useless_call line) eqn:Hcall; [| done].
      useless_call_clash Hcall HEnd. }
    assert (is_useless_dim line = false) as Hdim.
    { destruct (is_useless_dim line) eqn:Hdim; [| done].
      apply is_useless_dim_prefix in Hdim. prefix_clash Hdim HEnd. }
    unfold rewrite_step at 2. rewrite HIf, HEnd. cbn [andb].
    rewrite bool_decide_eq_false_2 by lia. rewrite Hcall, Hdim.
    replace (rw_line_num st) with (length pre)
      by (symmetry; apply rewrite_lines_line_num).
    by destruct (stripped_by_usage cl (S (length pre)) line).
Qed.

(** C7 on the lone [End If], which becomes [End Function], and on an
    [End If] after its [If], which stays; each output ends with the empty
    last line that the two passes add. *)
Lemma unmatched_end_if_witness :
  strip_useless_code "End If" = "End Function" +:+ Str.NL +:+ Str.NL
  /\ strip_useless_code ("If a Then" +:+ Str.NL +:+ "End If")
     = "If a Then" +:+ Str.NL +:+ "End If" +:+ Str.NL +:+ Str.NL.
Proof.
  split.
  - rewrite (proj1 (unmatched_end_if_becomes_end_function "End If" [] [] "End If"
                      eq_refl eq_refl)); [reflexivity |].
    intros j. by rewrite take_nil.
  - rewrite (proj2 (unmatched_end_if_becomes_end_function
                      ("If a Then" +:+ Str.NL +:+ "End If") ["If a Then"] [] "End If"
                      eq_refl eq_refl)); [vm_compute; reflexivity |].
    exists 0. vm_compute. reflexivity.
Defined.

(** C7 as stated fails: in the text [End If], [If a Then], [End If] the
    closings read up to the third line outnumber the openings, two to one
    with it and one to one before it, and the line is kept: the counter was
    set back to zero at the first line, so that the [If] of the second line
    is open when the third is read. *)
Lemma end_if_after_reset_is_kept :
  let vba_code := "End If" +:+ Str.NL +:+ "If a Then" +:+ Str.NL +:+ "End If" in
  Str.split Str.nl vba_code = ["End If"; "If a Then"; "End If"]
  /\ end_if_closings ["End If"; "If a Then"; "End If"] = 2%Z
  /\ if_openings ["End If"; "If a Then"; "End If"] = 1%Z
  /\ end_if_closings ["End If"; "If a Then"] = 1%Z
  /\ if_openings ["End If"; "If a Then"] = 1%Z
  /\ strip_useless_code vba_code
     = Str.unlines ["End Function"; "If a Then"; "End If"; EmptyString].
Proof. repeat split; vm_compute; reflexivity. Qed.

(** ** The [Application.Run] rewrite (C8) *)

Lemma endswith_app (s p : string) :
  Str.endswith s p = true -> exists x, s = x +:+ p.
Proof.
  induction s as [|c s IH]; cbn [Str.endswith]; intros H.
  - rewrite orb_false_r in H. apply String.eqb_eq in H as <-. by exists EmptyString.
  - apply orb_true_iff in H as [H | H].
    + apply String.eqb_eq in H as <-. by exists EmptyString.
    + destruct (IH H) as [x ->]. by exists (String c x).
Qed.

Lemma last_char_app (u v : string) :
  v <> EmptyString -> last_char (u +:+ v) = last_char v.
Proof.
  intros Hv. induction u as [|c u IH]; [done |].
  rewrite app_cons_str. cbn [last_char]. rewrite IH.
  destruct (u +:+ v) eqn:E; [| done].
  destruct u; [| done]. by destruct v.
Qed.

Lemma last_char_snoc (s : string) (c : ascii) :
  last_char s = Some c -> exists u, s = u +:+ String c EmptyString.
Proof.
  induction s as [|a s IH]; [done |]. cbn [last_char].
  destruct s as [|b s'].
  - intros [= ->]. by exists EmptyString.
  - intros H. destruct (IH H) as [u Hu]. exists (String a u).
    by rewrite app_cons_str, <- Hu.
Qed.

Lemma lstrip_app_nonspace (x : string) (c : ascii) (y : string) :
  Str.isspace c = false ->
  exists x', Str.lstrip (x +:+ String c y) = x' +:+ String c y.
Proof.
  intros Hc. induction x as [|a x IH].
  - exists EmptyString. simpl. by rewrite Hc.
  - rewrite app_cons_str. simpl. destruct (Str.isspace a); [done |].
    by exists (String a x).
Qed.

Lemma rstrip_nonspace_end (s : string) (c : ascii) :
  last_char s = Some c -> Str.isspace c = false -> Str.rstrip s = s.
Proof.
  intros Hlast Hc. induction s as [|a s IH]; [done |].
  cbn [last_char] in Hlast. simpl. destruct s as [|b s'].
  - injection Hlast as ->. simpl. by rewrite Hc.
  - rewrite IH by done. done.
Qed.

(** Stripping keeps a last character that is not white space. *)
Lemma strip_last_char (line : string) (c : ascii) :
  last_char line = Some c -> Str.isspace c = false ->
  last_char (Str.strip line) = Some c.
Proof.
  intros Hlast Hc. destruct (last_char_snoc _ _ Hlast) as [u ->].
  destruct (lstrip_app_nonspace u c EmptyString Hc) as [x' Hx].
  unfold Str.strip. rewrite Hx.
  assert (Hl : last_char (x' +:+ String c EmptyString) = Some c)
    by by rewrite last_char_app.
  by rewrite (rstrip_nonspace_end _ _ Hl Hc).
Qed.

Lemma endswith_last_char (s p : string) :
  Str.endswith s p = true -> p <> EmptyString -> last_char s = last_char p.
Proof. intros [x ->]%endswith_app Hp. by apply last_char_app. Qed.

(** A line whose stripped text ends with a double quote does not end with
    [End Function]. *)
Lemma quote_end_not_end_function (line : string) :
  Str.endswith (Str.strip line) Str.DQ = true ->
  Str.endswith line "End Function" = false.
Proof.
  intros Hq. destruct (Str.endswith line "End Function") eqn:E; [| done].
  apply endswith_last_char in E; [| done].
  apply endswith_last_char in Hq; [| done].
  change (last_char "End Function") with (Some "n"%char) in E.
  rewrite (strip_last_char _ _ E eq_refl) in Hq. by vm_compute in Hq.
Qed.

Lemma split_nonempty (c : ascii) (s : string) : Str.split c s <> [].
Proof.
  destruct s as [|a s]; [done |]. simpl.
  destruct (Ascii.eqb a c); [done |]. by destruct (Str.split c s).
Qed.

(** One field more than separators. *)
Lemma split_length (c : ascii) (s : string) :
  length (Str.split c s) = S (Str.count c s).
Proof.
  induction s as [|a s IH]; [done |]. simpl.
  destruct (Ascii.eqb a c); simpl; [by rewrite IH |].
  destruct (Str.split c s) eqn:E; [by apply split_nonempty in E |].
  simpl in *. done.
Qed.

(** C8, as the code has it.  A line whose stripped text starts with
    [Application.Run] and ends with a double quote, and that holds exactly
    two double quotes, always reaches the rewrite: the loop emits its text
    with the quotes and every [Application.Run] deleted, and puts
    [WScript.Shell] and a space before it exactly when that text holds a
    comma and its first comma-separated field, stripped, holds no space. *)
Theorem application_run_rewritten
    (vba_code : string) (pre post : list string) (line : string) :
  Str.split Str.nl vba_code = pre ++ line :: post ->
  Str.startswith (Str.strip line) "Application.Run" = true ->
  Str.count Str.dquote line = 2 ->
  Str.endswith (Str.strip line) Str.DQ = true ->
  let cl := comment_lines_of (Str.split Str.nl vba_code) in
  let st := rewrite_lines cl pre in
  let body := Str.replace "Application.Run" "" (Str.replace Str.DQ "" line) in
  let first_field := default EmptyString (head (Str.split "," body)) in
  let shell := bool_decide (0 < Str.count "," body)
               && negb (Str.contains " " (Str.strip first_field)) in
  strip_useless_code vba_code =
    collapse_macro_if_blocks
      (rw_r (foldl (rewrite_step cl)
               (RewriteState (S (length pre)) (if_count st)
                  (rw_r st +:+ (if shell then "WScript.Shell " +:+ body else body)
                   +:+ Str.NL))
               post)).
Proof.
  intros Hsplit Happ Hcount Hquote cl st body first_field shell.
  rewrite (strip_useless_code_at _ _ _ _ Hsplit). fold cl.
  destruct (Str.startswith (Str.strip line) "If ") eqn:HIf; [prefix_clash Happ HIf |].
  destruct (Str.startswith (Str.strip line) "End If") eqn:HEnd;
    [prefix_clash Happ HEnd |].
  rewrite rewrite_step_plain_at by done. fold st.
  assert (Hcl : stripped_by_usage cl (S (length pre)) line = false).
  { unfold stripped_by_usage. rewrite bool_decide_eq_false_2; [done |].
    subst cl. rewrite Hsplit.
    eapply protected_not_commented; [apply lookup_middle_line |]. left.
    apply (existsb_true_intro _ _ "Run"); [by repeat constructor |].
    by apply (contains_of_strip_prefix line "Application." "Run" EmptyString). }
  assert (Hcall : is_useless_call line = false).
  { destruct (is_useless_call line) eqn:Hcall; [| done].
    useless_call_clash Hcall Happ. }
  assert (Hud : is_useless_dim line = false).
  { destruct (is_useless_dim line) eqn:Hud; [| done].
    apply is_useless_dim_prefix in Hud. prefix_clash Happ Hud. }
  rewrite Hcl, Hcall, Hud. cbn [orb].
  unfold keep_line. rewrite (quote_end_not_end_function _ Hquote). cbn [andb].
  unfold is_quoted_application_run. rewrite Happ, Hquote, bool_decide_eq_true_2 by done.
  cbn [andb]. unfold fix_application_run. fold body. fold first_field.
  rewrite split_length.
  replace (bool_decide (1 < S (Str.count "," body)))
    with (bool_decide (0 < Str.count "," body))
    by (apply bool_decide_ext; lia).
  fold shell. by destruct shell.
Qed.

(** ** Lines and text *)

Lemma split_app_sep (c : ascii) (x y : string) :
  Str.split c (x +:+ String c y) = Str.split c x ++ Str.split c y.
Proof.
  induction x as [|a x IH].
  - change (EmptyString +:+ String c y) with (String c y). simpl.
    by rewrite Ascii.eqb_refl.
  - rewrite app_cons_str. simpl. rewrite IH.
    destruct (Ascii.eqb a c); [done |].
    destruct (Str.split c x) eqn:E; [by apply split_nonempty in E | done].
Qed.

Lemma unlines_app (a b : list string) :
  Str.unlines (a ++ b) = Str.unlines a +:+ Str.unlines b.
Proof.
  induction a as [|l a IH]; [done |]. simpl. by rewrite IH, !app_assoc_str.
Qed.

(** Joining the lines of a text gives the text and one more newline. *)
Lemma unlines_split (s : string) :
  Str.unlines (Str.split Str.nl s) = s +:+ Str.NL.
Proof.
  induction s as [|a s IH]; [done |]. simpl.
  destruct (Ascii.eqb a Str.nl) eqn:E.
  - apply Ascii.eqb_eq in E as ->. simpl. by rewrite IH.
  - destruct (Str.split Str.nl s) as [|hd tl] eqn:Es;
      [by apply split_nonempty in Es |].
    simpl in *. rewrite app_cons_str, app_cons_str. f_equal.
    by rewrite <- IH.
Qed.

(** ** The normalizer on text it does not touch (C2) *)

Lemma rewrite_step_r_no_end_if cl st line :
  Str.startswith (Str.strip line) "End If" = false ->
  rw_r (rewrite_step cl st line) =
    if stripped_by_usage cl (S (rw_line_num st)) line
       || is_useless_call line || is_useless_dim line
    then rw_r st else rw_r st +:+ keep_line line.
Proof.
  intros HEnd. unfold rewrite_step. rewrite HEnd. cbn [andb].
  by repeat case_match.
Qed.

Lemma untouched_keep_line (l : string) :
  untouched_line l = true -> keep_line l = l +:+ Str.NL.
Proof.
  unfold untouched_line, keep_line. intros H.
  repeat (apply andb_true_iff in H as [H ?]).
  repeat match goal with H : negb ?b = true |- _ =>
    apply negb_true_iff in H end.
  by repeat match goal with H : _ = false |- _ => rewrite H; clear H end.
Qed.

(** The rewriting loop copies untouched lines. *)
Lemma rewrite_lines_untouched (lines pre post : list string) :
  lines = pre ++ post ->
  Forall (fun l => untouched_line l = true) lines ->
  rw_r (rewrite_lines (comment_lines_of lines) pre) = Str.unlines pre.
Proof.
  revert post. induction pre as [|l pre IH] using rev_ind; intros post Hl Hall; [done |].
  rewrite <- app_assoc in Hl. cbn [app] in Hl.
  rewrite rewrite_lines_app. cbn [foldl].
  assert (Hu : untouched_line l = true).
  { rewrite Forall_forall in Hall. apply Hall. rewrite Hl.
    apply elem_of_app. right. constructor. }
  pose proof (untouched_keep_line _ Hu) as Hkeep.
  unfold untouched_line in Hu.
  repeat (apply andb_true_iff in Hu as [Hu ?]).
  repeat match goal with H : negb ?b = true |- _ =>
    apply negb_true_iff in H end.
  rewrite rewrite_step_r_no_end_if by done.
  rewrite rewrite_lines_line_num.
  assert (Hcl : stripped_by_usage (comment_lines_of lines) (S (length pre)) l = false).
  { unfold stripped_by_usage. rewrite bool_decide_eq_false_2; [done |].
    rewrite Hl at 1.
    eapply no_eq_not_commented; [rewrite Hl; apply lookup_middle_line | done]. }
  rewrite Hcl. repeat match goal with H : _ = false |- _ => rewrite H; clear H end.
  cbn [orb]. rewrite (IH _ Hl Hall), Hkeep, unlines_app. simpl.
  by rewrite app_nil_r_str.
Qed.

(** Without a line opening a block, [collapse_macro_if_blocks] copies. *)
Lemma collapse_no_if (ls : list string) cb r :
  Forall (fun l => Str.startswith (Str.strip l) "#If" = false) ls ->
  foldl collapse_step (CollapseState None cb r) ls
  = CollapseState None cb (r +:+ Str.unlines ls).
Proof.
  revert r. induction ls as [|l ls IH]; intros r Hall.
  - simpl. by rewrite app_nil_r_str.
  - apply Forall_cons in Hall as [Hl Hall]. cbn [foldl].
    unfold collapse_step at 2. cbn [curr_blocks curr_block collapse_r]. rewrite Hl.
    rewrite IH by done. simpl. by rewrite !app_assoc_str.
Qed.

Lemma untouched_not_if_marker (l : string) :
  untouched_line l = true -> Str.startswith (Str.strip l) "#If" = false.
Proof.
  unfold untouched_line. intros H. apply andb_true_iff in H as [_ H].
  by apply negb_true_iff in H.
Qed.

Lemma strip_useless_code_untouched (vba_code : string) :
  Forall (fun l => untouched_line l = true) (Str.split Str.nl vba_code) ->
  strip_useless_code vba_code = vba_code +:+ Str.NL +:+ Str.NL.
Proof.
  intros Hall. unfold strip_useless_code. cbv zeta.
  unfold rewrite_lines at 1.
  change (foldl (rewrite_step ?cl) rewrite_init ?ls) with (rewrite_lines cl ls).
  rewrite (rewrite_lines_untouched _ _ [] (eq_sym (app_nil_r _)) Hall).
  rewrite unlines_split. unfold collapse_macro_if_blocks.
  unfold Str.NL at 1. rewrite split_app_sep. unfold collapse_init.
  rewrite collapse_no_if.
  - cbn [collapse_r]. change (EmptyString +:+ ?x) with x.
    rewrite unlines_app, unlines_split. simpl. by rewrite !app_assoc_str.
  - apply Forall_app. split; [| by repeat constructor].
    eapply Forall_impl; [exact Hall |]. apply untouched_not_if_marker.
Qed.

(** C2, as far as it holds.  On a text whose lines no rule touches (no equals
    sign, no unmatched-looking [End If], no useless call or declaration, no
    [End Function] at the end of a longer line, no quoted [Application.Run],
    no [#If]) the normalizer returns the text followed by two newlines;
    applied to its own output it adds two more.  The normalizer is idempotent
    on such texts only up to the newlines at the end. *)
Theorem normalizer_adds_two_newlines (vba_code : string) :
  Forall (fun l => untouched_line l = true) (Str.split Str.nl vba_code) ->
  strip_useless_code vba_code = vba_code +:+ Str.NL +:+ Str.NL
  /\ strip_useless_code (strip_useless_code vba_code)
     = strip_useless_code vba_code +:+ Str.NL +:+ Str.NL.
Proof.
  intros Hall. pose proof (strip_useless_code_untouched _ Hall) as H1.
  split; [done |]. rewrite H1.
  apply strip_useless_code_untouched.
  change (vba_code +:+ Str.NL +:+ Str.NL) with (vba_code +:+ String Str.nl Str.NL).
  rewrite split_app_sep.
  apply Forall_app. split; [done | by repeat constructor].
Qed.

(** ** Lines of the output (C5) *)












Lemma pick_biggest_in (blocks : list (list string)) :
  pick_biggest blocks = [] \/ pick_biggest blocks ∈ blocks.
Proof.
  destruct (pick_biggest_from [] blocks) as [[Hr _] | (_ & before & after & Hb & _)].
  - by left.
  - right. unfold pick_biggest. rewrite Hb at 2. apply elem_of_app. right. constructor.
Qed.









(** ** The driver *)

Section DriverFacts.

Context {AST Meta Action Core : Type}.
Variable w : @collaborators AST Meta Action Core.

Lemma emitting_emitting (a b : list event) (s : @py_state Meta) :
  emitting b (emitting a s) = emitting (a ++ b) s.
Proof. unfold emitting. simpl. by rewrite app_assoc. Qed.

Lemma emitting_nil (s : @py_state Meta) : emitting [] s = s.
Proof. destruct s. unfold emitting. simpl. by rewrite app_nil_r. Qed.

Lemma print_spec (text : string) (s : @py_state Meta) :
  print text s = (Return (), emitting [Printed text] s).
Proof. done. Qed.

Lemma bind_print {A} (text : string) (k : M A) (s : @py_state Meta) :
  (print text ;; k) s = k (emitting [Printed text] s).
Proof. done. Qed.

Lemma bind_lift_return {A B} (a : A) (k : A -> M B) (s : @py_state Meta) :
  (lift (Return a) ≫= k) s = k a s.
Proof. done. Qed.

Lemma bind_lift_raise {A B} (e : exn) (k : A -> M B) (s : @py_state Meta) :
  (lift (Raise e) ≫= k) s = (Raise e, s).
Proof. done. Qed.

Lemma try_except_raise {A} catches (body : M A) handler e (s s' : @py_state Meta) :
  body s = (Raise e, s') -> catches e = true ->
  try_except catches body handler s = handler e s'.
Proof. intros Hb Hc. unfold try_except. by rewrite Hb, Hc. Qed.

Lemma try_except_escape {A} catches (body : M A) handler e (s s' : @py_state Meta) :
  body s = (Raise e, s') -> catches e = false ->
  try_except catches body handler s = (Raise e, s').
Proof. intros Hb Hc. unfold try_except. by rewrite Hb, Hc. Qed.

Lemma try_except_return {A} catches (body : M A) handler a (s s' : @py_state Meta) :
  body s = (Return a, s') ->
  try_except catches body handler s = (Return a, s').
Proof. intros Hb. unfold try_except. by rewrite Hb. Qed.

(** The four header lines, then the rest of [parse_stream]. *)
Lemma parse_stream_unfold subfilename stream_path vba_filename vba_code strip_useless
    (s : @py_state Meta) :
  parse_stream w subfilename stream_path vba_filename vba_code strip_useless s =
    let code := normalized_code w vba_code strip_useless in
    let s1 := emitting (stream_header w subfilename stream_path vba_filename) s in
    if String.eqb (Str.strip code) EmptyString then
      (Return (ModuleStr "empty"), emitting [Printed "(empty macro)"] s1)
    else
      try_except is_ParseException
        (m ← lift (module_parseString w (code +:+ Str.NL));
         mret (ModuleObj m code))
        (fun err =>
           match err with
           | ParseException line column _ =>
               print line;;
               print (repeat_str " " (column - 1) +:+ "^");;
               print (exn_str err);;
               print "Parse Error. Processing Aborted.";;
               mret ModuleNone
           | OtherException _ _ => lift (Raise err)
           end)
        (emitting [Printed (repeat_str "-" 79);
                   Printed "VBA CODE (with long lines collapsed):";
                   Printed code;
                   Printed (repeat_str "-" 79);
                   Printed "PARSING VBA CODE:"] s1).
Proof.
  unfold parse_stream, normalized_code, stream_header. cbv zeta.
  rewrite !bind_print, !emitting_emitting. cbn [app].
  destruct (String.eqb _ EmptyString);
    rewrite !bind_print, ?emitting_emitting; reflexivity.
Qed.

Lemma parse_stream_empty subfilename stream_path vba_filename vba_code strip_useless
    (s : @py_state Meta) :
  Str.strip (normalized_code w vba_code strip_useless) = EmptyString ->
  parse_stream w subfilename stream_path vba_filename vba_code strip_useless s =
    (Return (ModuleStr "empty"),
     emitting (stream_header w subfilename stream_path vba_filename
               ++ [Printed "(empty macro)"]) s).
Proof.
  intros H. rewrite parse_stream_unfold. cbv zeta. rewrite H. simpl.
  by rewrite emitting_emitting.
Qed.


(** Reading the metadata never raises. *)
Lemma prepare_emulation_returns filename (s : @py_state Meta) :
  exists s1, prepare_emulation w filename s = (Return (), s1).
Proof.
  unfold prepare_emulation, try_except, mbind, M_bind, lift.
  destruct (OleFileIO_get_metadata w filename); simpl; eauto.
Qed.

End DriverFacts.

Section DriverClaims.

Context {AST Meta Action Core : Type}.
Variable w : @collaborators AST Meta Action Core.

Lemma parse_streams_serial_loop_cons subfilename stream_path vba_filename vba_code
    macros strip_useless r (s : @py_state Meta) :
  parse_streams_serial_loop w
    ((subfilename, stream_path, vba_filename, vba_code) :: macros) strip_useless r s =
  match parse_stream w subfilename stream_path vba_filename vba_code strip_useless s with
  | (Return ModuleNone, s') => (Return None, s')
  | (Return m, s') => parse_streams_serial_loop w macros strip_useless (r ++ [m]) s'
  | (Raise e, s') => (Raise e, s')
  end.
Proof.
  cbn [parse_streams_serial_loop]. unfold mbind at 1, M_bind at 1.
  destruct (parse_stream _ _ _ _ _ _ s) as [[[| |]|] s']; done.
Qed.

Lemma process_file_unfold container filename data altparser strip_useless entry_points
    (s : @py_state Meta) :
  process_file w container filename data altparser strip_useless entry_points s =
  match ViperMonkey_new w with
  | Return vm0 =>
      try_except is_Exception
        (process_file_body w (foldl append_entry_point vm0 (default [] entry_points))
           filename data strip_useless entry_points)
        process_file_handler
        (emitting (file_banner container filename) s)
  | Raise e => (Raise e, emitting (file_banner container filename) s)
  end.
Proof.
  unfold process_file. rewrite !bind_print, !emitting_emitting. cbn [app].
  unfold file_banner.
  destruct (ViperMonkey_new w); [by rewrite bind_lift_return | by rewrite bind_lift_raise].
Qed.

Lemma process_file_handler_spec (e : exn) (s : @py_state Meta) :
  process_file_handler (Action:=Action) e s =
    (Return None,
     if Str.contains "SystemExit" (exn_str e) then s else emitting [Traceback e] s).
Proof.
  unfold process_file_handler. by destruct (Str.contains "SystemExit" (exn_str e)).
Qed.

(** Once [parse_streams] has returned [None], nothing more is done. *)
Lemma emulate_macros_aborted vm vba filename strip_useless entry_points
    (s s' : @py_state Meta) :
  parse_streams w vba strip_useless (prepare_emulation w filename s).2 = (Return None, s') ->
  emulate_macros w vm vba filename strip_useless entry_points s = (Return None, s').
Proof.
  intros H. unfold emulate_macros.
  destruct (prepare_emulation_returns w filename s) as [s1 Hp].
  rewrite Hp in H. simpl in H.
  unfold mbind at 1, M_bind at 1. rewrite Hp.
  unfold mbind at 1, M_bind at 1. by rewrite H.
Qed.

End DriverClaims.

Section BindFacts.

Context {Meta : Type}.

Lemma bind_run {A B} (m : @M Meta A) (k : A -> @M Meta B) a (s s1 : @py_state Meta) :
  m s = (Return a, s1) -> (m ≫= k) s = k a s1.
Proof. intros H. unfold mbind, M_bind. by rewrite H. Qed.

Lemma bind_run_raise {A B} (m : @M Meta A) (k : A -> @M Meta B) e
    (s s1 : @py_state Meta) :
  m s = (Raise e, s1) -> (m ≫= k) s = (Raise e, s1).
Proof. intros H. unfold mbind, M_bind. by rewrite H. Qed.

Lemma bind_emit {A} (ev : event) (k : @M Meta A) (s : @py_state Meta) :
  (emit ev ;; k) s = k (emitting [ev] s).
Proof. reflexivity. Qed.

Lemma bind_ext {A B} (m : @M Meta A) (k1 k2 : A -> @M Meta B) (s : @py_state Meta) :
  (forall a s', k1 a s' = k2 a s') -> (m ≫= k1) s = (m ≫= k2) s.
Proof. intros H. unfold mbind, M_bind. by destruct (m s) as [[a | e] s']. Qed.

Lemma bind_cong {A B} (m1 m2 : @M Meta A) (k : A -> @M Meta B) (s : @py_state Meta) :
  m1 s = m2 s -> (m1 ≫= k) s = (m2 ≫= k) s.
Proof. intros H. unfold mbind, M_bind. by rewrite H. Qed.

End BindFacts.

Section DriverRuns.

Context {AST Meta Action Core : Type}.
Variable w : @collaborators AST Meta Action Core.

(** The four outcomes of [parse_stream]. *)
Lemma parse_stream_cases subfilename stream_path vba_filename vba_code strip_useless
    (s : @py_state Meta) :
  let code := normalized_code w vba_code strip_useless in
  let attempt := parse_attempt_report w subfilename stream_path vba_filename code in
  parse_stream w subfilename stream_path vba_filename vba_code strip_useless s =
    if String.eqb (Str.strip code) EmptyString then
      (Return (ModuleStr "empty"),
       emitting (stream_header w subfilename stream_path vba_filename
                 ++ [Printed "(empty macro)"]) s)
    else
      match module_parseString w (code +:+ Str.NL) with
      | Return ast => (Return (ModuleObj ast code), emitting attempt s)
      | Raise (ParseException line column text) =>
          (Return ModuleNone,
           emitting (parse_failure_report w subfilename stream_path vba_filename code
                       line column text) s)
      | Raise (OtherException b text) => (Raise (OtherException b text), emitting attempt s)
      end.
Proof.
  cbv zeta. rewrite parse_stream_unfold. cbv zeta.
  destruct (String.eqb _ EmptyString) eqn:E.
  - by rewrite emitting_emitting.
  - rewrite emitting_emitting.
    destruct (module_parseString w _) as [ast | [line column text | b text]] eqn:Hp.
    + erewrite try_except_return; [| by rewrite bind_lift_return]. done.
    + erewrite try_except_raise; [| by rewrite bind_lift_raise | done].
      cbv beta iota. rewrite !bind_print, !emitting_emitting.
      unfold parse_failure_report, stream_header. reflexivity.
    + erewrite try_except_escape; [| by rewrite bind_lift_raise | done]. done.
Qed.

(** What [parse_stream] prints, whatever it returns. *)
Lemma parse_stream_report subfilename stream_path vba_filename vba_code strip_useless
    (s : @py_state Meta) :
  (parse_stream w subfilename stream_path vba_filename vba_code strip_useless s).2
  = emitting (stream_report w strip_useless
                (subfilename, stream_path, vba_filename, vba_code)) s.
Proof.
  rewrite parse_stream_cases. cbv zeta. unfold stream_report.
  destruct (String.eqb _ EmptyString); [done |].
  by destruct (module_parseString w _) as [ast | [line column text | b text]].
Qed.

(** A stream that is empty or that the parser takes. *)
Lemma parse_stream_accepted subfilename stream_path vba_filename vba_code strip_useless
    (s : @py_state Meta) :
  let macro := (subfilename, stream_path, vba_filename, vba_code) in
  stream_accepted w strip_useless macro = true ->
  parse_stream w subfilename stream_path vba_filename vba_code strip_useless s
  = (Return (stream_result w strip_useless macro),
     emitting (stream_report w strip_useless macro) s)
  /\ stream_result w strip_useless macro <> ModuleNone.
Proof.
  cbv zeta. unfold stream_accepted, stream_result, stream_report. cbn [snd].
  rewrite parse_stream_cases. cbv zeta.
  destruct (String.eqb _ EmptyString); [done |]. cbn [orb].
  by destruct (module_parseString w _) as [ast | e].
Qed.

(** The loop of [parse_streams_serial] over streams that are all taken. *)
Lemma parse_streams_serial_loop_accepted before rest strip_useless r (s : @py_state Meta) :
  Forall (fun macro => stream_accepted w strip_useless macro = true) before ->
  parse_streams_serial_loop w (before ++ rest) strip_useless r s
  = parse_streams_serial_loop w rest strip_useless
      (r ++ map (stream_result w strip_useless) before)
      (emitting (flat_map (stream_report w strip_useless) before) s).
Proof.
  intros Hall. revert r s.
  induction Hall as [|[[[subfilename stream_path] vba_filename] vba_code] before
                       Hacc _ IH]; intros r s.
  - cbn [app map flat_map]. by rewrite app_nil_r, emitting_nil.
  - cbn [app map flat_map]. rewrite parse_streams_serial_loop_cons.
    destruct (parse_stream_accepted subfilename stream_path vba_filename vba_code
                strip_useless s Hacc) as [-> Hne].
    destruct (stream_result w strip_useless _) eqn:E; [done | |];
      by rewrite IH, emitting_emitting, <- app_assoc.
Qed.

(** [parse_streams] is the serial loop over the streams of the
    document. *)
Lemma parse_streams_extracted vba strip_useless macros (s : @py_state Meta) :
  extract_macros vba = Return macros ->
  parse_streams w vba strip_useless s
  = parse_streams_serial_loop w macros strip_useless [] s.
Proof.
  intros H. unfold parse_streams. cbn [parallel]. unfold parse_streams_serial.
  by rewrite H, bind_lift_return.
Qed.

(** The sentinels of empty streams do not reach the emulator. *)
Lemma add_compiled_modules_filter comp_modules vm (s : @py_state Meta) :
  add_compiled_modules w comp_modules vm s
  = add_compiled_modules w (filter (fun m => not_empty_sentinel m = true) comp_modules) vm s.
Proof.
  unfold add_compiled_modules. revert vm s.
  induction comp_modules as [|m comp_modules IH]; intros vm s; [done |].
  rewrite filter_cons. destruct (not_empty_sentinel m) eqn:E.
  - rewrite decide_True by done. cbn [for_each]. rewrite E.
    apply bind_ext. intros vm' s'. apply IH.
  - rewrite decide_False by done. cbn [for_each]. rewrite E. apply IH.
Qed.

Lemma emulate_parsed_filter vm vba filename entry_points comp_modules
    (s : @py_state Meta) :
  emulate_parsed w vm vba filename entry_points comp_modules s
  = emulate_parsed w vm vba filename entry_points
      (filter (fun m => not_empty_sentinel m = true) comp_modules) s.
Proof.
  unfold emulate_parsed. apply bind_cong, add_compiled_modules_filter.
Qed.

(** [process_file] up to the parsing of the streams. *)
Lemma process_file_parsed container filename data altparser strip_useless entry_points
    vm0 vba r (s s1 : @py_state Meta) :
  ViperMonkey_new w = Return vm0 ->
  VBA_Parser w filename data = Return vba ->
  detect_vba_macros vba = Return true ->
  parse_streams w vba strip_useless
    (prepare_emulation w filename (emitting (file_banner container filename) s)).2
    = (Return r, s1) ->
  process_file w container filename data altparser strip_useless entry_points s
  = try_except is_Exception
      (match r with
       | None => mret None
       | Some comp_modules =>
           emulate_parsed w (foldl append_entry_point vm0 (default [] entry_points))
             vba filename entry_points comp_modules
       end)
      process_file_handler s1.
Proof.
  intros Hnew Hvba Hdetect Hparse. rewrite process_file_unfold, Hnew.
  unfold try_except at 1 2.
  assert (process_file_body w (foldl append_entry_point vm0 (default [] entry_points))
            filename data strip_useless entry_points
            (emitting (file_banner container filename) s)
          = match r with
            | None => mret None
            | Some comp_modules =>
                emulate_parsed w (foldl append_entry_point vm0 (default [] entry_points))
                  vba filename entry_points comp_modules
            end s1) as ->; [| done].
  unfold process_file_body. rewrite Hvba, bind_lift_return, Hdetect, bind_lift_return.
  unfold emulate_macros.
  destruct (prepare_emulation_returns w filename
              (emitting (file_banner container filename) s)) as [sp Hp].
  rewrite Hp in Hparse. cbn [snd] in Hparse.
  erewrite bind_run by exact Hp. erewrite bind_run by exact Hparse. done.
Qed.

End DriverRuns.

(** C10.  When the code of a macro stream, once normalized, is empty or
    white space only, [parse_stream] prints the header and the empty-macro
    notice and returns the sentinel string, neither a module nor [None].
    In a document whose other streams are empty too or are taken by the
    parser, [parse_streams] then returns the list of all the modules, the
    sentinel at the place of the stream; and [process_file] goes on to the
    statements after the parsing, inside its [try], handing to the emulator
    the modules of the other streams and no sentinel. *)
Theorem empty_macro_stream_is_skipped {AST Meta Action Core : Type}
    (w : @collaborators AST Meta Action Core)
    (subfilename stream_path vba_filename vba_code : string) (strip_useless : bool) :
  Str.strip (normalized_code w vba_code strip_useless) = EmptyString ->
  let printed :=
    stream_header w subfilename stream_path vba_filename ++ [Printed "(empty macro)"] in
  let accepted := fun macro => stream_accepted w strip_useless macro = true in
  let modules := map (stream_result w strip_useless) in
  let reports := flat_map (stream_report w strip_useless) in
  (forall s : @py_state Meta,
     parse_stream w subfilename stream_path vba_filename vba_code strip_useless s
     = (Return (ModuleStr "empty"), emitting printed s))
  /\ (forall vba before after (s : @py_state Meta),
        extract_macros vba
          = Return (before ++ (subfilename, stream_path, vba_filename, vba_code) :: after) ->
        Forall accepted (before ++ after) ->
        parse_streams w vba strip_useless s
        = (Return (Some (modules before ++ ModuleStr "empty" :: modules after)),
           emitting (reports before ++ printed ++ reports after) s))
  /\ (forall container filename data altparser entry_points vm0 vba before after
             (s : @py_state Meta),
        ViperMonkey_new w = Return vm0 ->
        VBA_Parser w filename data = Return vba ->
        detect_vba_macros vba = Return true ->
        extract_macros vba
          = Return (before ++ (subfilename, stream_path, vba_filename, vba_code) :: after) ->
        Forall accepted (before ++ after) ->
        process_file w container filename data altparser strip_useless entry_points s
        = try_except is_Exception
            (emulate_parsed w (foldl append_entry_point vm0 (default [] entry_points))
               vba filename entry_points
               (filter (fun m => not_empty_sentinel m = true) (modules (before ++ after))))
            process_file_handler
            (emitting (reports before ++ printed ++ reports after)
               (prepare_emulation w filename
                  (emitting (file_banner container filename) s)).2)).
Proof.
  intros Hempty printed accepted modules reports.
  assert (Hparse : forall vba before after (s : @py_state Meta),
            extract_macros vba
              = Return (before ++ (subfilename, stream_path, vba_filename, vba_code)
                                  :: after) ->
            Forall accepted (before ++ after) ->
            parse_streams w vba strip_useless s
            = (Return (Some (modules before ++ ModuleStr "empty" :: modules after)),
               emitting (reports before ++ printed ++ reports after) s)).
  { intros vba before after s Hmacros [Hb Ha]%Forall_app.
    rewrite (parse_streams_extracted w _ _ _ _ Hmacros).
    rewrite parse_streams_serial_loop_accepted by exact Hb.
    rewrite parse_streams_serial_loop_cons, parse_stream_empty by done.
    rewrite <- (app_nil_r after) at 1.
    rewrite parse_streams_serial_loop_accepted by exact Ha.
    cbn [parse_streams_serial_loop]. unfold mret, M_ret.
    rewrite !emitting_emitting. cbn [app]. by rewrite <- !app_assoc. }
  split; [| split].
  - intros s. by apply parse_stream_empty.
  - exact Hparse.
  - intros container filename data altparser entry_points vm0 vba before after s
      Hnew Hvba Hdetect Hmacros Hall.
    rewrite (process_file_parsed w _ _ _ _ _ _ _ _ _ _ _ Hnew Hvba Hdetect
               (Hparse vba before after _ Hmacros Hall)).
    unfold try_except. rewrite emulate_parsed_filter.
    unfold modules. rewrite map_app, !filter_app, filter_cons.
    by rewrite decide_False by done.
Qed.


(** C6, as the code has it.  Once the emulator object exists: an exception
    that leaves [process_file] is not derived from [Exception]; when the
    body of the [try] raises one that is, [process_file] returns [None], and
    it prints the stack trace unless the text of the exception holds
    [SystemExit]; when the document holds no macro, it prints the notice and
    returns the empty list. *)
Theorem process_file_catches_exceptions {AST Meta Action Core : Type}
    (w : @collaborators AST Meta Action Core)
    (container : option string) (filename : string) (data : option string)
    (altparser strip_useless : bool) (entry_points : option (list string))
    (vm0 : ViperMonkey) (s : @py_state Meta) :
  ViperMonkey_new w = Return vm0 ->
  let vm := foldl append_entry_point vm0 (default [] entry_points) in
  let s0 := emitting (file_banner container filename) s in
  (forall e s',
     process_file w container filename data altparser strip_useless entry_points s
       = (Raise e, s') ->
     is_Exception e = false)
  /\ (forall e s',
        process_file_body w vm filename data strip_useless entry_points s0 = (Raise e, s') ->
        is_Exception e = true ->
        process_file w container filename data altparser strip_useless entry_points s
        = (Return None,
           if Str.contains "SystemExit" (exn_str e) then s'
           else emitting [Traceback e] s'))
  /\ (forall vba,
        VBA_Parser w filename data = Return vba ->
        detect_vba_macros vba = Return false ->
        process_file w container filename data altparser strip_useless entry_points s
        = (Return (Some []),
           emitting [Printed "No VBA macros found."; Printed ""] s0)).
Proof.
  intros Hvm vm s0. split; [| split].
  - intros e s'. rewrite process_file_unfold, Hvm. fold vm s0. unfold try_except.
    destruct (process_file_body w vm filename data strip_useless entry_points s0)
      as [[a | e0] s1]; [done |].
    destruct (is_Exception e0) eqn:E.
    + by rewrite process_file_handler_spec.
    + by intros [= <- <-].
  - intros e s' Hbody He. rewrite process_file_unfold, Hvm. fold vm s0.
    erewrite try_except_raise by done. apply process_file_handler_spec.
  - intros vba Hopen Hdet. rewrite process_file_unfold, Hvm. fold vm s0.
    apply try_except_return. unfold process_file_body.
    rewrite Hopen, bind_lift_return, Hdet, bind_lift_return.
    by rewrite !bind_print, !emitting_emitting.
Qed.

(** ** The statements on concrete inputs *)



(** C2 on a one-line text. *)
Lemma normalizer_adds_two_newlines_witness :
  strip_useless_code "MsgBox 1" = "MsgBox 1" +:+ Str.NL +:+ Str.NL
  /\ strip_useless_code (strip_useless_code "MsgBox 1")
     = strip_useless_code "MsgBox 1" +:+ Str.NL +:+ Str.NL.
Proof.
  apply (normalizer_adds_two_newlines "MsgBox 1").
  constructor; [vm_compute; reflexivity | constructor].
Defined.

(** C2 as stated fails: a second pass adds two newlines to the output of the
    first; and it can drop a line the first pass kept, here the assignment
    whose only other mention was on the declaration the first pass removed. *)
Lemma normalizer_not_idempotent :
  strip_useless_code "MsgBox 1" = "MsgBox 1" +:+ Str.NL +:+ Str.NL
  /\ strip_useless_code (strip_useless_code "MsgBox 1")
     = "MsgBox 1" +:+ Str.NL +:+ Str.NL +:+ Str.NL +:+ Str.NL
  /\ strip_useless_code (strip_useless_code "MsgBox 1") <> strip_useless_code "MsgBox 1"
  /\ strip_useless_code ("Dim a" +:+ Str.NL +:+ "a = 1") = "a = 1" +:+ Str.NL +:+ Str.NL
  /\ strip_useless_code (strip_useless_code ("Dim a" +:+ Str.NL +:+ "a = 1"))
     = Str.NL +:+ Str.NL +:+ Str.NL.
Proof.
  repeat split; try (vm_compute; reflexivity).
  intros H. vm_compute in H. discriminate H.
Qed.

(** C3 on the scenario of the specification: an arm of two lines, an arm of
    five. *)
Lemma collapse_keeps_first_longest_arm_witness :
  let vba_code :=
    String.concat Str.NL
      ["x"; "#If A Then"; "a"; "b"; "#Else"; "c"; "d"; "e"; "f"; "g"; "#End If"; "y"] in
  exists before best after,
    ["a"; "b"] :: map snd [("#Else", ["c"; "d"; "e"; "f"; "g"])] = before ++ best :: after
    /\ Forall (fun a => length a < length best) before
    /\ Forall (fun a => length a <= length best) after
    /\ collapse_macro_if_blocks vba_code =
         collapse_r
           (foldl collapse_step
              (CollapseState None []
                 (collapse_r (foldl collapse_step collapse_init ["x"])
                  +:+ Str.unlines best))
              ["y"]).
Proof.
  apply (collapse_keeps_first_longest_arm _ ["x"] ["y"] ["a"; "b"]
           [("#Else", ["c"; "d"; "e"; "f"; "g"])] "#If A Then" "#End If");
    try (vm_compute; reflexivity).
  - repeat (constructor; [split; vm_compute; reflexivity |]). constructor.
  - constructor; [| constructor]. split; [vm_compute; reflexivity |].
    repeat (constructor; [split; vm_compute; reflexivity |]). constructor.
Defined.

(** C3 as stated fails: the block has one arm, a plain [If] statement with
    an [Else]; the loop cuts the arm at the [Else] line and keeps the first
    half. *)
Lemma collapse_splits_arm_at_plain_else :
  let arm := ["If x Then"; "a"; "Else"; "b"; "End If"] in
  let vba_code := String.concat Str.NL ("#If A Then" :: arm ++ ["#End If"]) in
  Str.split Str.nl vba_code = "#If A Then" :: arm ++ ["#End If"]
  /\ collapse_macro_if_blocks vba_code = Str.unlines ["If x Then"; "a"]
  /\ collapse_macro_if_blocks vba_code <> Str.unlines arm.
Proof.
  repeat split; try (vm_compute; reflexivity).
  intros H. vm_compute in H. discriminate H.
Qed.

(** C4 on a call of an external function declared on the line before. *)
Lemma interesting_assignment_never_commented_witness :
  let decl :=
    "Private Declare Function Beep Lib " +:+ Str.DQ +:+ "kernel32" +:+ Str.DQ
    +:+ " (ByVal f As Long) As Long" in
  let vba_code := decl +:+ Str.NL +:+ "x = Beep(1)" in
  (2 ∉ comment_lines_of (Str.split Str.nl vba_code))
  /\ stripped_by_usage (comment_lines_of (Str.split Str.nl vba_code)) 2 "x = Beep(1)"
     = false.
Proof.
  apply (interesting_assignment_never_commented _ 1 "x = Beep(1)");
    [vm_compute; reflexivity |].
  right; left.
  exists ("Private Declare Function Beep Lib " +:+ Str.DQ +:+ "kernel32" +:+ Str.DQ
          +:+ " (ByVal f As Long) As Long"), "Beep".
  repeat split; try (vm_compute; reflexivity).
  vm_compute. constructor.
Defined.

(** C4 as stated fails: the same call, with the declaration on the line
    after it, is among the lines to comment out and is gone from the output;
    an assignment to a variable that nothing mentions is dropped with the
    call of the procedure on its right-hand side, here the only call of a
    procedure that runs a shell command; and a declaration that writes a
    type character after the name gives a text that the call does not
    hold, so that the call of the declared function is dropped too. *)
Lemma stripping_drops_calls :
  let decl :=
    "Private Declare Function Beep Lib " +:+ Str.DQ +:+ "kernel32" +:+ Str.DQ
    +:+ " (ByVal f As Long) As Long" in
  let vba_code := "x = Beep(1)" +:+ Str.NL +:+ decl in
  let caller :=
    String.concat Str.NL
      ["Function DoEvil()"; "Shell cmd"; "End Function";
       "Sub AutoOpen()"; "x = DoEvil()"; "End Sub"] in
  let typed_decl :=
    "Declare Function GetTickCount& Lib " +:+ Str.DQ +:+ "kernel32" +:+ Str.DQ
    +:+ " ()" in
  let typed := typed_decl +:+ Str.NL +:+ "x = GetTickCount()" in
  Str.split Str.nl vba_code = ["x = Beep(1)"; decl]
  /\ is_external_decl decl = true
  /\ ext_func_of_decl (Str.strip decl) = Some "Beep"
  /\ Str.contains "Beep" "x = Beep(1)" = true
  /\ elements (comment_lines_of (Str.split Str.nl vba_code)) = [1]
  /\ strip_useless_code vba_code = decl +:+ Str.NL +:+ Str.NL
  /\ strip_useless_code caller
     = Str.unlines ["Function DoEvil()"; "Shell cmd"; "End Function";
                    "Sub AutoOpen()"; "End Sub"; EmptyString]
  /\ Str.split Str.nl typed = [typed_decl; "x = GetTickCount()"]
  /\ is_external_decl typed_decl = true
  /\ ext_func_of_decl (Str.strip typed_decl) = Some "GetTickCount&"
  /\ elements (comment_lines_of (Str.split Str.nl typed)) = [2]
  /\ strip_useless_code typed = typed_decl +:+ Str.NL +:+ Str.NL.
Proof. repeat split; vm_compute; reflexivity. Qed.



(** C6 in the sample world, on a document without macros. *)
Lemma process_file_catches_exceptions_witness :
  let w := sample_world (Return sample_vm)
             (fun _ _ => Return (MkVBA (Return false) (Return []) (Return []))) in
  let vm := foldl append_entry_point sample_vm (default [] None) in
  let s0 := emitting (file_banner None "doc.docm") initial_state in
  (forall e s',
     process_file w None "doc.docm" None false false None initial_state = (Raise e, s') ->
     is_Exception e = false)
  /\ (forall e s',
        process_file_body w vm "doc.docm" None false None s0 = (Raise e, s') ->
        is_Exception e = true ->
        process_file w None "doc.docm" None false false None initial_state
        = (Return None,
           if Str.contains "SystemExit" (exn_str e) then s'
           else emitting [Traceback e] s'))
  /\ (forall vba,
        VBA_Parser w "doc.docm" None = Return vba ->
        detect_vba_macros vba = Return false ->
        process_file w None "doc.docm" None false false None initial_state
        = (Return (Some []),
           emitting [Printed "No VBA macros found."; Printed ""] s0)).
Proof.
  exact (process_file_catches_exceptions
           (sample_world (Return sample_vm)
              (fun _ _ => Return (MkVBA (Return false) (Return []) (Return []))))
           None "doc.docm" None false false None sample_vm initial_state eq_refl).
Defined.

(** C6 as stated fails: an exception whose text holds [SystemExit] is
    caught without a stack trace; an exception that is not derived from
    [Exception], and one raised by the constructor of the emulator, leave
    [process_file]. *)
Lemma exceptions_without_trace_or_escaping :
  process_file
    (sample_world (Return sample_vm)
       (fun _ _ => Raise (OtherException true "SystemExit: 1")))
    None "doc.docm" None false false None initial_state
  = (Return None, emitting (file_banner None "doc.docm") initial_state)
  /\ process_file
       (sample_world (Return sample_vm)
          (fun _ _ => Raise (OtherException false "KeyboardInterrupt")))
       None "doc.docm" None false false None initial_state
     = (Raise (OtherException false "KeyboardInterrupt"),
        emitting (file_banner None "doc.docm") initial_state)
  /\ process_file
       (sample_world (Raise (OtherException true "cannot build the emulator"))
          (fun _ _ => Return two_stream_document))
       None "doc.docm" None false false None initial_state
     = (Raise (OtherException true "cannot build the emulator"),
        emitting (file_banner None "doc.docm") initial_state).
Proof. repeat split. Qed.

(** C8 on the line of the specification. *)
Lemma application_run_rewritten_witness :
  strip_useless_code ("Application.Run " +:+ Str.DQ +:+ "name, arg1 arg2" +:+ Str.DQ)
  = "WScript.Shell  name, arg1 arg2" +:+ Str.NL +:+ Str.NL.
Proof.
  rewrite (application_run_rewritten _ [] []
             ("Application.Run " +:+ Str.DQ +:+ "name, arg1 arg2" +:+ Str.DQ));
    vm_compute; reflexivity.
Defined.

(** C8 as stated fails: a call with an argument after the quoted name starts
    with [Application.Run] and holds exactly two double quotes, and is left
    as it is; a quoted name alone is rewritten without [WScript.Shell]. *)
Lemma application_run_not_always_rewritten :
  let line := "Application.Run " +:+ Str.DQ +:+ "foo" +:+ Str.DQ +:+ ", bar" in
  Str.startswith (Str.strip line) "Application.Run" = true
  /\ Str.count Str.dquote line = 2
  /\ strip_useless_code line = line +:+ Str.NL +:+ Str.NL
  /\ strip_useless_code ("Application.Run " +:+ Str.DQ +:+ "foo" +:+ Str.DQ)
     = " foo" +:+ Str.NL +:+ Str.NL.
Proof. repeat split; vm_compute; reflexivity. Qed.

(** C9 on a useless call, a useless declaration and a declaration of a
    [Long]. *)
Lemma useless_call_and_dim_stripped_witness :
  strip_useless_code "Sin (2)" = Str.NL
  /\ strip_useless_code "Dim a" = Str.NL
  /\ strip_useless_code "Dim b As Long" = "Dim b As Long" +:+ Str.NL +:+ Str.NL.
Proof.
  split; [| split].
  - destruct (useless_call_and_dim_stripped "Sin (2)" [] [] "Sin (2)" eq_refl)
      as [H _].
    rewrite H; [reflexivity | left; vm_compute; reflexivity].
  - destruct (useless_call_and_dim_stripped "Dim a" [] [] "Dim a" eq_refl)
      as [H _].
    rewrite H; [reflexivity | right; vm_compute; reflexivity].
  - destruct (useless_call_and_dim_stripped "Dim b As Long" [] [] "Dim b As Long" eq_refl)
      as [_ H].
    rewrite H; vm_compute; reflexivity.
Defined.

(** C9 as stated fails: a declaration of a [Long] that also assigns the
    variable, which no other line mentions, is dropped for the variable it
    assigns. *)
Lemma typed_dim_with_assignment_stripped :
  let line := "Dim x As Long: x = 5" in
  Str.startswith (Str.strip line) "Dim " = true
  /\ Str.contains "Long" line = true
  /\ elements (comment_lines_of (Str.split Str.nl line)) = [1]
  /\ strip_useless_code line = Str.NL.
Proof. repeat split; vm_compute; reflexivity. Qed.

(** C10 on a document whose first stream is three spaces: the second
    stream is parsed and emulated, and the document ends with the list of
    the recorded actions. *)
Lemma empty_macro_stream_is_skipped_witness :
  let w := sample_world (Return sample_vm) (fun _ _ => Return empty_stream_document) in
  process_file w None "doc.docm" None false false None initial_state
  = (Return (Some []),
     PyState
       (file_banner None "doc.docm"
        ++ stream_header w "doc.docm" "VBA/Empty" "Empty.bas" ++ [Printed "(empty macro)"]
        ++ parse_attempt_report w "doc.docm" "VBA/Second" "Second.bas" "Sub AutoOpen()"
        ++ [Printed (repeat_str "-" 79);
            Printed "TRACING VBA CODE (entrypoint = Auto*):";
            Printed "Recorded Actions:"; Printed "(no actions)"; Printed ""])
       (Some (MetaOf ())) (Some (MetaOf ())) (Some "./docdocm_artifacts/")).
Proof.
  intros w.
  rewrite (proj2 (proj2 (empty_macro_stream_is_skipped w
                           "doc.docm" "VBA/Empty" "Empty.bas" "   " false eq_refl))
             None "doc.docm" None false None sample_vm empty_stream_document
             [] [("doc.docm", "VBA/Second", "Second.bas", "Sub AutoOpen()")]);
    [vm_compute; reflexivity | reflexivity | reflexivity | reflexivity | reflexivity |].
  repeat (constructor; [vm_compute; reflexivity |]). constructor.
Defined.

(** * Further properties *)

(** ** [collapse_macro_if_blocks] *)

(** X1.  A text in which no line, once stripped, starts with [#If] comes out
    of [collapse_macro_if_blocks] unchanged but for one more newline at its
    end. *)
Theorem collapse_without_if_is_identity (vba_code : string) :
  Forall (fun l => is_if_marker l = false) (Str.split Str.nl vba_code) ->
  collapse_macro_if_blocks vba_code = vba_code +:+ Str.NL.
Proof.
  intros H. unfold collapse_macro_if_blocks, collapse_init.
  rewrite collapse_no_if by done. cbn [collapse_r].
  change (EmptyString +:+ ?x) with x. apply unlines_split.
Qed.

Lemma collapse_without_if_is_identity_witness :
  collapse_macro_if_blocks ("Sub AutoOpen()" +:+ Str.NL +:+ "End Sub")
  = ("Sub AutoOpen()" +:+ Str.NL +:+ "End Sub") +:+ Str.NL.
Proof.
  apply collapse_without_if_is_identity.
  repeat (constructor; [vm_compute; reflexivity |]). constructor.
Defined.

Lemma sublist_of_concat_member (b : list string) (bs : list (list string)) :
  b ∈ bs -> b `sublist_of` concat bs.
Proof.
  induction bs as [|c bs IH]; intros H; [by apply elem_of_nil in H |].
  simpl. apply elem_of_cons in H as [-> | H].
  - by apply sublist_inserts_r.
  - by apply sublist_inserts_l, IH.
Qed.

(** What the loop appends is a subsequence of the lines it holds and reads. *)
Lemma collapse_appends_subsequence (ls : list string) (st : collapse_state) :
  exists E, collapse_r (foldl collapse_step st ls) = collapse_r st +:+ Str.unlines E
            /\ E `sublist_of` pending_lines st ++ ls.
Proof.
  revert st. induction ls as [|l ls IH]; intros st.
  - exists []. split; [by rewrite app_nil_r_str | apply sublist_nil_l].
  - cbn [foldl]. destruct (IH (collapse_step st l)) as (E & HE & Hsub).
    rewrite HE. clear HE IH. unfold collapse_step, pending_lines in *.
    destruct st as [[blocks|] cb r]; cbn [curr_blocks curr_block collapse_r] in *.
    + destruct (Str.startswith (Str.strip l) "#Else" || Str.startswith (Str.strip l) "Else");
        [| destruct (Str.startswith (Str.strip l) "#End")];
        cbn [curr_blocks curr_block collapse_r] in *.
      * exists E. split; [done |].
        rewrite concat_app in Hsub. simpl in Hsub. rewrite !app_nil_r in Hsub.
        etrans; [exact Hsub |]. apply sublist_app; [done |]. by constructor.
      * exists (pick_biggest (blocks ++ [cb]) ++ E). split.
        { by rewrite unlines_app, app_assoc_str. }
        apply sublist_app; [| by constructor].
        destruct (pick_biggest_in (blocks ++ [cb])) as [-> | Hp];
          [apply sublist_nil_l |].
        apply sublist_of_concat_member in Hp.
        rewrite concat_app in Hp. simpl in Hp. by rewrite app_nil_r in Hp.
      * exists E. split; [done |]. rewrite <- !app_assoc in Hsub.
        by rewrite <- !app_assoc.
    + destruct (Str.startswith (Str.strip l) "#If");
        cbn [curr_blocks curr_block collapse_r] in *.
      * exists E. split; [done |]. simpl in *. by constructor.
      * exists (l :: E). split; [simpl; by rewrite !app_assoc_str |].
        simpl in *. by constructor.
Qed.

(** X2.  [collapse_macro_if_blocks] only selects: its output is a
    subsequence of the lines of its input, in their order and unchanged, each
    followed by a newline. *)
Theorem collapse_output_is_subsequence (vba_code : string) :
  exists kept,
    collapse_macro_if_blocks vba_code = Str.unlines kept
    /\ kept `sublist_of` Str.split Str.nl vba_code.
Proof.
  destruct (collapse_appends_subsequence (Str.split Str.nl vba_code) collapse_init)
    as (E & HE & Hsub).
  exists E. split; [| done]. unfold collapse_macro_if_blocks. by rewrite HE.
Qed.

(** Inside a block, lines that are no closing marker add nothing. *)
Lemma collapse_no_end_marker (ls : list string) blocks cb r :
  Forall (fun l => is_end_marker l = false) ls ->
  exists blocks' cb',
    foldl collapse_step (CollapseState (Some blocks) cb r) ls
    = CollapseState (Some blocks') cb' r.
Proof.
  revert blocks cb. induction ls as [|l ls IH]; intros blocks cb H; [by eauto |].
  apply Forall_cons in H as [Hl H]. cbn [foldl]. unfold collapse_step at 2.
  cbn [curr_blocks curr_block collapse_r]. unfold is_end_marker in Hl. rewrite Hl.
  destruct (_ || _); by apply IH.
Qed.

(** X3.  When the first line that opens a block has no closing marker after
    it, that line and everything after it is lost: the output is the lines
    before it. *)
Theorem collapse_unterminated_block_is_dropped
    (vba_code : string) (pre rest : list string) (h : string) :
  Str.split Str.nl vba_code = pre ++ h :: rest ->
  Forall (fun l => is_if_marker l = false) pre ->
  is_if_marker h = true ->
  Forall (fun l => is_end_marker l = false) rest ->
  collapse_macro_if_blocks vba_code = Str.unlines pre.
Proof.
  intros Hsplit Hpre Hh Hrest. unfold collapse_macro_if_blocks, collapse_init.
  rewrite Hsplit, foldl_app, collapse_no_if by done. cbn [foldl].
  unfold collapse_step at 2. cbn [curr_blocks curr_block collapse_r].
  unfold is_if_marker in Hh. rewrite Hh.
  destruct (collapse_no_end_marker rest [] [] (EmptyString +:+ Str.unlines pre) Hrest)
    as (blocks' & cb' & ->).
  done.
Qed.

Lemma collapse_unterminated_block_is_dropped_witness :
  collapse_macro_if_blocks
    (String.concat Str.NL ["Sub AutoOpen()"; "#If Win64 Then"; "Shell cmd"; "End Sub"])
  = Str.unlines ["Sub AutoOpen()"].
Proof.
  apply (collapse_unterminated_block_is_dropped _ ["Sub AutoOpen()"]
           ["Shell cmd"; "End Sub"] "#If Win64 Then");
    try (vm_compute; reflexivity);
    repeat (constructor; [vm_compute; reflexivity |]); constructor.
Defined.

(** ** The table of assignments and the reference marks *)

Lemma track_vars_elem line n vars (a : gmap string (gset nat)) var k :
  k ∈ default ∅ (track_vars line n vars a !! var)
  <-> k ∈ default ∅ (a !! var)
      \/ (k = n /\ var ∈ vars
          /\ Str.contains "." (assigned_val line) = false
          /\ Str.contains "CreateObject" (assigned_val line) = false).
Proof.
  unfold track_vars. revert a. induction vars as [|v vars IH]; intros a; cbn [foldl].
  - split; [by left | intros [? | (_ & H & _)]; [done | by apply elem_of_nil in H]].
  - rewrite IH. clear IH.
    destruct (Str.contains "." (assigned_val line)) eqn:E1;
      [| destruct (Str.contains "CreateObject" (assigned_val line)) eqn:E2].
    + split; (intros [? | (? & ? & ? & ?)]; [by left | done]).
    + split; (intros [? | (? & ? & ? & ?)]; [by left | done]).
    + rewrite elem_of_cons. destruct (decide (v = var)) as [-> | Hne].
      * rewrite lookup_insert_eq. simpl. rewrite elem_of_union, elem_of_singleton.
        split; [intros [[-> | ?] | (-> & ? & ?)] | intros [? | (-> & [_ | ?] & ?)]];
          auto.
      * rewrite lookup_insert_ne by done.
        split; (intros [? | (-> & Hv & ?)]; [by left | right]); [auto |].
        destruct Hv as [? | ?]; [congruence | auto].
Qed.

Lemma scan_step_assigns_elem st l var k :
  k ∈ default ∅ (assigns (scan_step st l) !! var)
  <-> k ∈ default ∅ (assigns st !! var)
      \/ (k = S (scan_line_num st) /\ var ∈ assign_re_findall l
          /\ skip_assign_line l (external_funcs (scan_step st l)) = false
          /\ Str.contains "." (assigned_val l) = false
          /\ Str.contains "CreateObject" (assigned_val l) = false).
Proof.
  unfold scan_step. cbn [assigns external_funcs].
  case_bool_decide as Hm.
  - destruct (skip_assign_line _ _) eqn:Hskip.
    + intuition congruence.
    + rewrite track_vars_elem. intuition auto.
  - split; [by left |]. intros [? | (_ & Hin & _)]; [done |].
    destruct (assign_re_findall l); [by apply elem_of_nil in Hin | simpl in Hm; lia].
Qed.

Lemma assigned_on_snoc lines l var k :
  assigned_on (lines ++ [l]) var k
  <-> assigned_on lines var k
      \/ (k = S (length lines) /\ var ∈ assign_re_findall l
          /\ skip_assign_line l (external_funcs (scan_lines (lines ++ [l]))) = false
          /\ Str.contains "." (assigned_val l) = false
          /\ Str.contains "CreateObject" (assigned_val l) = false).
Proof.
  split.
  - intros (i & line & -> & Hi & Hv & Hskip & Hv1 & Hv2).
    apply lookup_app_Some in Hi as [Hi | [Hge Hi]].
    + left. exists i, line. pose proof (lookup_lt_Some _ _ _ Hi) as Hlt.
      rewrite take_app_le in Hskip by lia. done.
    + right. apply list_lookup_singleton_Some in Hi as [Hz ->].
      assert (i = length lines) as -> by lia.
      rewrite take_ge in Hskip by (rewrite length_app; simpl; lia). done.
  - intros [(i & line & -> & Hi & Hv & Hskip & Hv1 & Hv2) | (-> & Hv & Hskip & Hv1 & Hv2)].
    + exists i, line. pose proof (lookup_lt_Some _ _ _ Hi) as Hlt.
      rewrite take_app_le by lia. by rewrite lookup_app_l by done.
    + exists (length lines), l.
      rewrite take_ge by (rewrite length_app; simpl; lia).
      by rewrite lookup_app_r, Nat.sub_diag.
Qed.

(** The table of the first loop holds exactly the assignments that pass
    its tests. *)
Lemma scan_lines_assigns_elem lines var k :
  k ∈ default ∅ (assigns (scan_lines lines) !! var) <-> assigned_on lines var k.
Proof.
  revert k. induction lines as [|l lines IH] using rev_ind; intros k.
  - simpl. rewrite lookup_empty. simpl. split; [by intros ?%not_elem_of_empty |].
    by intros (i & line & _ & Hi & _).
  - rewrite assigned_on_snoc, scan_lines_snoc, scan_step_assigns_elem, IH.
    by rewrite scan_lines_line_num.
Qed.

Lemma tracked_line_assigned lines k :
  tracked_line lines k <-> exists var, assigned_on lines var k.
Proof.
  split.
  - intros (i & line & -> & Hi & Hm & Hrest).
    destruct (assign_re_findall line) as [|v vs] eqn:E; [simpl in Hm; lia |].
    exists v, i, line. rewrite E. split; [done |]. split; [done |].
    split; [by left | done].
  - intros (var & i & line & -> & Hi & Hv & Hrest). exists i, line.
    split; [done |]. split; [done |]. split; [| done].
    destruct (assign_re_findall line); [by apply elem_of_nil in Hv | simpl; lia].
Qed.

Lemma scan_lines_change_callbacks lines cb :
  cb ∈ change_callbacks (scan_lines lines)
  <-> exists l, l ∈ lines /\ is_change_callback l = true /\ cb = callback_data_name l.
Proof.
  induction lines as [|l lines IH] using rev_ind.
  - simpl. split; [by intros ?%not_elem_of_empty |].
    by intros (l & ?%elem_of_nil & _).
  - rewrite scan_lines_snoc. unfold scan_step. cbn [change_callbacks].
    fold (is_change_callback l). destruct (is_change_callback l) eqn:E.
    + rewrite elem_of_union, elem_of_singleton, IH. split.
      * intros [-> | (l' & Hin & Hcb & ->)].
        -- exists l. split; [apply elem_of_app; right; constructor | done].
        -- exists l'. split; [apply elem_of_app; by left | done].
      * intros (l' & Hin & Hcb & ->). apply elem_of_app in Hin as [Hin | Hin].
        -- right. by exists l'.
        -- left. by apply list_elem_of_singleton in Hin as ->.
    + rewrite IH. split.
      * intros (l' & Hin & Hcb & ->). exists l'.
        split; [apply elem_of_app; by left | done].
      * intros (l' & Hin & Hcb & ->). apply elem_of_app in Hin as [Hin | Hin].
        -- by exists l'.
        -- apply list_elem_of_singleton in Hin as ->. congruence.
Qed.

Lemma mark_refs_lookup (a : gmap string (gset nat)) (acc : gmap string bool * nat)
    (line var : string) :
  (mark_refs a acc line).1 !! var
  = (fun referenced : bool =>
       if bool_decide (S acc.2 ∈ default ∅ (a !! var)) then referenced
       else if Str.contains var line then true else referenced) <$> acc.1 !! var.
Proof.
  unfold mark_refs. cbn [fst]. rewrite map_lookup_imap.
  destruct (acc.1 !! var) as [b |]; [| done]. simpl.
  case_bool_decide; [done |]. by destruct (Str.contains var line).
Qed.

(** The marks after the second loop has read [lines], numbered from
    [n + 1]. *)
Lemma foldl_mark_refs_lookup (a : gmap string (gset nat)) (lines : list string)
    (refs : gmap string bool) (n : nat) (var : string) :
  (is_Some ((foldl (mark_refs a) (refs, n) lines).1 !! var) <-> is_Some (refs !! var))
  /\ ((foldl (mark_refs a) (refs, n) lines).1 !! var = Some true
      <-> refs !! var = Some true
          \/ (is_Some (refs !! var)
              /\ exists j other,
                   lines !! j = Some other
                   /\ (S (n + j) ∉ default ∅ (a !! var))
                   /\ Str.contains var other = true)).
Proof.
  revert refs n. induction lines as [|l lines IH]; intros refs n.
  - simpl. split; [done |]. split; [by left |].
    intros [? | (_ & j & other & Hj & _)]; [done | by rewrite lookup_nil in Hj].
  - cbn [foldl].
    assert (mark_refs a (refs, n) l = ((mark_refs a (refs, n) l).1, S n)) as -> by done.
    destruct (IH (mark_refs a (refs, n) l).1 (S n)) as [IH1 IH2]. clear IH.
    rewrite IH1, IH2, mark_refs_lookup. cbn [fst snd]. clear IH1 IH2.
    destruct (refs !! var) as [b |] eqn:E; simpl.
    + split; [split; eauto |]. split.
      * intros [Hb | (_ & j & other & Hj & Hnot & Hc)].
        -- case_bool_decide as Hin; [left; congruence |].
           destruct (Str.contains var l) eqn:Hc; [| left; congruence].
           right. split; [eauto |]. exists 0, l. by rewrite Nat.add_0_r.
        -- right. split; [eauto |]. exists (S j), other.
           by rewrite Nat.add_succ_r.
      * intros [Hb | (_ & [|j] & other & Hj & Hnot & Hc)].
        -- left. injection Hb as ->. case_bool_decide; [done |].
           by destruct (Str.contains var l).
        -- left. simpl in Hj. injection Hj as <-. rewrite Nat.add_0_r in Hnot.
           rewrite bool_decide_eq_false_2 by done. by rewrite Hc.
        -- right. split; [eauto |]. exists j, other. by rewrite Nat.add_succ_r in Hnot.
    + split.
      * split; intros [? ?]; done.
      * split; intros [? | ([? ?] & _)]; done.
Qed.

(** The marks after the change callbacks were applied. *)
Lemma change_callbacks_lookup (cbs : gset string) (refs : gmap string bool) (var : string) :
  let refs' :=
    set_fold (fun change_var (refs : gmap string bool) =>
                map_imap (fun var referenced =>
                            Some (Str.contains change_var var
                                  || Str.contains var change_var
                                  || referenced)) refs)
             refs cbs in
  (is_Some (refs' !! var) <-> is_Some (refs !! var))
  /\ (refs' !! var = Some true
      <-> refs !! var = Some true
          \/ (is_Some (refs !! var)
              /\ exists cb, cb ∈ cbs
                   /\ Str.contains cb var || Str.contains var cb = true)).
Proof.
  cbv zeta.
  apply (set_fold_ind_L
           (fun (r : gmap string bool) (X : gset string) =>
              (is_Some (r !! var) <-> is_Some (refs !! var))
              /\ (r !! var = Some true
                  <-> refs !! var = Some true
                      \/ (is_Some (refs !! var)
                          /\ exists cb, cb ∈ X
                               /\ Str.contains cb var || Str.contains var cb = true)))).
  - split; [done |]. split; [by left |].
    intros [? | (_ & cb & Hin & _)]; [done | by apply not_elem_of_empty in Hin].
  - intros x X r Hx [IH1 IH2]. rewrite map_lookup_imap.
    destruct (r !! var) as [b |] eqn:E; simpl.
    + assert (is_Some (refs !! var)) as Hsome by (apply IH1; eauto).
      split; [split; eauto |]. split.
      * intros Hb. injection Hb as Hb.
        destruct (Str.contains x var || Str.contains var x) eqn:Hc.
        -- right. split; [done |]. exists x. split; [| done].
           apply elem_of_union. left. by apply elem_of_singleton.
        -- simpl in Hb. subst b. destruct (proj1 IH2 eq_refl) as [? | (_ & cb & Hin & Hcb)];
             [by left |].
           right. split; [done |]. exists cb. split; [| done].
           apply elem_of_union. by right.
      * intros [Hr | (_ & cb & Hin & Hcb)].
        -- assert (Some b = Some true) as Hb by (apply IH2; by left).
           injection Hb as ->. by rewrite orb_true_r.
        -- apply elem_of_union in Hin as [Hin | Hin].
           ++ apply elem_of_singleton in Hin as ->. by rewrite Hcb.
           ++ assert (Some b = Some true) as Hb.
              { apply IH2. right. split; [done |]. by exists cb. }
              injection Hb as ->. by rewrite orb_true_r.
    + split.
      * split; [intros [? ?]; done | by intros ?%IH1].
      * split; [done |].
        intros [Hr | (Hs & _)]; [| by apply IH1 in Hs].
        assert (is_Some (@None bool)) as [? ?] by (apply IH1; eauto). done.
Qed.

(** The marks [compute_refs] ends with. *)
Lemma compute_refs_lookup (a : gmap string (gset nat)) (cbs : gset string)
    (lines : list string) (var : string) :
  (is_Some (compute_refs a cbs lines !! var) <-> is_Some (a !! var))
  /\ (compute_refs a cbs lines !! var = Some true
      <-> is_Some (a !! var)
          /\ (Str.contains "." var = true
              \/ (exists j other,
                    lines !! j = Some other
                    /\ (S j ∉ default ∅ (a !! var))
                    /\ Str.contains var other = true)
              \/ (exists cb, cb ∈ cbs
                    /\ Str.contains cb var || Str.contains var cb = true))).
Proof.
  unfold compute_refs.
  set (refs0 := map_imap (fun var (_ : gset nat) => Some (Str.contains "." var)) a).
  destruct (change_callbacks_lookup cbs (foldl (mark_refs a) (refs0, 0) lines).1 var)
    as [C1 C2].
  destruct (foldl_mark_refs_lookup a lines refs0 0 var) as [F1 F2].
  assert (refs0 !! var = (fun _ => Str.contains "." var) <$> a !! var) as H0.
  { unfold refs0. rewrite map_lookup_imap. by destruct (a !! var). }
  assert (is_Some (refs0 !! var) <-> is_Some (a !! var)) as S0.
  { rewrite H0. by rewrite fmap_is_Some. }
  assert (refs0 !! var = Some true <-> is_Some (a !! var) /\ Str.contains "." var = true)
    as T0.
  { rewrite H0. destruct (a !! var); simpl; split.
    - intros [= ->]. eauto.
    - by intros [_ ->].
    - done.
    - by intros [[? ?] _]. }
  split.
  - by rewrite C1, F1, S0.
  - rewrite C2, F1, F2, S0, T0. simpl. tauto.
Qed.

(** The two sets [split_lines_by_refs] builds. *)
Lemma split_lines_by_refs_elem (a : gmap string (gset nat)) (refs : gmap string bool)
    (k : nat) :
  (k ∈ (split_lines_by_refs a refs).1
   <-> exists var, refs !! var = Some false /\ k ∈ default ∅ (a !! var))
  /\ (k ∈ (split_lines_by_refs a refs).2
      <-> exists var, refs !! var = Some true /\ k ∈ default ∅ (a !! var)).
Proof.
  unfold split_lines_by_refs.
  apply (map_fold_weak_ind
           (fun (acc : gset nat * gset nat) (m : gmap string bool) =>
              (k ∈ acc.1 <-> exists var, m !! var = Some false /\ k ∈ default ∅ (a !! var))
              /\ (k ∈ acc.2
                  <-> exists var, m !! var = Some true /\ k ∈ default ∅ (a !! var)))).
  - simpl. split; (split; [by intros ?%not_elem_of_empty |]);
      intros (var & Hl & _); by rewrite lookup_empty in Hl.
  - intros var referenced m acc Hnone [IH1 IH2].
    assert (forall b, (exists v, <[var:=referenced]> m !! v = Some b
                                 /\ k ∈ default ∅ (a !! v))
                      <-> (referenced = b /\ k ∈ default ∅ (a !! var))
                          \/ (exists v, m !! v = Some b /\ k ∈ default ∅ (a !! v)))
      as Hins.
    { intros b. split.
      - intros (v & Hl & Hk). apply lookup_insert_Some in Hl as [[-> ->] | [Hne Hl]].
        + by left.
        + right. eauto.
      - intros [[-> Hk] | (v & Hl & Hk)].
        + exists var. by rewrite lookup_insert_eq.
        + exists v. split; [| done]. rewrite lookup_insert_ne; [done |].
          intros ->. congruence. }
    rewrite !Hins, <- IH1, <- IH2.
    destruct referenced; cbn [fst snd]; rewrite elem_of_union; split; split;
      intros H; try tauto.
    all: destruct H as [[? ?] | ?]; try done; tauto.
Qed.

(** The marks of [strip_useless_code], read off the text. *)
Lemma refs_true_referenced (lines : list string) (var : string) :
  compute_refs (assigns (scan_lines lines)) (change_callbacks (scan_lines lines)) lines
    !! var = Some true
  <-> is_Some (assigns (scan_lines lines) !! var) /\ referenced_var lines var.
Proof.
  rewrite (proj2 (compute_refs_lookup _ _ _ _)). unfold referenced_var.
  split; (intros [Hs Href]; split; [done |]).
  - destruct Href as [Hd | [(j & other & Hj & Hnot & Hc) | (cb & Hin & Hcb)]].
    + by left.
    + right; left. exists j, other. by rewrite <- scan_lines_assigns_elem.
    + right; right. apply scan_lines_change_callbacks in Hin as (l & Hl & Hcl & ->).
      by exists l.
  - destruct Href as [Hd | [(j & other & Hj & Hc & Hnot) | (l & Hl & Hcl & Hcb)]].
    + by left.
    + right; left. exists j, other. by rewrite scan_lines_assigns_elem.
    + right; right. exists (callback_data_name l). split; [| done].
      apply scan_lines_change_callbacks. by exists l.
Qed.

Lemma assigned_on_in_table (lines : list string) (var : string) (k : nat) :
  assigned_on lines var k -> is_Some (assigns (scan_lines lines) !! var).
Proof.
  intros Has%scan_lines_assigns_elem.
  destruct (assigns (scan_lines lines) !! var); [eauto |].
  by apply not_elem_of_empty in Has.
Qed.

Lemma tracked_assigned_on (lines : list string) (i : nat) (line var : string) :
  tracked_line lines (S i) -> lines !! i = Some line ->
  var ∈ assign_re_findall line -> assigned_on lines var (S i).
Proof.
  intros (i' & line' & [= <-] & Hi' & _ & Hrest) Hi Hv.
  rewrite Hi in Hi'. injection Hi' as <-. by exists i, line.
Qed.

(** An assignment to a marked variable stays. *)
Lemma referenced_not_commented (lines : list string) (i : nat) (line var : string) :
  lines !! i = Some line -> var ∈ assign_re_findall line ->
  referenced_var lines var -> S i ∉ comment_lines_of lines.
Proof.
  intros Hi Hv Href Hin.
  pose proof (tracked_assigned_on _ _ _ _ (comment_lines_tracked _ _ Hin) Hi Hv) as Has.
  unfold comment_lines_of in Hin.
  pose proof (split_lines_by_refs_elem (assigns (scan_lines lines))
                (compute_refs (assigns (scan_lines lines))
                   (change_callbacks (scan_lines lines)) lines) (S i)) as [_ Hk].
  destruct (split_lines_by_refs _ _) as [c keep]. cbn [fst snd] in Hk.
  apply elem_of_difference in Hin as [_ Hnk]. apply Hnk, Hk. exists var.
  split; [| by apply scan_lines_assigns_elem].
  apply refs_true_referenced. split; [by eapply assigned_on_in_table | done].
Qed.

(** X4.  What the first two loops of [strip_useless_code] choose for
    stripping: exactly the lines that pass the tests of the first loop and
    whose assigned variables are all unreferenced, a variable being
    referenced when its name holds a dot, when its text occurs on a line that
    is not one of its recorded assignments, or when the data name of a change
    callback holds it or is held by it. *)
Theorem comment_lines_characterised (lines : list string) (k : nat) :
  k ∈ comment_lines_of lines
  <-> tracked_line lines k
      /\ forall var, assigned_on lines var k -> ~ referenced_var lines var.
Proof.
  rewrite tracked_line_assigned.
  unfold comment_lines_of.
  pose proof (split_lines_by_refs_elem (assigns (scan_lines lines))
                (compute_refs (assigns (scan_lines lines))
                   (change_callbacks (scan_lines lines)) lines) k) as [Hc Hk].
  destruct (split_lines_by_refs _ _) as [c keep]. cbn [fst snd] in Hc, Hk.
  rewrite elem_of_difference, Hc, Hk. clear Hc Hk. split.
  - intros [(var & Hf & Hin) Hnk]. split.
    + exists var. by apply scan_lines_assigns_elem.
    + intros var' Has Href. apply Hnk. exists var'.
      split; [| by apply scan_lines_assigns_elem].
      apply refs_true_referenced. split; [by eapply assigned_on_in_table | done].
  - intros [(var & Has) Hall]. split.
    + exists var. split; [| by apply scan_lines_assigns_elem].
      pose proof (assigned_on_in_table _ _ _ Has) as Hs.
      apply (proj1 (compute_refs_lookup _ (change_callbacks (scan_lines lines)) lines _))
        in Hs as [[|] Hb]; [| done].
      apply refs_true_referenced in Hb as [_ Href]. by destruct (Hall var).
    + intros (var' & Ht & Hin). apply refs_true_referenced in Ht as [_ Href].
      apply (Hall var'); [by apply scan_lines_assigns_elem | done].
Qed.

(** X5.  A line that assigns to a name with a dot in it (a member of an
    object) is never chosen for stripping, whatever else it assigns. *)
Theorem dotted_variable_never_commented
    (lines : list string) (i : nat) (line var : string) :
  lines !! i = Some line ->
  var ∈ assign_re_findall line ->
  Str.contains "." var = true ->
  S i ∉ comment_lines_of lines.
Proof.
  intros Hi Hv Hd. eapply referenced_not_commented; [done | done |]. by left.
Qed.

Lemma dotted_variable_never_commented_witness :
  bool_decide (1 ∈ comment_lines_of ["doc.Title = 5"; "End Sub"]) = false.
Proof.
  apply bool_decide_eq_false_2.
  apply (dotted_variable_never_commented _ 0 "doc.Title = 5" "doc.Title").
  - reflexivity.
  - vm_compute. left.
  - vm_compute. reflexivity.
Defined.

(** X6.  A variable whose name occurs as text on any line where the pattern
    does not find it as an assigned name counts as used: no line that
    assigns it is chosen for stripping. *)
Theorem variable_read_elsewhere_never_commented
    (lines : list string) (i j : nat) (line other var : string) :
  lines !! i = Some line ->
  var ∈ assign_re_findall line ->
  lines !! j = Some other ->
  Str.contains var other = true ->
  var ∉ assign_re_findall other ->
  S i ∉ comment_lines_of lines.
Proof.
  intros Hi Hv Hj Hc Hnot. eapply referenced_not_commented; [done | done |].
  right; left. exists j, other. split; [done |]. split; [done |].
  intros (j' & other' & [= <-] & Hj' & Hv' & _).
  rewrite Hj in Hj'. injection Hj' as <-. done.
Qed.

Lemma variable_read_elsewhere_never_commented_witness :
  bool_decide (1 ∈ comment_lines_of ["n = 5"; "Debug.Assert done"]) = false.
Proof.
  apply bool_decide_eq_false_2.
  apply (variable_read_elsewhere_never_commented _ 0 1 "n = 5" "Debug.Assert done" "n").
  - reflexivity.
  - vm_compute. left.
  - reflexivity.
  - vm_compute. reflexivity.
  - vm_compute. apply not_elem_of_nil.
Defined.

(** X7.  A change callback protects the variables its data name is part of,
    or that are part of its data name: no line assigning such a variable is
    chosen for stripping. *)
Theorem change_callback_variable_never_commented
    (lines : list string) (i : nat) (line var cbline : string) :
  lines !! i = Some line ->
  var ∈ assign_re_findall line ->
  cbline ∈ lines ->
  is_change_callback cbline = true ->
  Str.contains (callback_data_name cbline) var
    || Str.contains var (callback_data_name cbline) = true ->
  S i ∉ comment_lines_of lines.
Proof.
  intros Hi Hv Hin Hcb Hc. eapply referenced_not_commented; [done | done |].
  right; right. by exists cbline.
Qed.

Lemma change_callback_variable_never_commented_witness :
  bool_decide (1 ∈ comment_lines_of ["TextBox1Value = 5"; "Private Sub TextBox1_Change()"]) = false.
Proof.
  apply bool_decide_eq_false_2.
  apply (change_callback_variable_never_commented _ 0 "TextBox1Value = 5"
           "TextBox1Value" "Private Sub TextBox1_Change()").
  - reflexivity.
  - vm_compute. left.
  - right. left.
  - vm_compute. reflexivity.
  - vm_compute. reflexivity.
Defined.

(** X8.  The third loop drops a line chosen for stripping unless the line,
    stripped, starts with [End Sub], [End Function] or [End If]: its other
    two tests, for [Function ] and [Sub ], never decide, since the first loop
    passes over such lines. *)
Theorem commented_line_is_dropped
    (vba_code : string) (pre post : list string) (line : string) :
  Str.split Str.nl vba_code = pre ++ line :: post ->
  S (length pre) ∈ comment_lines_of (Str.split Str.nl vba_code) ->
  Str.startswith (Str.strip line) "End Sub" = false ->
  Str.startswith (Str.strip line) "End Function" = false ->
  Str.startswith (Str.strip line) "End If" = false ->
  let cl := comment_lines_of (Str.split Str.nl vba_code) in
  let st := rewrite_lines cl pre in
  strip_useless_code vba_code =
    collapse_macro_if_blocks
      (rw_r (foldl (rewrite_step cl)
               (RewriteState (S (length pre)) (if_count st) (rw_r st)) post)).
Proof.
  intros Hsplit Hin Hsub Hfun Hendif cl st.
  destruct (comment_lines_tracked _ _ Hin) as (i & line' & [= <-] & Hi & _ & Hskip & _).
  rewrite Hsplit, lookup_middle_line in Hi. injection Hi as <-.
  unfold skip_assign_line in Hskip.
  repeat (apply orb_false_elim in Hskip as [Hskip ?]).
  match goal with H : existsb _ bool_statements = false |- _ => rename H into Hbool end.
  cbn [existsb bool_statements] in Hbool.
  apply orb_false_elim in Hbool as [Hif _].
  match goal with H : Str.contains "Sub " line || _ = false |- _ =>
    apply orb_false_elim in H as [Hsub' _] end.
  rewrite (strip_useless_code_at _ _ _ _ Hsplit). fold cl.
  rewrite rewrite_step_plain_at by done. fold st.
  assert (stripped_by_usage cl (S (length pre)) line = true) as ->; [| done].
  unfold stripped_by_usage. rewrite bool_decide_eq_true_2 by done.
  rewrite Hskip, Hsub, Hfun. cbn [negb andb].
  destruct (Str.startswith (Str.strip line) "Sub ") eqn:E; [| done].
  apply (contains_of_strip_prefix line EmptyString "Sub " EmptyString) in E.
  congruence.
Qed.

Lemma commented_line_is_dropped_witness :
  strip_useless_code ("Sub Main()" +:+ Str.NL +:+ "zq = 5" +:+ Str.NL +:+ "End Sub")
  = collapse_macro_if_blocks ("Sub Main()" +:+ Str.NL +:+ "End Sub" +:+ Str.NL).
Proof.
  rewrite (commented_line_is_dropped _ ["Sub Main()"] ["End Sub"] "zq = 5");
    [ | vm_compute; reflexivity
      | apply (bool_decide_unpack _); vm_compute; exact I
      | vm_compute; reflexivity ..].
  vm_compute. reflexivity.
Defined.

(** X9.  A declaration on which [Lib] comes no later than the end of the
    word [Function] plus nothing but white space (a function whose name
    starts with [Lib], say) declares the empty name, which every text
    contains: from that declaration on, no line is chosen for stripping. *)
Theorem blank_declared_name_shields_all
    (lines : list string) (i : nat) (line decl : string) (a b : nat) :
  lines !! i = Some line ->
  decl ∈ take (S i) lines ->
  is_external_decl decl = true ->
  Str.find "Function" (Str.strip decl) = Some a ->
  Str.find "Lib" (Str.strip decl) = Some b ->
  Str.strip (Str.slice (a + String.length "Function") b (Str.strip decl)) = EmptyString ->
  S i ∉ comment_lines_of lines.
Proof.
  intros Hi Hin Hdecl Ha Hb Hblank.
  apply (protected_not_commented lines i line Hi).
  right; left. exists decl, EmptyString. split; [done |]. split; [done |].
  split; [| by destruct line].
  unfold ext_func_of_decl. by rewrite Ha, Hb, Hblank.
Qed.

Lemma blank_declared_name_shields_all_witness :
  bool_decide
    (2 ∈ comment_lines_of
           ["Declare Function LibVersion Lib " +:+ Str.DQ +:+ "z" +:+ Str.DQ; "zq = 5"])
  = false.
Proof.
  apply bool_decide_eq_false_2.
  apply (blank_declared_name_shields_all _ 1 "zq = 5"
           ("Declare Function LibVersion Lib " +:+ Str.DQ +:+ "z" +:+ Str.DQ) 8 17).
  - reflexivity.
  - left.
  - vm_compute. reflexivity.
  - vm_compute. reflexivity.
  - vm_compute. reflexivity.
  - vm_compute. reflexivity.
Defined.

(** ** The line classifiers *)

Lemma contains_char_cons (c x : ascii) (s : string) :
  Str.contains (String c EmptyString) (String x s)
  = Ascii.eqb c x || Str.contains (String c EmptyString) s.
Proof.
  unfold Str.contains. cbn [Str.find Str.startswith].
  destruct (Ascii.eqb c x).
  - by destruct s.
  - simpl. by destruct (Str.find (String c EmptyString) s).
Qed.

Lemma find_char_skip (c x : ascii) (s : string) :
  Ascii.eqb c x = false ->
  Str.find (String c EmptyString) (String x s) = S <$> Str.find (String c EmptyString) s.
Proof. intros H. cbn [Str.find Str.startswith]. by rewrite H. Qed.

Lemma find_char_hit (c : ascii) (s : string) :
  Str.find (String c EmptyString) (String c s) = Some 0.
Proof.
  cbn [Str.find Str.startswith]. rewrite Ascii.eqb_refl. by destruct s.
Qed.

(** Deleting the spaces of a text keeps its other characters. *)
Lemma contains_char_squeeze (c : ascii) (s : string) :
  c <> " "%char ->
  Str.contains (String c EmptyString) (Str.replace " " "" s)
  = Str.contains (String c EmptyString) s.
Proof.
  intros Hc. induction s as [|x s IH]; [done |].
  rewrite replace_char_cons, (contains_char_cons c x).
  destruct (Ascii.eqb " " x) eqn:E.
  - apply Ascii.eqb_eq in E as <-.
    by rewrite (proj2 (Ascii.eqb_neq c " ") Hc).
  - by rewrite contains_char_cons, IH.
Qed.

(** X10.  [is_useless_call] holds of a line exactly when the line has no
    equals sign and, once its spaces (no other white space) are deleted,
    starts with [Cos(], [Log(], [Exp(], [Sin(] or [Tan(]; what follows the
    parenthesis is not looked at. *)
Theorem useless_call_characterised (line : string) :
  is_useless_call line = true
  <-> Str.contains "=" line = false
      /\ exists f, f ∈ ["Cos"; "Log"; "Exp"; "Sin"; "Tan"]
           /\ Str.startswith (Str.replace " " "" line) (f +:+ "(") = true.
Proof.
  split.
  - intros H. split.
    + unfold is_useless_call in H. by destruct (Str.contains "=" line).
    + destruct (is_useless_call_prefix _ H) as (f & Hf & Hs). exists f. split; [| done].
      repeat (apply elem_of_cons in Hf as [-> | Hf];
              [repeat first [left | right] |]).
      by apply elem_of_nil in Hf.
  - intros [Heq (f & Hf & Hs)]. unfold is_useless_call. rewrite Heq.
    destruct (startswith_app _ _ Hs) as [r Hr].
    rewrite <- (contains_char_squeeze "(" line) by done.
    rewrite Hr, app_assoc_str, contains_mid. cbn [negb].
    repeat (apply elem_of_cons in Hf as [-> | Hf];
            [repeat (rewrite app_cons_str || rewrite app_nil_l_str);
             rewrite !find_char_skip by reflexivity; rewrite find_char_hit;
             by vm_compute |]).
    by apply elem_of_nil in Hf.
Qed.

(** ** [parse_stream] and [parse_streams_serial] *)

Section DriverMore.

Context {AST Meta Action Core : Type}.
Variable w : @collaborators AST Meta Action Core.

(** The list [parse_streams_serial] builds. *)
Lemma parse_streams_serial_loop_modules macros strip_useless r (s s' : @py_state Meta) l :
  parse_streams_serial_loop w macros strip_useless r s = (Return (Some l), s') ->
  exists ms, l = r ++ ms /\ Forall2 (module_of_stream w strip_useless) macros ms.
Proof.
  revert r s. induction macros as [|[[[subfilename stream_path] vba_filename] vba_code]
                                     macros IH]; intros r s H.
  - injection H as <- _. exists []. by rewrite app_nil_r.
  - rewrite parse_streams_serial_loop_cons, parse_stream_cases in H. cbv zeta in H.
    destruct (String.eqb _ EmptyString) eqn:E.
    + apply IH in H as (ms & -> & Hall). exists (ModuleStr "empty" :: ms).
      split; [by rewrite <- app_assoc |]. constructor; [| done].
      unfold module_of_stream. cbn [snd]. by rewrite E.
    + destruct (module_parseString w _) as [ast | [line column text | b text]] eqn:Hp;
        [| done | done].
      apply IH in H as (ms & -> & Hall). eexists (ModuleObj ast _ :: ms).
      split; [by rewrite <- app_assoc |]. constructor; [| done].
      unfold module_of_stream. cbn [snd]. rewrite E. eauto.
Qed.

End DriverMore.

(** X11.  When the normalized code of a stream is not blank and the parser
    accepts it (with one newline added), [parse_stream] returns the parsed
    module carrying the normalized code, having printed the header, the code
    and the parsing notice. *)
Theorem parse_stream_returns_module {AST Meta Action Core : Type}
    (w : @collaborators AST Meta Action Core)
    (subfilename stream_path vba_filename vba_code : string) (strip_useless : bool)
    (ast : AST) :
  Str.strip (normalized_code w vba_code strip_useless) <> EmptyString ->
  module_parseString w (normalized_code w vba_code strip_useless +:+ Str.NL)
    = Return ast ->
  forall s : @py_state Meta,
    parse_stream w subfilename stream_path vba_filename vba_code strip_useless s
    = (Return (ModuleObj ast (normalized_code w vba_code strip_useless)),
       emitting (parse_attempt_report w subfilename stream_path vba_filename
                   (normalized_code w vba_code strip_useless)) s).
Proof.
  intros Hne Hp s. rewrite parse_stream_cases. cbv zeta.
  apply String.eqb_neq in Hne. by rewrite Hne, Hp.
Qed.

Lemma parse_stream_returns_module_witness :
  let w := sample_world (Return sample_vm) (fun _ _ => Return two_stream_document) in
  parse_stream w "doc.docm" "VBA/Second" "Second.bas" "Sub AutoOpen()" false initial_state
  = (Return (ModuleObj () "Sub AutoOpen()"),
     emitting (parse_attempt_report w "doc.docm" "VBA/Second" "Second.bas" "Sub AutoOpen()")
       initial_state).
Proof.
  intros w.
  apply (parse_stream_returns_module w "doc.docm" "VBA/Second" "Second.bas"
           "Sub AutoOpen()" false ()).
  - vm_compute. discriminate.
  - vm_compute. reflexivity.
Defined.

(** X12.  [parse_stream] catches parse errors only: any other exception of
    the parser, derived from [Exception] or not, leaves [parse_stream] after
    the header, the code and the parsing notice were printed, and so ends
    the loop over the streams. *)
Theorem parse_stream_lets_other_errors_through {AST Meta Action Core : Type}
    (w : @collaborators AST Meta Action Core)
    (subfilename stream_path vba_filename vba_code : string) (strip_useless : bool)
    (e : exn) :
  Str.strip (normalized_code w vba_code strip_useless) <> EmptyString ->
  module_parseString w (normalized_code w vba_code strip_useless +:+ Str.NL)
    = Raise e ->
  is_ParseException e = false ->
  let attempt :=
    parse_attempt_report w subfilename stream_path vba_filename
      (normalized_code w vba_code strip_useless) in
  (forall s : @py_state Meta,
     parse_stream w subfilename stream_path vba_filename vba_code strip_useless s
     = (Raise e, emitting attempt s))
  /\ (forall macros r (s : @py_state Meta),
        parse_streams_serial_loop w
          ((subfilename, stream_path, vba_filename, vba_code) :: macros) strip_useless r s
        = (Raise e, emitting attempt s)).
Proof.
  intros Hne Hp He attempt.
  assert (forall s : @py_state Meta,
            parse_stream w subfilename stream_path vba_filename vba_code strip_useless s
            = (Raise e, emitting attempt s)) as Hs.
  { intros s. rewrite parse_stream_cases. cbv zeta.
    apply String.eqb_neq in Hne. rewrite Hne, Hp. by destruct e. }
  split; [done |]. intros macros r s.
  by rewrite parse_streams_serial_loop_cons, Hs.
Qed.

Lemma parse_stream_lets_other_errors_through_witness :
  let e := OtherException true "RuntimeError: maximum recursion depth exceeded" in
  let w := faulty_world (fun _ => Raise e) (Return ()) (Return EmptyString)
             (fun _ _ => Return two_stream_document) in
  let attempt := parse_attempt_report w "doc.docm" "VBA/First" "First.bas" "Sub Deep()" in
  (forall s : @py_state unit,
     parse_stream w "doc.docm" "VBA/First" "First.bas" "Sub Deep()" false s
     = (Raise e, emitting attempt s))
  /\ (forall macros r (s : @py_state unit),
        parse_streams_serial_loop w
          (("doc.docm", "VBA/First", "First.bas", "Sub Deep()") :: macros) false r s
        = (Raise e, emitting attempt s)).
Proof.
  intros e w attempt.
  apply (parse_stream_lets_other_errors_through w "doc.docm" "VBA/First" "First.bas"
           "Sub Deep()" false e).
  - vm_compute. discriminate.
  - reflexivity.
  - reflexivity.
Defined.

(** X13.  When [parse_streams_serial] returns a list, the list has one
    entry for each macro stream of the document, in their order: the
    sentinel for a stream whose normalized code is blank, and otherwise the
    module the parser made of the normalized code; [None] is never among
    them. *)
Theorem serial_parse_one_module_per_stream {AST Meta Action Core : Type}
    (w : @collaborators AST Meta Action Core) (vba : VBA) (strip_useless : bool)
    (s s' : @py_state Meta) (l : list stream_module) :
  parse_streams_serial w vba strip_useless s = (Return (Some l), s') ->
  exists macros,
    extract_macros vba = Return macros
    /\ Forall2 (module_of_stream w strip_useless) macros l.
Proof.
  unfold parse_streams_serial. intros H.
  destruct (extract_macros vba) as [macros | e].
  - rewrite bind_lift_return in H.
    apply parse_streams_serial_loop_modules in H as (ms & -> & Hall).
    by exists macros.
  - by rewrite bind_lift_raise in H.
Qed.

Lemma serial_parse_one_module_per_stream_witness :
  let w := sample_world (Return sample_vm) (fun _ _ => Return empty_stream_document) in
  exists macros,
    extract_macros empty_stream_document = Return macros
    /\ Forall2 (module_of_stream w false) macros
         [ModuleStr "empty"; ModuleObj () "Sub AutoOpen()"].
Proof.
  intros w.
  eapply (serial_parse_one_module_per_stream w empty_stream_document false initial_state).
  vm_compute. reflexivity.
Defined.

(** ** The document readers and the preparation of the emulator *)

Lemma rfind_slash_tail (s : string) :
  match Str.rfind "/" s with
  | Some i => Str.contains "/" (Str.drop (i + 1) s) = false
  | None => Str.contains "/" s = false
  end.
Proof.
  induction s as [|x s IH]; [done |].
  cbn [Str.rfind]. destruct (Str.rfind "/" s) as [i |].
  - done.
  - rewrite contains_char_cons, IH. cbn [Str.startswith].
    destruct (Ascii.eqb "/" x); [| done]. by destruct s.
Qed.

Lemma after_last_slash_no_slash (s : string) :
  Str.contains "/" (after_last_slash s) = false.
Proof.
  unfold after_last_slash. pose proof (rfind_slash_tail s) as H.
  by destruct (Str.rfind "/" s).
Qed.

(** Deleting a character keeps the others and leaves none of it. *)
Lemma contains_char_delete (c d : ascii) (s : string) :
  c <> d ->
  Str.contains (String c EmptyString) (Str.replace (String d EmptyString) "" s)
  = Str.contains (String c EmptyString) s.
Proof.
  intros Hc. induction s as [|x s IH]; [done |].
  rewrite replace_char_cons, (contains_char_cons c x).
  destruct (Ascii.eqb d x) eqn:E.
  - apply Ascii.eqb_eq in E as <-.
    by rewrite (proj2 (Ascii.eqb_neq c d) Hc).
  - by rewrite contains_char_cons, IH.
Qed.

Lemma contains_char_deleted (d : ascii) (s : string) :
  Str.contains (String d EmptyString) (Str.replace (String d EmptyString) "" s) = false.
Proof.
  induction s as [|x s IH]; [done |].
  rewrite replace_char_cons. destruct (Ascii.eqb d x) eqn:E; [done |].
  by rewrite contains_char_cons, E, IH.
Qed.

Lemma strip_lacks (sub s : string) :
  Str.contains sub s = false -> Str.contains sub (Str.strip s) = false.
Proof.
  intros H. destruct (Str.contains sub (Str.strip s)) eqn:E; [| done].
  apply contains_strip in E. congruence.
Qed.

(** X14.  The directory for dumped files always lies directly in the
    working directory: its name is [./], a name with neither a slash nor a
    dot, and [/], whatever the file name holds. *)
Theorem artifacts_dir_is_local (filename : string) :
  exists d,
    artifacts_dir filename = "./" +:+ d +:+ "/"
    /\ Str.contains "/" d = false
    /\ Str.contains "." d = false.
Proof.
  unfold artifacts_dir. eexists. split; [reflexivity |]. split.
  - apply strip_lacks. rewrite contains_char_delete by done.
    apply after_last_slash_no_slash.
  - apply strip_lacks, contains_char_deleted.
Qed.

(** X15.  The pairing loop of [_read_doc_vars] and [_read_custom_doc_props]
    pairs every string but the last with its successor: the pairs overlap,
    so that each inner string is once a value and once a name. *)
Theorem pair_with_next_lookup (strs : list string) (pos : nat) (s t : string) :
  pair_with_next strs !! pos = Some (s, t)
  <-> strs !! pos = Some s /\ strs !! S pos = Some t.
Proof.
  revert pos. induction strs as [|a strs IH]; intros pos.
  - simpl. rewrite !lookup_nil. split; [done | by intros [? _]].
  - destruct strs as [|b strs].
    + simpl. split; [done |]. by intros [_ H].
    + cbn [pair_with_next]. destruct pos as [|pos].
      * simpl. split; [by intros [= -> ->] | by intros [[= ->] [= ->]]].
      * rewrite lookup_cons. rewrite IH. by rewrite !lookup_cons.
Qed.

(** X16.  Document variables are stored under their lower-cased names, and
    of several values for names that differ at most in case the last one
    read stays. *)
Theorem doc_vars_last_wins {Action Core : Type} (vm : @ViperMonkey Action Core)
    (before after : list (string * string)) (name value : string) :
  Forall (fun kv => Str.lower kv.1 <> Str.lower name) after ->
  doc_vars (foldl set_doc_var vm (before ++ (name, value) :: after))
    !! Str.lower name = Some value.
Proof.
  intros Hafter. rewrite foldl_app. cbn [foldl].
  assert (doc_vars (set_doc_var (foldl set_doc_var vm before) (name, value))
            !! Str.lower name = Some value) as H0
    by (cbn [set_doc_var doc_vars fst snd]; apply lookup_insert_eq).
  revert H0.
  generalize (set_doc_var (foldl set_doc_var vm before) (name, value)).
  induction Hafter as [|kv after Hkv Hafter IH]; intros vm' H0; [done |].
  cbn [foldl]. apply IH. cbn [set_doc_var doc_vars].
  by rewrite lookup_insert_ne.
Qed.

Lemma doc_vars_last_wins_witness :
  doc_vars (foldl set_doc_var sample_vm
              ([("Payload", "first")] ++ ("PAYLOAD", "second") :: [("Other", "x")]))
    !! Str.lower "PAYLOAD" = Some "second".
Proof.
  apply (doc_vars_last_wins sample_vm [("Payload", "first")] [("Other", "x")]
           "PAYLOAD" "second").
  constructor; [vm_compute; discriminate | constructor].
Defined.

(** X17.  [prepare_emulation] never raises, whatever the metadata reader
    raises: after a failure one error is logged, the metadata of the library
    is the empty dict and the metadata of the object module is left as it
    was; in either case the directory for dumped files is set. *)
Theorem prepare_emulation_outcome {AST Meta Action Core : Type}
    (w : @collaborators AST Meta Action Core) (filename : string) (s : @py_state Meta) :
  prepare_emulation w filename s =
    (Return (),
     match OleFileIO_get_metadata w filename with
     | Return meta =>
         PyState (output s) (Some (MetaOf meta)) (Some (MetaOf meta))
           (Some (artifacts_dir filename))
     | Raise _ =>
         PyState (output s ++ [LogError "Reading in metadata failed."])
           (Some MetaEmptyDict) (vba_object_meta s) (Some (artifacts_dir filename))
     end).
Proof.
  unfold prepare_emulation, try_except, mbind, M_bind, lift.
  by destruct (OleFileIO_get_metadata w filename).
Qed.

(** X18.  The three readers of the document are fail-soft for exceptions
    derived from [Exception]: each logs one error and returns its empty
    result, the empty text or the empty list. *)
Theorem document_readers_fail_soft {AST Meta Action Core : Type}
    (w : @collaborators AST Meta Action Core) (fname : string) (e : exn)
    (s : @py_state Meta) :
  is_Exception e = true ->
  (read_file w fname = Raise e ->
   _read_doc_text w fname s
   = (Return EmptyString,
      emitting [LogError ("Cannot read document text from " +:+ fname +:+ ". "
                          +:+ exn_str e)] s))
  /\ (read_1Table w fname = Raise e ->
      _read_doc_vars w fname s
      = (Return [], emitting [LogError ("Cannot read document variables. "
                                        +:+ exn_str e)] s))
  /\ (read_DocumentSummaryInformation w fname = Raise e ->
      _read_custom_doc_props w fname s
      = (Return [], emitting [LogError ("Cannot read custom doc properties. "
                                        +:+ exn_str e)] s)).
Proof.
  intros He. split; [| split]; intros Hr.
  - unfold _read_doc_text.
    erewrite try_except_raise; [| by rewrite Hr, bind_lift_raise | done]. done.
  - unfold _read_doc_vars.
    erewrite try_except_raise; [| by rewrite Hr, bind_lift_raise | done]. done.
  - unfold _read_custom_doc_props.
    erewrite try_except_raise; [| by rewrite Hr, bind_lift_raise | done]. done.
Qed.

Lemma document_readers_fail_soft_witness :
  let e := OtherException true "IOError: No such file or directory" in
  let w := faulty_world (fun _ => Return ()) (Return ()) (Raise e)
             (fun _ _ => Return two_stream_document) in
  _read_doc_text w "doc.docm" initial_state
  = (Return EmptyString,
     emitting [LogError "Cannot read document text from doc.docm. IOError: No such file or directory"]
       initial_state)
  /\ _read_doc_vars w "doc.docm" initial_state
     = (Return [],
        emitting [LogError "Cannot read document variables. IOError: No such file or directory"]
          initial_state)
  /\ _read_custom_doc_props w "doc.docm" initial_state
     = (Return [],
        emitting [LogError "Cannot read custom doc properties. IOError: No such file or directory"]
          initial_state).
Proof.
  intros e w.
  destruct (document_readers_fail_soft w "doc.docm" e initial_state eq_refl)
    as (H1 & H2 & H3).
  split; [exact (H1 eq_refl) | split; [exact (H2 eq_refl) | exact (H3 eq_refl)]].
Defined.

(** ** [process_file_scanexpr], the loop of [main], and a failure late in
    [process_file] *)

Section Appends.

Context {Meta : Type}.

Lemma appends_ret {A} (a : A) : appends (Meta:=Meta) (mret a).
Proof. intros s. exists []. by rewrite app_nil_r. Qed.

Lemma appends_lift {A} (r : result A) : appends (Meta:=Meta) (lift r).
Proof. intros s. exists []. by rewrite app_nil_r. Qed.

Lemma appends_emit (ev : event) : appends (Meta:=Meta) (emit ev).
Proof. intros s. by exists [ev]. Qed.

Lemma appends_set_library_meta (v : meta_value) :
  appends (Meta:=Meta) (set_library_meta v).
Proof. intros s. exists []. by rewrite app_nil_r. Qed.

Lemma appends_bind {A B} (m : @M Meta A) (k : A -> @M Meta B) :
  appends m -> (forall a, appends (k a)) -> appends (m ≫= k).
Proof.
  intros Hm Hk s. unfold mbind, M_bind. destruct (Hm s) as [evs Hevs].
  destruct (m s) as [[a | e] s1]; simpl in *.
  - destruct (Hk a s1) as [evs' Hevs']. exists (evs ++ evs').
    by rewrite Hevs', Hevs, app_assoc.
  - by exists evs.
Qed.

Lemma appends_try_except {A} catches (body : @M Meta A) handler :
  appends body -> (forall e, appends (handler e)) ->
  appends (try_except catches body handler).
Proof.
  intros Hb Hh s. unfold try_except. destruct (Hb s) as [evs Hevs].
  destruct (body s) as [[a | e] s1]; simpl in *; [by exists evs |].
  destruct (catches e); [| by exists evs].
  destruct (Hh e s1) as [evs' Hevs']. exists (evs ++ evs').
  by rewrite Hevs', Hevs, app_assoc.
Qed.

Lemma appends_for_each {A B} (xs : list A) (acc : B) (body : B -> A -> @M Meta B) :
  (forall b x, appends (body b x)) -> appends (for_each xs acc body).
Proof.
  intros Hbody. revert acc. induction xs as [|x xs IH]; intros acc; cbn [for_each].
  - apply appends_ret.
  - apply appends_bind; [apply Hbody | intros a; apply IH].
Qed.

End Appends.

Section ScanFacts.

Context {AST Meta Action Core : Type}.
Variable w : @collaborators AST Meta Action Core.
Variable x : scan_collaborators.

Lemma appends_scan_stream all_code macro :
  appends (Meta:=Meta) (scan_stream w all_code macro).
Proof.
  destruct macro as [[[subfilename stream_path] vba_filename] vba_code].
  unfold scan_stream, print.
  repeat (apply appends_bind; [apply appends_emit | intros _]).
  destruct (String.eqb _ EmptyString).
  - apply appends_bind; [apply appends_emit | intros _; apply appends_ret].
  - apply appends_bind; [apply appends_emit | intros _; apply appends_ret].
Qed.

Lemma appends_scanexpr_body filename data :
  appends (Meta:=Meta) (process_file_scanexpr_body w x filename data).
Proof.
  unfold process_file_scanexpr_body, print.
  apply appends_bind; [apply appends_lift | intros vba].
  apply appends_bind; [apply appends_emit | intros _].
  apply appends_bind; [apply appends_lift | intros [|]]; [| apply appends_emit].
  apply appends_bind; [apply appends_lift | intros meta].
  apply appends_bind; [apply appends_set_library_meta | intros _].
  apply appends_bind; [apply appends_lift | intros macros].
  apply appends_bind; [apply appends_for_each, appends_scan_stream | intros all_code].
  repeat (apply appends_bind; [apply appends_emit | intros _]).
  apply appends_bind; [apply appends_lift | intros rows]. apply appends_emit.
Qed.

Lemma process_file_scanexpr_run container filename data (s : @py_state Meta) :
  exists s1 s',
    process_file_scanexpr w x container filename data s
    = (Return (), emitting [Printed ""] s')
    /\ (process_file_scanexpr_body w x filename data
          (emitting (file_banner container filename) s)).2 = s1
    /\ (s' = s1 \/ exists e, s' = emitting [Traceback e] s1).
Proof.
  unfold process_file_scanexpr. rewrite !bind_print, !emitting_emitting. cbn [app].
  fold (file_banner container filename).
  unfold mbind at 1, M_bind at 1, try_except.
  destruct (process_file_scanexpr_body w x filename data
              (emitting (file_banner container filename) s)) as [[[] | e] s1].
  - exists s1, s1. rewrite print_spec. eauto.
  - exists s1, (emitting [Traceback e] s1). cbn [emit]. rewrite print_spec.
    split; [done |]. split; [done |]. right. by exists e.
Qed.

Lemma main_loop_cons opts container filename data files (s : @py_state Meta) :
  main_loop w x opts ((container, filename, data) :: files) s =
    if is_container_directory container filename then main_loop w x opts files s
    else if opt_scan_expressions opts then
      match process_file_scanexpr w x container filename data s with
      | (Return _, s') => main_loop w x opts files s'
      | (Raise e, s') => (Raise e, s')
      end
    else
      match process_file w container filename data (opt_altparser opts)
              (opt_strip_useless_code opts)
              (Str.split "," <$> opt_entry_points opts) s with
      | (Return _, s') => main_loop w x opts files s'
      | (Raise e, s') => (Raise e, s')
      end.
Proof.
  cbn [main_loop]. destruct (is_container_directory container filename); [done |].
  destruct (opt_scan_expressions opts).
  - unfold mbind at 1, M_bind at 1.
    by destruct (process_file_scanexpr w x container filename data s) as [[[] | e] s'].
  - unfold mbind at 1, M_bind at 1, mbind at 1, M_bind at 1.
    by destruct (process_file w container filename data _ _ _ s) as [[a | e] s'].
Qed.

End ScanFacts.

(** X19.  [process_file_scanexpr] never raises: whatever its body raises,
    derived from [Exception] or not, is caught; what it writes starts with
    the banner of the file and ends with an empty line. *)
Theorem process_file_scanexpr_never_raises {AST Meta Action Core : Type}
    (w : @collaborators AST Meta Action Core) (x : scan_collaborators)
    (container : option string) (filename : string) (data : option string)
    (s : @py_state Meta) :
  exists s' evs,
    process_file_scanexpr w x container filename data s = (Return (), s')
    /\ output s' = output s ++ file_banner container filename ++ evs ++ [Printed ""].
Proof.
  destruct (process_file_scanexpr_run w x container filename data s)
    as (s1 & s2 & Hrun & Hbody & Hs2).
  destruct (appends_scanexpr_body w x filename data
              (emitting (file_banner container filename) s)) as [evs Hevs].
  rewrite Hbody in Hevs. cbn [emitting output] in Hevs.
  eexists. destruct Hs2 as [-> | [e ->]].
  - exists evs. split; [exact Hrun |]. cbn [emitting output].
    by rewrite Hevs, <- !app_assoc.
  - exists (evs ++ [Traceback e]). split; [exact Hrun |]. cbn [emitting output].
    by rewrite Hevs, <- !app_assoc.
Qed.

(** X20.  In the mode that scans expressions the loop of [main] goes
    through all the files: it never raises, and it leaves the state that
    running [process_file_scanexpr] on each file in turn leaves, the entries
    of a container whose name ends with a slash passed over; no failure on
    one file keeps it from the next. *)
Theorem scan_mode_survives_every_file {AST Meta Action Core : Type}
    (w : @collaborators AST Meta Action Core) (x : scan_collaborators)
    (opts : options) (files : list (option string * string * option string))
    (s : @py_state Meta) :
  opt_scan_expressions opts = true ->
  main_loop w x opts files s
  = (Return (),
     foldl (fun s f => (process_file_scanexpr w x f.1.1 f.1.2 f.2 s).2) s
       (filter (fun f => is_container_directory f.1.1 f.1.2 = false) files)).
Proof.
  intros Hscan. revert s.
  induction files as [|[[container filename] data] files IH]; intros s; [done |].
  rewrite main_loop_cons, Hscan, filter_cons. cbn [fst snd].
  destruct (is_container_directory container filename).
  - rewrite decide_False by done. apply IH.
  - rewrite decide_True by done. cbn [foldl fst snd].
    destruct (process_file_scanexpr_run w x container filename data s)
      as (s1 & s2 & -> & _). apply IH.
Qed.

Lemma scan_mode_survives_every_file_witness :
  let e := OtherException false "KeyboardInterrupt" in
  main_loop (sample_world (Return sample_vm) (fun _ _ => Raise e))
    sample_scanner (Options true false false None)
    [(None, "a.doc", None); (Some "samples.zip", "macros/", None);
     (None, "b.doc", None)] initial_state
  = (Return (),
     emitting (file_banner None "a.doc" ++ [Traceback e; Printed ""]
               ++ file_banner None "b.doc" ++ [Traceback e; Printed ""])
       initial_state).
Proof.
  intros e. rewrite scan_mode_survives_every_file by reflexivity.
  vm_compute. reflexivity.
Defined.

(** X21.  In the emulating mode an exception that leaves [process_file]
    leaves the loop of [main] with it: the files after that one are not
    looked at.  Entries of a container whose name ends with a slash are
    passed over before. *)
Theorem escaping_exception_ends_the_run {AST Meta Action Core : Type}
    (w : @collaborators AST Meta Action Core) (x : scan_collaborators)
    (opts : options) (container : option string) (filename : string)
    (data : option string) (skipped files : list (option string * string * option string))
    (e : exn) (s s' : @py_state Meta) :
  opt_scan_expressions opts = false ->
  Forall (fun f => is_container_directory f.1.1 f.1.2 = true) skipped ->
  is_container_directory container filename = false ->
  process_file w container filename data (opt_altparser opts)
    (opt_strip_useless_code opts) (Str.split "," <$> opt_entry_points opts) s
  = (Raise e, s') ->
  main_loop w x opts (skipped ++ (container, filename, data) :: files) s = (Raise e, s').
Proof.
  intros Hscan Hskipped Hdir Hrun.
  induction Hskipped as [|[[c f] d] skipped Hf _ IH].
  - cbn [app]. by rewrite main_loop_cons, Hdir, Hscan, Hrun.
  - cbn [app]. rewrite main_loop_cons. cbn [fst snd] in Hf. by rewrite Hf.
Qed.

Lemma escaping_exception_ends_the_run_witness :
  main_loop
    (sample_world (Raise (OtherException true "cannot build the emulator"))
       (fun _ _ => Return two_stream_document))
    sample_scanner (Options false false true (Some "Main,Other"))
    ([(Some "samples.zip", "macros/", None)]
     ++ (Some "samples.zip", "macros/a.doc", None) :: [(None, "b.doc", None)])
    initial_state
  = (Raise (OtherException true "cannot build the emulator"),
     emitting (file_banner (Some "samples.zip") "macros/a.doc") initial_state).
Proof.
  apply (escaping_exception_ends_the_run _ sample_scanner).
  - reflexivity.
  - constructor; [vm_compute; reflexivity | constructor].
  - vm_compute. reflexivity.
  - vm_compute. reflexivity.
Defined.


(** X22.  When everything up to the form strings went well and reading the
    form strings raises an exception derived from [Exception], the error is
    logged and traced where it is caught, raised again, and traced a second
    time by the handler of [process_file] (unless its text holds
    [SystemExit]); [process_file] returns [None] and the emulation is never
    started. *)
Theorem form_read_failure_is_traced_twice {AST Meta Action Core : Type}
    (w : @collaborators AST Meta Action Core)
    (container : option string) (filename : string) (data : option string)
    (altparser strip_useless : bool) (entry_points : option (list string))
    (vm0 vm1 : ViperMonkey) (vba : VBA) (comp_modules : list stream_module)
    (vars props : list (string * string)) (text : string) (e : exn)
    (s s1 s2 s3 s4 s5 : @py_state Meta) :
  ViperMonkey_new w = Return vm0 ->
  VBA_Parser w filename data = Return vba ->
  detect_vba_macros vba = Return true ->
  parse_streams w vba strip_useless
    (prepare_emulation w filename (emitting (file_banner container filename) s)).2
    = (Return (Some comp_modules), s1) ->
  add_compiled_modules w comp_modules
    (foldl append_entry_point vm0 (default [] entry_points)) s1 = (Return vm1, s2) ->
  _read_doc_vars w filename s2 = (Return vars, s3) ->
  _read_custom_doc_props w filename s3 = (Return props, s4) ->
  _read_doc_text w filename s4 = (Return text, s5) ->
  extract_form_strings_extended vba = Raise e ->
  is_Exception e = true ->
  process_file w container filename data altparser strip_useless entry_points s
  = (Return None,
     emitting ([LogError ("Cannot read form strings. " +:+ exn_str e); Traceback e]
               ++ if Str.contains "SystemExit" (exn_str e) then [] else [Traceback e])
       s5).
Proof.
  intros Hnew Hvba Hdetect Hparse Hadd Hvars Hprops Htext Hforms He.
  rewrite (process_file_parsed w _ _ _ _ _ _ _ _ _ _ _ Hnew Hvba Hdetect Hparse).
  assert (emulate_parsed w (foldl append_entry_point vm0 (default [] entry_points))
            vba filename entry_points comp_modules s1
          = (Raise e,
             emitting [LogError ("Cannot read form strings. " +:+ exn_str e);
                       Traceback e] s5)) as Hbody.
  { unfold emulate_parsed.
    erewrite bind_run by exact Hadd.
    erewrite bind_run by exact Hvars.
    erewrite bind_run by exact Hprops.
    erewrite bind_run by exact Htext.
    erewrite bind_run_raise; [reflexivity |].
    erewrite try_except_raise; [| by rewrite Hforms, bind_lift_raise | exact He].
    by rewrite !bind_emit, emitting_emitting. }
  erewrite try_except_raise; [| exact Hbody | exact He].
  rewrite process_file_handler_spec.
  destruct (Str.contains "SystemExit" (exn_str e)); [done |].
  by rewrite emitting_emitting.
Qed.

Lemma form_read_failure_is_traced_twice_witness :
  let e := OtherException true "IndexError: string index out of range" in
  process_file
    (sample_world (Return sample_vm) (fun _ _ => Return broken_forms_document))
    None "doc.docm" None false false None initial_state
  = (Return None,
     emitting ([LogError ("Cannot read form strings. " +:+ exn_str e); Traceback e]
               ++ if Str.contains "SystemExit" (exn_str e) then [] else [Traceback e])
       (PyState
          (file_banner None "doc.docm"
           ++ parse_attempt_report
                (sample_world (Return sample_vm) (fun _ _ => Return broken_forms_document))
                "doc.docm" "VBA/Module1" "Module1.bas" "Sub AutoOpen()")
          (Some (MetaOf ())) (Some (MetaOf ())) (Some "./docdocm_artifacts/"))).
Proof.
  intros e.
  eapply (form_read_failure_is_traced_twice
            (sample_world (Return sample_vm) (fun _ _ => Return broken_forms_document))
            None "doc.docm" None false false None sample_vm).
  - reflexivity.
  - reflexivity.
  - reflexivity.
  - vm_compute. reflexivity.
  - vm_compute. reflexivity.
  - vm_compute. reflexivity.
  - vm_compute. reflexivity.
  - vm_compute. reflexivity.
  - reflexivity.
  - reflexivity.
Defined.



(** ** The form controls *)

Lemma first_non_ascii_none (s : string) (pos : nat) :
  is_ascii s = true -> first_non_ascii s pos = None.
Proof.
  revert pos. induction s as [|c s IH]; intros pos H; [done |].
  cbn [is_ascii first_non_ascii] in *. apply andb_true_iff in H as [-> H].
  by apply IH.
Qed.

Lemma first_non_ascii_some (s : string) (pos : nat) :
  is_ascii s = false ->
  exists c i,
    first_non_ascii s pos = Some (c, pos + i)
    /\ 128 <= nat_of_ascii c
    /\ String.get i s = Some c
    /\ is_ascii (Str.take i s) = true.
Proof.
  revert pos. induction s as [|c s IH]; intros pos H; [done |].
  cbn [is_ascii first_non_ascii] in *. case_bool_decide as Hc.
  - cbn [andb] in H. destruct (IH (S pos) H) as (c' & i & Hf & Hge & Hget & Htake).
    exists c', (S i). rewrite Hf. split; [f_equal; f_equal; lia |].
    split; [done |]. split; [done |]. cbn [Str.take is_ascii].
    by rewrite bool_decide_eq_true_2, Htake.
  - exists c, 0. rewrite Nat.add_0_r. split; [done |]. split; [lia |]. done.
Qed.

Lemma lower_char_dot (x : ascii) :
  Ascii.eqb "." (Str.lower_char x) = Ascii.eqb "." x.
Proof. by destruct x as [[] [] [] [] [] [] [] []]. Qed.

Lemma contains_dot_lower (s : string) :
  Str.contains "." (Str.lower s) = Str.contains "." s.
Proof.
  induction s as [|x s IH]; [done |].
  cbn [Str.lower]. by rewrite !contains_char_cons, lower_char_dot, IH.
Qed.

Lemma form_global_name_has_dot (stream_path : string) (fv : form_variables) :
  Str.contains "." (form_global_name stream_path fv) = true.
Proof.
  unfold form_global_name.
  rewrite contains_dot_lower, contains_char_delete by done.
  apply contains_mid.
Qed.

Lemma append_inv_head (a b c : string) : a +:+ b = a +:+ c -> b = c.
Proof.
  induction a as [|x a IH]; [done |]. rewrite !app_cons_str. intros [= H]. by apply IH.
Qed.

Lemma append_nonempty_ne (a b : string) : b <> EmptyString -> a <> a +:+ b.
Proof.
  intros Hb H. apply Hb. apply (append_inv_head a). by rewrite app_nil_r_str.
Qed.

(** X24.  A form control whose stream name and control name are ASCII
    is always registered under its short name too: its global name holds a
    dot, so that the short name, the part after the last dot, and its four
    attributes become globals of the emulator, with the value (the caption
    when the control has no value), the tag, the caption and the tip text of
    the control.  When one of the two names holds a byte above 127, the
    encoding of the global name raises UnicodeDecodeError for the first such
    byte, before any global is written. *)
Theorem form_control_short_name_registered {Action Core : Type}
    (vm : @ViperMonkey Action Core) (subfilename stream_path : string)
    (fv : form_variables) :
  let raw := after_last_slash stream_path +:+ "." +:+ fv_name fv in
  (is_ascii raw = true ->
   exists vm' i,
     add_form_variables vm (subfilename, stream_path, Some fv) = Return vm'
     /\ Str.rfind "." (form_global_name stream_path fv) = Some i
     /\ let short := Str.drop (i + 1) (form_global_name stream_path fv) in
        let caption := clean_form_text (fv_caption fv) in
        let g := globals vm' in
        g !! short = Some (default caption (fv_value fv))
        /\ g !! (short +:+ ".tag") = Some (clean_form_text (fv_tag fv))
        /\ g !! (short +:+ ".caption") = Some caption
        /\ g !! (short +:+ ".controltiptext")
           = Some (clean_form_text (fv_control_tip_text fv))
        /\ g !! (short +:+ ".text") = Some (default caption (fv_value fv)))
  /\ (is_ascii raw = false ->
      exists c pos,
        add_form_variables vm (subfilename, stream_path, Some fv)
        = Raise (UnicodeDecodeError c pos)
        /\ is_Exception (UnicodeDecodeError c pos) = true
        /\ 128 <= nat_of_ascii c
        /\ String.get pos raw = Some c
        /\ is_ascii (Str.take pos raw) = true).
Proof.
  intros raw. subst raw. split.
  - intros Hascii.
    destruct (rfind_of_contains _ _ (form_global_name_has_dot stream_path fv)) as [i Hi].
    eexists _, i. unfold add_form_variables, encode_ascii_ignore.
    rewrite (first_non_ascii_none _ 0 Hascii).
    fold (form_global_name stream_path fv). rewrite Hi.
    split; [reflexivity |]. split; [done |]. cbv zeta. cbn [globals].
    generalize (Str.drop (i + 1) (form_global_name stream_path fv)). intros short.
    generalize (set_form_globals (form_global_name stream_path fv)
                  (default (clean_form_text (fv_caption fv)) (fv_value fv))
                  (clean_form_text (fv_tag fv)) (clean_form_text (fv_caption fv))
                  (clean_form_text (fv_control_tip_text fv)) (globals vm)).
    intros g. unfold set_form_globals.
    assert (forall a b : string, a <> b -> short +:+ a <> short +:+ b) as Hne
      by (intros a b Hab H; by apply Hab, (append_inv_head short)).
    assert (forall b : string, b <> EmptyString -> short +:+ b <> short) as Hne0
      by (intros b Hb H; by apply (append_nonempty_ne short b)).
    repeat split.
    + rewrite !lookup_insert_ne by (apply Hne0; done). apply lookup_insert_eq.
    + rewrite !lookup_insert_ne by (apply Hne; done). apply lookup_insert_eq.
    + rewrite !lookup_insert_ne by (apply Hne; done). apply lookup_insert_eq.
    + rewrite !lookup_insert_ne by (apply Hne; done). apply lookup_insert_eq.
    + apply lookup_insert_eq.
  - intros Hascii.
    destruct (first_non_ascii_some _ 0 Hascii) as (c & pos & Hf & Hge & Hget & Htake).
    exists c, pos. unfold add_form_variables, encode_ascii_ignore.
    rewrite Hf. done.
Qed.

(** X24 on a text box, and on a control whose name ends with the byte
    233. *)
Lemma form_control_short_name_registered_witness :
  (exists vm' i,
     add_form_variables sample_vm
       ("doc.docm", "Macros/UserForm1/o",
        Some (FormVariables "TextBox1" (Some "tag") (Some "Open") (Some "cmd.exe") None))
     = Return vm'
     /\ Str.rfind "." "o.textbox1" = Some i
     /\ globals vm' !! Str.drop (i + 1) "o.textbox1" = Some "cmd.exe"
     /\ globals vm' !! (Str.drop (i + 1) "o.textbox1" +:+ ".tag") = Some "tag"
     /\ globals vm' !! (Str.drop (i + 1) "o.textbox1" +:+ ".caption") = Some "Open"
     /\ globals vm' !! (Str.drop (i + 1) "o.textbox1" +:+ ".controltiptext")
        = Some EmptyString
     /\ globals vm' !! (Str.drop (i + 1) "o.textbox1" +:+ ".text") = Some "cmd.exe")
  /\ (exists c pos,
        add_form_variables sample_vm
          ("doc.docm", "Macros/UserForm1/o",
           Some (FormVariables ("caf" +:+ String "233" EmptyString) None
                   (Some "Open") None None))
        = Raise (UnicodeDecodeError c pos)
        /\ is_Exception (UnicodeDecodeError c pos) = true
        /\ 128 <= nat_of_ascii c
        /\ String.get pos ("o.caf" +:+ String "233" EmptyString) = Some c
        /\ is_ascii (Str.take pos ("o.caf" +:+ String "233" EmptyString)) = true).
Proof.
  split.
  - apply (proj1 (form_control_short_name_registered sample_vm "doc.docm"
                    "Macros/UserForm1/o"
                    (FormVariables "TextBox1" (Some "tag") (Some "Open")
                       (Some "cmd.exe") None))).
    vm_compute. reflexivity.
  - apply (proj2 (form_control_short_name_registered sample_vm "doc.docm"
                    "Macros/UserForm1/o"
                    (FormVariables ("caf" +:+ String "233" EmptyString) None
                       (Some "Open") None None))).
    vm_compute. reflexivity.
Defined.

(** X25.  The loop over the streams in [process_file_scanexpr] never
    raises, and the code it hands to the expression scanner is, stream after
    stream, a newline and the filtered code with long lines collapsed; a
    stream whose filtered code is blank adds nothing, not even the
    newline. *)
Theorem scan_collects_collapsed_code {AST Meta Action Core : Type}
    (w : @collaborators AST Meta Action Core)
    (macros : list (string * string * string * string)) (all_code : string)
    (s : @py_state Meta) :
  exists s',
    for_each macros all_code (scan_stream w) s
    = (Return (all_code +:+ String.concat "" (map (scanned_code w) macros)), s').
Proof.
  revert all_code s.
  induction macros as [|[[[subfilename stream_path] vba_filename] vba_code] macros IH];
    intros all_code s.
  - exists s. cbn [for_each map String.concat]. by rewrite app_nil_r_str.
  - cbn [for_each].
    assert (exists s1,
              scan_stream w all_code (subfilename, stream_path, vba_filename, vba_code) s
              = (Return (all_code
                         +:+ scanned_code w
                               (subfilename, stream_path, vba_filename, vba_code)), s1))
      as [s1 Hs1].
    { unfold scan_stream, scanned_code. cbn [snd]. rewrite !bind_print.
      destruct (String.eqb _ EmptyString).
      - rewrite bind_print, app_nil_r_str. by eexists.
      - rewrite bind_print. by eexists. }
    erewrite bind_run by exact Hs1.
    destruct (IH (all_code +:+ scanned_code w
                    (subfilename, stream_path, vba_filename, vba_code)) s1)
      as [s' Hs'].
    exists s'. rewrite Hs'. do 2 f_equal.
    rewrite app_assoc_str. f_equal.
    cbn [map]. generalize (map (scanned_code w) macros). intros rest.
    destruct rest; [by rewrite app_nil_r_str | done].
Qed.

(** ** The assignment pattern *)

Lemma assigned_name_at_prefix (p s var : string) :
  assigned_name_at s var -> assigned_name_at (p +:+ s) var.
Proof.
  intros (before & ws & after & -> & Hws). exists (p +:+ before), ws, after.
  by rewrite app_assoc_str.
Qed.

(** A match of the pattern: white space, the name, white space, the equals
    sign, white space, and the text the scan resumes at. *)
Lemma assign_re_match_decompose (s var rest : string) :
  assign_re_match s = Some (var, rest) ->
  exists a ws ws' c m,
    s = a +:+ var +:+ ws +:+ "=" +:+ ws' +:+ rest
    /\ all_space ws = true
    /\ var = String c m /\ Str.isword c = true.
Proof.
  unfold assign_re_match. intros H.
  destruct (lstrip_decompose s) as (a & Hs & _).
  destruct (Str.lstrip s) as [|c s1]; [done |].
  destruct (Str.isword c) eqn:Hc; [| done].
  destruct (name_tail s1) as [m r] eqn:E. apply name_tail_app in E.
  destruct (lstrip_decompose r) as (ws & Hr & Hws).
  destruct (Str.lstrip r) as [|e r1]; [done |].
  destruct (Ascii.eqb e "=") eqn:Ee; [| done]. apply Ascii.eqb_eq in Ee as ->.
  injection H as <- <-.
  destruct (lstrip_decompose r1) as (ws' & Hr1 & _).
  exists a, ws, ws', c, m. split; [| done].
  rewrite Hs at 1. rewrite E, Hr, Hr1 at 1.
  by rewrite !app_cons_str, <- !app_assoc_str.
Qed.

Lemma findall_fuel_found (fuel : nat) (s var : string) :
  var ∈ findall_fuel fuel s ->
  assigned_name_at s var /\ exists c m, var = String c m /\ Str.isword c = true.
Proof.
  revert s. induction fuel as [|fuel IH]; intros s H; [by apply elem_of_nil in H |].
  cbn [findall_fuel] in H.
  destruct (assign_re_match s) as [[v rest] |] eqn:E.
  - apply assign_re_match_decompose in E
      as (a & ws & ws' & c & m & Hs & Hws & Hv & Hc).
    apply elem_of_cons in H as [-> | H].
    + split; [| by exists c, m]. exists a, ws, (ws' +:+ rest). done.
    + destruct (IH _ H) as [Hat Hword]. split; [| done].
      rewrite Hs.
      replace (a +:+ v +:+ ws +:+ "=" +:+ ws' +:+ rest)
        with ((a +:+ v +:+ ws +:+ "=" +:+ ws') +:+ rest)
        by (by rewrite !app_assoc_str).
      by apply assigned_name_at_prefix.
  - destruct s as [|c s]; [by apply elem_of_nil in H |].
    destruct (IH _ H) as [Hat Hword]. split; [| done].
    by apply (assigned_name_at_prefix (String c EmptyString)).
Qed.

(** X26.  Every name the assignment pattern finds on a line starts with a
    word character and stands on the line right before white space, if any,
    and an equals sign; in particular its text occurs on the line, which is
    why the reference scan has to pass over the lines recorded for a
    variable. *)
Theorem found_names_stand_before_equals (line var : string) :
  var ∈ assign_re_findall line ->
  assigned_name_at line var
  /\ (exists c m, var = String c m /\ Str.isword c = true)
  /\ Str.contains var line = true.
Proof.
  intros H. apply findall_fuel_found in H as [Hat Hword].
  split; [done |]. split; [done |].
  destruct Hat as (before & ws & after & -> & _).
  apply contains_mid.
Qed.

Lemma found_names_stand_before_equals_witness :
  assigned_name_at "a = b = 12" "b"
  /\ (exists c m, "b" = String c m /\ Str.isword c = true)
  /\ Str.contains "b" "a = b = 12" = true.
Proof.
  apply found_names_stand_before_equals. vm_compute. right. left.
Defined.
